(** * cognigraph: the invalidation protocol of [cognigraph/nodes/node.py]

    A shallow embedding of the classes [Node] and [SourceNode] and the
    properties of their pull cycle.

    Python objects live in a store indexed by locations, so that a node and
    its successor see the same predecessor object.  Every attribute write of
    the source goes through [Node.__setattr__], as it does in Python, and
    exceptions keep the store as it was when they were raised. *)

From Stdlib Require Import ZArith String List Bool Lia.
From stdpp Require Import base option list gmap strings.

Set Warnings "-register-all".

Local Open Scope string_scope.
Local Open Scope list_scope.
Local Open Scope Z_scope.

(** ** Values, objects and the store *)

Definition loc := nat.

(** The Python values the protocol handles.  A dict is kept in insertion
    order, as [dict.items()] iterates it.  A number [VInt z] is a Python
    [int], or a [float] that holds the whole number [z] (see [float_exact]
    for the numbers of the clock).  Other floats (NaN among them) and numpy
    arrays are not values of the model: a property that compares or adds
    values says so in its hypotheses. *)
Inductive value : Type :=
  | VNone
  | VBool (b : bool)
  | VInt (z : Z)
  | VStr (s : string)
  | VRef (l : loc)
  | VDict (d : list (string * value)).

Inductive exn : Type :=
  | AttributeError (msg : string)
  | NotImplementedError (msg : string)
  | TypeError (msg : string)
  | RecursionError
  | SystemError (msg : string)
  | OtherError (kind msg : string).

Inductive result (A : Type) : Type :=
  | Ok (a : A)
  | Err (e : exn).
Arguments Ok {A} a.
Arguments Err {A} e.

(** An instance: the name of its class and its instance dictionary. *)
Record obj : Type := Obj { obj_class : string; obj_attrs : gmap string value }.

(** The store and the wall clock read by [time.time()]. *)
Record world : Type := World { objs : gmap loc obj; now : Z }.

(** ** A state and exception monad *)

Definition ST (S A : Type) : Type := S -> result A * S.

Definition ret {S A} (a : A) : ST S A := fun s => (Ok a, s).
Definition raise {S A} (e : exn) : ST S A := fun s => (Err e, s).
Definition bind {S A B} (m : ST S A) (k : A -> ST S B) : ST S B :=
  fun s => match m s with
           | (Ok a, s') => k a s'
           | (Err e, s') => (Err e, s')
           end.

Notation "x <- c1 ;; c2" := (bind c1 (fun x => c2))
  (at level 100, c1 at next level, right associativity).
Notation "c1 ;; c2" := (bind c1 (fun _ => c2))
  (at level 100, right associativity).

(** [try: m except AttributeError: h] *)
Definition try_except_AttributeError {S A} (m h : ST S A) : ST S A :=
  fun s => match m s with
           | (Err (AttributeError _), s') => h s'
           | r => r
           end.

Definition W (A : Type) : Type := ST world A.

(** ** Python primitives *)

Definition is_None (v : value) : bool :=
  match v with VNone => true | _ => false end.

(** [v is True] *)
Definition is_True (v : value) : bool :=
  match v with VBool true => true | _ => false end.

(** Truth value of [v] in an [if]. *)
Definition truthy (v : value) : bool :=
  match v with
  | VNone => false
  | VBool b => b
  | VInt z => negb (z =? 0)
  | VStr s => negb (String.eqb s EmptyString)
  | VRef _ => true
  | VDict d => negb (Nat.eqb (length d) 0)
  end.

Definition as_number (v : value) : option Z :=
  match v with
  | VBool b => Some (Z.b2z b)
  | VInt z => Some z
  | _ => None
  end.

Fixpoint dict_get (k : string) (d : list (string * value)) : option value :=
  match d with
  | [] => None
  | (k', v) :: d' => if String.eqb k k' then Some v else dict_get k d'
  end.

(** [d[k] = v]: an existing key keeps its place. *)
Fixpoint dict_set (k : string) (v : value) (d : list (string * value))
  : list (string * value) :=
  match d with
  | [] => [(k, v)]
  | (k', v') :: d' =>
      if String.eqb k k' then (k, v) :: d' else (k', v') :: dict_set k v d'
  end.

(** [a == b] on the values of the model.  Booleans are integers; nodes
    define no [__eq__], so two references are equal when they are the same
    object.  On these values [==] returns a [bool]; what Python does on a NaN
    (which differs from itself) or on a numpy array (whose comparison is an
    array, refused by [if]) is outside the model. *)
Fixpoint py_eq (a b : value) {struct a} : bool :=
  match a, b with
  | VNone, VNone => true
  | VBool x, VBool y => Bool.eqb x y
  | VBool x, VInt y => Z.b2z x =? y
  | VInt x, VBool y => x =? Z.b2z y
  | VInt x, VInt y => x =? y
  | VStr x, VStr y => String.eqb x y
  | VRef x, VRef y => Nat.eqb x y
  | VDict d1, VDict d2 =>
      Nat.eqb (length d1) (length d2) &&
      forallb (fun kv => match kv with
                         | (k, v) => match dict_get k d2 with
                                     | Some v' => py_eq v v'
                                     | None => false
                                     end
                         end) d1
  | _, _ => false
  end.

(** [a != b] *)
Definition py_ne (a b : value) : bool := negb (py_eq a b).

Definition type_name (w : world) (v : value) : string :=
  match v with
  | VNone => "NoneType"
  | VBool _ => "bool"
  | VInt _ => "int"
  | VStr _ => "str"
  | VDict _ => "dict"
  | VRef l => match objs w !! l with
              | Some o => obj_class o
              | None => "object"
              end
  end.

Definition no_attribute (cls name : string) : exn :=
  AttributeError ("'" +:+ cls +:+ "' object has no attribute '" +:+ name +:+ "'").

(** [getattr(v, name)] and [v.name] for a name that is looked up in the
    instance dictionary: the attributes the constructors and the methods
    assign.  Python finds other names on the class of the object (the
    methods, properties and class constants of [class_level_names], and the
    names with two leading underscores that [object] and [NoneType] define);
    those are not looked up here, and a property about a name chosen by the
    caller asks for a [data_attribute]. *)
Definition getattr (v : value) (name : string) : W value :=
  fun w =>
    match v with
    | VRef l =>
        match objs w !! l with
        | Some o =>
            match obj_attrs o !! name with
            | Some x => (Ok x, w)
            | None => (Err (no_attribute (obj_class o) name), w)
            end
        | None => (Err (no_attribute "object" name), w)
        end
    | _ => (Err (no_attribute (type_name w v) name), w)
    end.

(** The store after [key] of the object at [l] is bound to [v]. *)
Definition set_attr (l : loc) (key : string) (v : value) (w : world) : world :=
  match objs w !! l with
  | Some o =>
      World (<[l := Obj (obj_class o) (<[key := v]> (obj_attrs o))]> (objs w)) (now w)
  | None => w
  end.

(** [object.__setattr__(self, key, v)] for a name kept in the instance
    dictionary.  (Python refuses a name that the class defines as a property
    without a setter, as [is_alive] is on a source; the code assigns no such
    name.) *)
Definition object_setattr (l : loc) (key : string) (v : value) : W unit :=
  fun w =>
    match objs w !! l with
    | Some _ => (Ok tt, set_attr l key v w)
    | None => (Err (SystemError "no such object"), w)
    end.

(** The value of an instance attribute, if the object has it. *)
Definition attr (w : world) (l : loc) (name : string) : option value :=
  match objs w !! l with
  | Some o => obj_attrs o !! name
  | None => None
  end.

Definition class_of (l : loc) : W string :=
  fun w =>
    match objs w !! l with
    | Some o => (Ok (obj_class o), w)
    | None => (Err (SystemError "no such object"), w)
    end.

(** [time.time()].  The reading is a float; the model holds it as the
    whole number of ticks it counts (see [float_exact]). *)
Definition time_time : W Z := fun w => (Ok (now w), w).

(** [a + b] *)
Definition py_add (a b : value) : W value :=
  fun w =>
    match as_number a, as_number b with
    | Some x, Some y => (Ok (VInt (x + y)), w)
    | _, _ =>
        match a, b with
        | VStr x, VStr y => (Ok (VStr (x +:+ y)), w)
        | _, _ =>
            (Err (TypeError ("unsupported operand type(s) for +: '" +:+ type_name w a
                               +:+ "' and '" +:+ type_name w b +:+ "'")), w)
        end
    end.

(** [a > b] *)
Definition py_gt (a b : value) : W bool :=
  fun w =>
    match as_number a, as_number b with
    | Some x, Some y => (Ok (y <? x), w)
    | _, _ =>
        match a, b with
        | VStr x, VStr y => (Ok (String.ltb y x), w)
        | _, _ =>
            (Err (TypeError ("'>' not supported between instances of '" +:+ type_name w a
                               +:+ "' and '" +:+ type_name w b +:+ "'")), w)
        end
    end.

(** ** What a concrete class supplies *)

(** The validation and the two name tuples.  [None] stands for a tuple the
    class does not define: reading it raises [NotImplementedError], as the
    properties of [Node] do.  [_check_value] only inspects the store: it
    returns the exception it raises, if any. *)
Record class_spec : Type := ClassSpec {
  CHANGES_IN_THESE_REQUIRE_RESET : option (list string);
  UPSTREAM_CHANGES_IN_THESE_REQUIRE_REINITIALIZATION : option (list string);
  _check_value : loc -> string -> value -> world -> option exn
}.

(** The methods a class resolves [_initialize], [reset] and [_update] to. *)
Record class_methods : Type := ClassMethods {
  _initialize : loc -> W unit;
  reset : loc -> W unit;
  _update : loc -> W unit
}.

(** Calls made by the protocol, in order. *)
Inductive event : Type := Called (l : loc) (method : string).

Record state : Type := State { st_world : world; st_calls : list event }.

Definition M (A : Type) : Type := ST state A.

Definition lift {A} (m : W A) : M A :=
  fun s => match m (st_world s) with
           | (r, w') => (r, State w' (st_calls s))
           end.

Definition called (l : loc) (method : string) : M unit :=
  fun s => (Ok tt, State (st_world s) (st_calls s ++ [Called l method])).

(** ** class Node *)

Module Node.

Section Protocol.

Variable spec_of : string -> class_spec.

Definition read_tuple (t : option (list string)) (msg : string) : W (list string) :=
  match t with
  | Some names => ret names
  | None => raise (NotImplementedError msg)
  end.

(** [self.CHANGES_IN_THESE_REQUIRE_RESET] *)
Definition self_CHANGES_IN_THESE_REQUIRE_RESET (self : loc) : W (list string) :=
  c <- class_of self ;;
  read_tuple (CHANGES_IN_THESE_REQUIRE_RESET (spec_of c))
    "Each subclass of Node must have a CHANGES_IN_THESE_REQUIRE_RESET constant defined".

(** [self.UPSTREAM_CHANGES_IN_THESE_REQUIRE_REINITIALIZATION] *)
Definition self_UPSTREAM_CHANGES_IN_THESE_REQUIRE_REINITIALIZATION (self : loc)
  : W (list string) :=
  c <- class_of self ;;
  read_tuple (UPSTREAM_CHANGES_IN_THESE_REQUIRE_REINITIALIZATION (spec_of c))
    "Each subclass of Node must have a CHANGES_IN_THESE_REQUIRE_REINITIALIZATION constant defined".

(** [self._check_value(key, v)] *)
Definition self_check_value (self : loc) (key : string) (v : value) : W unit :=
  c <- class_of self ;;
  fun w => match _check_value (spec_of c) self key v w with
           | Some e => (Err e, w)
           | None => (Ok tt, w)
           end.

(** [Node.__setattr__].  The two writes of the trigger branch are attribute
    writes of [self] too, so they re-enter [__setattr__]; [fuel] is the
    depth of interpreter stack left. *)
Fixpoint __setattr__ (fuel : nat) (self : loc) (key : string) (v : value) : W unit :=
  match fuel with
  | O => raise RecursionError
  | S n =>
      self_check_value self key v ;;
      names <- self_CHANGES_IN_THESE_REQUIRE_RESET self ;;
      (if bool_decide (key ∈ names)
       then __setattr__ n self "_should_reset" (VInt 1) ;;
            __setattr__ n self "there_has_been_a_change" (VBool true)
       else ret tt) ;;
      object_setattr self key v
  end.

(** [target.key = v] for an arbitrary target. *)
Definition setattr (fuel : nat) (target : value) (key : string) (v : value) : W unit :=
  match target with
  | VRef l => __setattr__ fuel l key v
  | _ => fun w => (Err (no_attribute (type_name w target) key), w)
  end.

(** Modelled from the spec: [class_name_of] is in [helpers/misc.py], which
    is not part of the sources; the error of the traversal names the type of
    the requesting node, so it is the name of the class of its argument. *)
Definition class_name_of (self : loc) : W string := class_of self.

Definition missing_upstream (cls item : string) : exn :=
  AttributeError ("None of the predecessors of a " +:+ cls
                    +:+ " node contains attribute " +:+ item).

(** [Node.traverse_back_and_find] *)
Fixpoint traverse_back_and_find (fuel : nat) (self : loc) (item : string) : W value :=
  match fuel with
  | O => raise RecursionError
  | S n =>
      try_except_AttributeError
        (p <- getattr (VRef self) "input_node" ;; getattr p item)
        (try_except_AttributeError
           (p <- getattr (VRef self) "input_node" ;;
            match p with
            | VRef l => traverse_back_and_find n l item
            | _ => fun w => (Err (no_attribute (type_name w p) "traverse_back_and_find"), w)
            end)
           (c <- class_name_of self ;; raise (missing_upstream c item)))
  end.

(** The dict comprehension of [initialize]. *)
Fixpoint snapshot (fuel : nat) (self : loc) (names : list string)
    (d : list (string * value)) : W (list (string * value)) :=
  match names with
  | [] => ret d
  | item :: rest =>
      v <- traverse_back_and_find fuel self item ;;
      snapshot fuel self rest (dict_set item v d)
  end.

(** [Node._there_was_a_change_upstream] *)
Definition _there_was_a_change_upstream (self : loc) : W bool :=
  p <- getattr (VRef self) "input_node" ;;
  if is_None p then ret false
  else
    p' <- getattr (VRef self) "input_node" ;;
    f <- getattr p' "there_has_been_a_change" ;;
    ret (is_True f).

(** The loop of [Node._the_change_requires_reinitialization]. *)
Fixpoint any_item_changed (fuel : nat) (self : loc) (items : list (string * value))
  : W bool :=
  match items with
  | [] => ret false
  | (item, saved) :: rest =>
      cur <- traverse_back_and_find fuel self item ;;
      if py_ne saved cur then ret true else any_item_changed fuel self rest
  end.

(** [d.items()] *)
Definition dict_items (d : value) : W (list (string * value)) :=
  match d with
  | VDict items => ret items
  | _ => fun w => (Err (no_attribute (type_name w d) "items"), w)
  end.

(** [Node._the_change_requires_reinitialization] *)
Definition _the_change_requires_reinitialization (fuel : nat) (self : loc) : W bool :=
  d <- getattr (VRef self) "_saved_from_upstream" ;;
  items <- dict_items d ;;
  any_item_changed fuel self items.

(** [Node._react_to_the_change_upstream] *)
Definition _react_to_the_change_upstream (fuel : nat) (self : loc) : W unit :=
  b <- _the_change_requires_reinitialization fuel self ;;
  (if b then __setattr__ fuel self "_should_initialize" (VBool true)
   else __setattr__ fuel self "_should_reset" (VBool true)) ;;
  p <- getattr (VRef self) "input_node" ;;
  setattr fuel p "there_has_been_a_change" (VBool false) ;;
  __setattr__ fuel self "there_has_been_a_change" (VBool true).

(** [Node.__init__] *)
Definition __init__ (fuel : nat) (self : loc) : W unit :=
  __setattr__ fuel self "input_node" VNone ;;
  __setattr__ fuel self "output" VNone ;;
  __setattr__ fuel self "there_has_been_a_change" (VBool false) ;;
  __setattr__ fuel self "_should_initialize" (VBool true) ;;
  __setattr__ fuel self "_should_reset" (VBool false) ;;
  __setattr__ fuel self "_saved_from_upstream" VNone.

(** The bodies [Node] gives to its abstract methods. *)
Definition _check_value_abstract : loc -> string -> value -> world -> option exn :=
  fun _ _ _ _ => Some (NotImplementedError EmptyString).
Definition _initialize_abstract : loc -> W unit :=
  fun _ => raise (NotImplementedError EmptyString).
Definition _update_abstract : loc -> W unit :=
  fun _ => raise (NotImplementedError EmptyString).
Definition reset_abstract : loc -> W unit :=
  fun _ => raise (NotImplementedError EmptyString).

Variable methods_of : string -> class_methods.

(** [self.name()] for a method a subclass supplies. *)
Definition call_method (self : loc) (name : string)
    (pick : class_methods -> loc -> W unit) : M unit :=
  called self name ;;
  lift (c <- class_of self ;; pick (methods_of c) self).

(** [Node.initialize] *)
Definition initialize (fuel : nat) (self : loc) : M unit :=
  called self "initialize" ;;
  lift (names <- self_UPSTREAM_CHANGES_IN_THESE_REQUIRE_REINITIALIZATION self ;;
        d <- snapshot fuel self names [] ;;
        __setattr__ fuel self "_saved_from_upstream" (VDict d)) ;;
  call_method self "_initialize" _initialize.

(** [Node._reset_or_reinitialize_if_needed] *)
Definition _reset_or_reinitialize_if_needed (fuel : nat) (self : loc) : M unit :=
  i <- lift (getattr (VRef self) "_should_initialize") ;;
  (if is_True i then initialize fuel self
   else
     r <- lift (getattr (VRef self) "_should_reset") ;;
     if is_True r then call_method self "reset" reset else ret tt) ;;
  lift (__setattr__ fuel self "_should_initialize" (VBool false)) ;;
  lift (__setattr__ fuel self "_should_reset" (VBool false)).

(** [Node.update] *)
Definition update (fuel : nat) (self : loc) : M unit :=
  lift (__setattr__ fuel self "output" VNone) ;;
  b <- lift (_there_was_a_change_upstream self) ;;
  (if b then lift (_react_to_the_change_upstream fuel self) else ret tt) ;;
  _reset_or_reinitialize_if_needed fuel self ;;
  call_method self "_update" _update.

End Protocol.

End Node.

(** ** class SourceNode(Node) *)

Module SourceNode.

Section Source.

Variable spec_of : string -> class_spec.

(** [UPSTREAM_CHANGES_IN_THESE_REQUIRE_REINITIALIZATION = ()] *)
Definition UPSTREAM_CHANGES : list string := [].

(** [SourceNode.__init__] *)
Definition __init__ (fuel : nat) (self : loc) (seconds_to_live : value) : W unit :=
  Node.__init__ spec_of fuel self ;;
  Node.__setattr__ spec_of fuel self "frequency" VNone ;;
  Node.__setattr__ spec_of fuel self "dtype" VNone ;;
  Node.__setattr__ spec_of fuel self "channel_count" VNone ;;
  Node.__setattr__ spec_of fuel self "channel_labels" VNone ;;
  Node.__setattr__ spec_of fuel self "source_name" VNone ;;
  Node.__setattr__ spec_of fuel self "_should_self_destruct"
    (VBool (negb (is_None seconds_to_live))) ;;
  d <- getattr (VRef self) "_should_self_destruct" ;;
  if truthy d then
    Node.__setattr__ spec_of fuel self "_birthtime" VNone ;;
    Node.__setattr__ spec_of fuel self "_seconds_to_live" seconds_to_live ;;
    Node.__setattr__ spec_of fuel self "_is_alive" (VBool true)
  else ret tt.

(** The property [SourceNode.is_alive] *)
Definition is_alive (fuel : nat) (self : loc) : W value :=
  d <- getattr (VRef self) "_should_self_destruct" ;;
  (if truthy d then
     current_time_in_s <- time_time ;;
     b <- getattr (VRef self) "_birthtime" ;;
     s <- getattr (VRef self) "_seconds_to_live" ;;
     deadline <- py_add b s ;;
     late <- py_gt (VInt current_time_in_s) deadline ;;
     if late then Node.__setattr__ spec_of fuel self "_is_alive" (VBool false)
     else ret tt
   else ret tt) ;;
  getattr (VRef self) "_is_alive".

(** [SourceNode._initialize] *)
Definition _initialize (fuel : nat) (self : loc) : W unit :=
  d <- getattr (VRef self) "_should_self_destruct" ;;
  if truthy d then
    t <- time_time ;;
    Node.__setattr__ spec_of fuel self "_birthtime" (VInt t)
  else ret tt.

(** [SourceNode._update]: [super()._update()] *)
Definition _update (self : loc) : W unit := Node._update_abstract self.

(** The methods of a subclass of [SourceNode] that overrides none of them:
    [reset] is still the abstract one of [Node]. *)
Definition methods (fuel : nat) : class_methods :=
  ClassMethods (_initialize fuel) Node.reset_abstract _update.

End Source.

End SourceNode.

(** ** Creating objects and moving the clock *)

(** [cls.__new__]: a fresh object with an empty instance dictionary. *)
Definition new_object (cls : string) : W loc :=
  fun w =>
    let l := fresh (dom (objs w)) in
    (Ok l, World (<[l := Obj cls ∅]> (objs w)) (now w)).

(** What the environment does between two calls: time passes. *)
Definition at_time (t : Z) (w : world) : world := World (objs w) t.

(** [SourceNode(seconds_to_live)] for a class [cls] that inherits the
    constructor. *)
Definition construct_source (spec_of : string -> class_spec) (fuel : nat)
    (cls : string) (seconds_to_live : value) : W loc :=
  self <- new_object cls ;;
  SourceNode.__init__ spec_of fuel self seconds_to_live ;;
  ret self.

(** * What the properties speak of *)

(** [m] keeps [P], whether it returns or raises. *)
Definition preserves {S A} (P : S -> Prop) (m : ST S A) : Prop :=
  forall s, P s -> P (snd (m s)).

(** [m] only reads the state. *)
Definition read_only {S A} (m : ST S A) : Prop := forall s, snd (m s) = s.

(** The names the class bodies of [Node] and [SourceNode] define, besides
    those with two leading underscores: the two name tuples (properties of
    [Node], constants of its subclasses), the methods, and the property
    [is_alive].  Python's [getattr] finds them on the class of a node (of a
    source, for [is_alive]): the properties before it looks in the instance
    dictionary, the others when the instance dictionary has no such name. *)
Definition class_level_names : list string :=
  ["CHANGES_IN_THESE_REQUIRE_RESET";
   "UPSTREAM_CHANGES_IN_THESE_REQUIRE_REINITIALIZATION";
   "initialize"; "_initialize"; "_check_value"; "update"; "_update"; "reset";
   "traverse_back_and_find"; "_there_was_a_change_upstream";
   "_react_to_the_change_upstream"; "_reset_or_reinitialize_if_needed";
   "_the_change_requires_reinitialization"; "is_alive"].

(** [name] starts with two underscores, as every attribute of [object] and
    of [NoneType] does ([__class__], [__doc__], [__init__], ...). *)
Definition dunder (name : string) : bool := String.prefix "__" name.

(** A name that Python's [getattr] looks up in the instance dictionary of
    a node and nowhere else, and that [None] does not have: on such a name
    [getattr] above is Python's.  (The classes of [node.py] are meant; a
    subclass that adds a class attribute under the name takes it out of
    this.) *)
Definition data_attribute (name : string) : bool :=
  negb (dunder name) && negb (bool_decide (name ∈ class_level_names)).

(** A number of the clock arithmetic that a float holds exactly.  Clock
    readings and lifetimes are counted in ticks, a fixed power-of-two
    fraction of a second; a double holds a whole number of ticks exactly up
    to [2 ^ 53], and on such numbers whose sum is one as well, the float [+]
    and [>] of [is_alive] are the integer ones. *)
Definition float_exact (z : Z) : Prop := Z.abs z <= 2 ^ 53.



(** Nothing is reported from upstream: [self] heads the chain, or the flag
    of its predecessor is not [True]. *)
Definition no_change_upstream (w : world) (self : loc) : Prop :=
  attr w self "input_node" = Some VNone \/
  exists p f,
    p <> self /\ attr w self "input_node" = Some (VRef p) /\
    attr w p "there_has_been_a_change" = Some f /\ is_True f = false.

(** [P] does not depend on the attributes the protocol keeps for itself,
    whatever the object. *)
Definition ignores_bookkeeping (P : world -> Prop) : Prop :=
  forall l k v w,
    k ∈ ["_should_initialize"; "_should_reset"; "there_has_been_a_change";
         "_saved_from_upstream"] ->
    P w -> P (set_attr l k v w).

Section PullParts.

Variable spec_of : string -> class_spec.
Variable methods_of : string -> class_methods.

(** The method [pick] of the class of [self] keeps [P]. *)
Definition method_preserves (P : world -> Prop) (self : loc)
    (pick : class_methods -> loc -> W unit) : Prop :=
  forall o w, P w -> objs w !! self = Some o ->
              P (snd (pick (methods_of (obj_class o)) self w)).

(** The part of [update] between clearing [output] and computing. *)
Definition react_and_resolve (fuel : nat) (self : loc) : M unit :=
  b <- lift (Node._there_was_a_change_upstream self) ;;
  (if b then lift (Node._react_to_the_change_upstream spec_of fuel self) else ret tt) ;;
  Node._reset_or_reinitialize_if_needed spec_of methods_of fuel self.

End PullParts.

(** * A chain to run the protocol on *)

Module Example.

Definition fuel : nat := 8.

Definition accept_all : loc -> string -> value -> world -> option exn :=
  fun _ _ _ _ => None.

(** A source that takes no frequency below one. *)
Definition check_Source (self : loc) (key : string) (v : value) (w : world)
  : option exn :=
  if String.eqb key "frequency" then
    match v with
    | VNone => None
    | VInt z =>
        if 0 <? z then None
        else Some (OtherError "ValueError" "frequency must be positive")
    | _ => Some (OtherError "ValueError" "frequency must be a number")
    end
  else None.

Definition spec_of (cls : string) : class_spec :=
  if String.eqb cls "Source" then
    ClassSpec (Some ["frequency"]) (Some SourceNode.UPSTREAM_CHANGES) check_Source
  else if String.eqb cls "BareSource" then
    ClassSpec (Some []) (Some SourceNode.UPSTREAM_CHANGES) accept_all
  else if String.eqb cls "Processor" then
    ClassSpec (Some ["gain"]) (Some ["frequency"]) accept_all
  else if String.eqb cls "Output" then
    ClassSpec (Some []) (Some ["frequency"]) accept_all
  else ClassSpec None None Node._check_value_abstract.

Definition nothing : loc -> W unit := fun _ => ret tt.

(** A compute step that puts [v] in [output]. *)
Definition produce (v : value) : loc -> W unit :=
  fun self => Node.__setattr__ spec_of fuel self "output" v.

(** [BareSource] overrides no method of [SourceNode]. *)
Definition methods_of (cls : string) : class_methods :=
  if String.eqb cls "Source" then
    ClassMethods (SourceNode._initialize spec_of fuel) nothing (produce (VInt 0))
  else if String.eqb cls "BareSource" then SourceNode.methods spec_of fuel
  else if String.eqb cls "Processor" then ClassMethods nothing nothing (produce (VInt 1))
  else if String.eqb cls "Output" then ClassMethods nothing nothing nothing
  else ClassMethods Node._initialize_abstract Node.reset_abstract Node._update_abstract.

Definition src : loc := 0%nat.
Definition proc : loc := 1%nat.
Definition out : loc := 2%nat.

(** [Node(); self.input_node = input_node] for a class [cls]. *)
Definition construct_node (cls : string) (input_node : value) : W loc :=
  self <- new_object cls ;;
  Node.__init__ spec_of fuel self ;;
  Node.__setattr__ spec_of fuel self "input_node" input_node ;;
  ret self.

(** Source(seconds_to_live=2) -> Processor -> Output, built at time 0. *)
Definition build_chain : W unit :=
  a <- construct_source spec_of fuel "Source" (VInt 2) ;;
  b <- construct_node "Processor" (VRef a) ;;
  c <- construct_node "Output" (VRef b) ;;
  ret tt.

Definition chain : state := State (snd (build_chain (World ∅ 0))) [].

Definition run (m : M unit) (s : state) : state := snd (m s).

Definition update (self : loc) : M unit := Node.update spec_of methods_of fuel self.
Definition initialize (self : loc) : M unit := Node.initialize spec_of methods_of fuel self.
Definition mutate (self : loc) (key : string) (v : value) : M unit :=
  lift (Node.__setattr__ spec_of fuel self key v).

(** The processor was initialized by hand, then pulled once after the
    source: its snapshot holds the frequency and all flags are consumed. *)
Definition settled : state :=
  run (update proc) (run (update src) (run (initialize proc) chain)).

(** A lone source that overrides nothing, with two seconds to live. *)
Definition bare : state :=
  State (snd (construct_source spec_of fuel "BareSource" (VInt 2) (World ∅ 0))) [].

Definition tick (t : Z) (s : state) : state := State (at_time t (st_world s)) (st_calls s).

(** The lone source, pulled at time 0 and found dead at time 5; it is now
    time 6. *)
Definition expired : state :=
  tick 6 (run (v <- lift (SourceNode.is_alive spec_of fuel src) ;; ret tt)
            (tick 5 (run (update src) bare))).

(** The object at [l], for a location that is in use. *)
Definition object_at (s : state) (l : loc) : obj :=
  default (Obj EmptyString ∅) (objs (st_world s) !! l).

End Example.

(** * More of what the properties speak of *)

(** ** Chains that are not chains, and sources *)

(** From every node of [S] the chain of [input_node] stays in [S], and no
    node of [S] has the attribute [item]: the chain closes on itself. *)
Definition loops_without (w : world) (item : string) (S : loc -> Prop) : Prop :=
  forall l, S l ->
    exists p, S p /\ attr w l "input_node" = Some (VRef p) /\ attr w p item = None.

(** The attributes [SourceNode.__init__] sets to [None] for every source. *)
Definition source_fields : list string :=
  ["frequency"; "dtype"; "channel_count"; "channel_labels"; "source_name"].

(** * More nodes to run the protocol on *)

Module Cases.

Import Example.

(** The classes of the example, and a class that lists the change flag
    among the names it resets on. *)
Definition spec_of (cls : string) : class_spec :=
  if String.eqb cls "Eager" then
    ClassSpec (Some ["gain"; "there_has_been_a_change"]) (Some []) accept_all
  else Example.spec_of cls.

(** [cls.__new__(cls)] in an empty store. *)
Definition fresh (cls : string) : world := snd (new_object cls (World ∅ 0)).

(** [n = Output(); n.input_node = n] *)
Definition loop : world := snd (construct_node "Output" (VRef src) (World ∅ 0)).

(** A processor that was never connected. *)
Definition headless : state :=
  State (snd (construct_node "Processor" VNone (World ∅ 0))) [].

(** The chain with the processor initialized by hand and the source pulled
    once. *)
Definition unsettled : state := run (update src) (run (initialize proc) chain).

(** The settled chain after [source.frequency = 5]. *)
Definition retuned : state := run (mutate src "frequency" (VInt 5)) settled.

(** A lone source of the class [Source], whose compute step produces 0,
    with two seconds to live. *)
Definition lone : state :=
  State (snd (construct_source Example.spec_of fuel "Source" (VInt 2) (World ∅ 0))) [].

(** It was pulled at time 0 and found dead at time 5; it is now time 6. *)
Definition spent : state :=
  tick 6 (run (v <- lift (SourceNode.is_alive Example.spec_of fuel src) ;; ret tt)
            (tick 5 (run (update src) lone))).

(** The spent source after [initialize()] at time 100. *)
Definition reborn : state := run (initialize src) (tick 100 spent).

End Cases.

(** * Properties *)

(** ** The monad *)

Lemma bind_Ok_inv {S A B} (m : ST S A) (k : A -> ST S B) s b s' :
  bind m k s = (Ok b, s') ->
  exists a s1, m s = (Ok a, s1) /\ k a s1 = (Ok b, s').
Proof.
  unfold bind. destruct (m s) as [[a|e] s1]; intros H.
  - eauto.
  - discriminate.
Qed.

Lemma bind_Err_inv {S A B} (m : ST S A) (k : A -> ST S B) s e s' :
  bind m k s = (Err e, s') ->
  m s = (Err e, s') \/ exists a s1, m s = (Ok a, s1) /\ k a s1 = (Err e, s').
Proof.
  unfold bind. destruct (m s) as [[a|e0] s1]; intros H.
  - right. eauto.
  - left. congruence.
Qed.

Lemma bind_Ok_run {S A B} (m : ST S A) (k : A -> ST S B) s a s1 :
  m s = (Ok a, s1) -> bind m k s = k a s1.
Proof. intros H. unfold bind. now rewrite H. Qed.

Lemma ret_bind {S A B} (a : A) (k : A -> ST S B) s : bind (ret a) k s = k a s.
Proof. reflexivity. Qed.

Lemma bind_Err_run {S A B} (m : ST S A) (k : A -> ST S B) s e s1 :
  m s = (Err e, s1) -> bind m k s = (Err e, s1).
Proof. intros H. unfold bind. now rewrite H. Qed.

(** Run the first computation of a sequence and split on its outcome. *)
Ltac step_bind E :=
  match goal with
  | |- context [bind ?m ?k ?s] =>
      destruct (m s) as [[?|?] ?] eqn:E;
      [rewrite (bind_Ok_run _ _ _ _ _ E) | rewrite (bind_Err_run _ _ _ _ _ E)];
      cbv beta
  end.

Lemma preserves_ret {S A} (P : S -> Prop) (a : A) : preserves P (ret a).
Proof. intros s H. exact H. Qed.

Lemma preserves_raise {S A} (P : S -> Prop) e : preserves P (@raise S A e).
Proof. intros s H. exact H. Qed.

Lemma preserves_bind {S A B} (P : S -> Prop) (m : ST S A) (k : A -> ST S B) :
  preserves P m -> (forall a, preserves P (k a)) -> preserves P (bind m k).
Proof.
  intros Hm Hk s HP. unfold bind.
  specialize (Hm s HP). destruct (m s) as [[a|e] s1]; simpl in *.
  - now apply Hk.
  - exact Hm.
Qed.

Lemma preserves_try {S A} (P : S -> Prop) (m h : ST S A) :
  preserves P m -> preserves P h -> preserves P (try_except_AttributeError m h).
Proof.
  intros Hm Hh s HP. unfold try_except_AttributeError.
  specialize (Hm s HP). destruct (m s) as [[a|[]] s1]; simpl in *; auto.
Qed.

Lemma preserves_if {S A} (P : S -> Prop) (b : bool) (m1 m2 : ST S A) :
  preserves P m1 -> preserves P m2 -> preserves P (if b then m1 else m2).
Proof. destruct b; auto. Qed.

Lemma read_only_preserves {S A} (P : S -> Prop) (m : ST S A) :
  read_only m -> preserves P m.
Proof. intros H s HP. now rewrite H. Qed.

Lemma read_only_ret {S A} (a : A) : read_only (@ret S A a).
Proof. intros s. reflexivity. Qed.

Lemma read_only_raise {S A} e : read_only (@raise S A e).
Proof. intros s. reflexivity. Qed.

Lemma read_only_bind {S A B} (m : ST S A) (k : A -> ST S B) :
  read_only m -> (forall a, read_only (k a)) -> read_only (bind m k).
Proof.
  intros Hm Hk s. unfold bind. specialize (Hm s).
  destruct (m s) as [[a|e] s1]; simpl in *; subst.
  - apply Hk.
  - reflexivity.
Qed.

Lemma read_only_try {S A} (m h : ST S A) :
  read_only m -> read_only h -> read_only (try_except_AttributeError m h).
Proof.
  intros Hm Hh s. unfold try_except_AttributeError. specialize (Hm s).
  destruct (m s) as [[a|[]] s1]; simpl in *; subst; auto.
Qed.

Lemma read_only_getattr v name : read_only (getattr v name).
Proof.
  intros w. unfold getattr.
  destruct v; try reflexivity.
  destruct (objs w !! l); [destruct (obj_attrs o !! name)|]; reflexivity.
Qed.

Lemma read_only_class_of l : read_only (class_of l).
Proof. intros w. unfold class_of. destruct (objs w !! l); reflexivity. Qed.

Lemma read_only_time_time : read_only time_time.
Proof. intros w. reflexivity. Qed.

Lemma read_only_py_add a b : read_only (py_add a b).
Proof.
  intros w. unfold py_add.
  destruct (as_number a), (as_number b); try reflexivity;
    destruct a; try reflexivity; destruct b; reflexivity.
Qed.

Lemma read_only_py_gt a b : read_only (py_gt a b).
Proof.
  intros w. unfold py_gt.
  destruct (as_number a), (as_number b); try reflexivity;
    destruct a; try reflexivity; destruct b; reflexivity.
Qed.

Create HintDb read_only.

#[global] Hint Resolve read_only_ret read_only_raise read_only_getattr
  read_only_class_of read_only_time_time read_only_py_add read_only_py_gt
  : read_only.

(** ** The store *)

Lemma getattr_attr l name w :
  getattr (VRef l) name w =
  match objs w !! l with
  | Some o => match obj_attrs o !! name with
              | Some x => (Ok x, w)
              | None => (Err (no_attribute (obj_class o) name), w)
              end
  | None => (Err (no_attribute "object" name), w)
  end.
Proof. reflexivity. Qed.

Lemma getattr_Some l name w x :
  attr w l name = Some x -> getattr (VRef l) name w = (Ok x, w).
Proof.
  unfold attr, getattr. destruct (objs w !! l); [|discriminate].
  now intros ->.
Qed.

Lemma getattr_None l name w o :
  objs w !! l = Some o -> attr w l name = None ->
  getattr (VRef l) name w = (Err (no_attribute (obj_class o) name), w).
Proof. unfold attr, getattr. intros ->. now intros ->. Qed.

Lemma getattr_Ok_inv v name w x w' :
  getattr v name w = (Ok x, w') ->
  w' = w /\ exists l, v = VRef l /\ attr w l name = Some x.
Proof.
  unfold getattr. destruct v; try discriminate.
  destruct (objs w !! l) as [o|] eqn:Ho; [|discriminate].
  destruct (obj_attrs o !! name) eqn:E; [|discriminate].
  intros H. inversion H; subst. split; [reflexivity|].
  exists l. split; [reflexivity|]. unfold attr. now rewrite Ho.
Qed.

Lemma set_attr_objs l key v w o :
  objs w !! l = Some o ->
  objs (set_attr l key v w) = <[l := Obj (obj_class o) (<[key := v]> (obj_attrs o))]> (objs w).
Proof. unfold set_attr. now intros ->. Qed.

Lemma attr_set_attr_eq l key v w :
  is_Some (objs w !! l) -> attr (set_attr l key v w) l key = Some v.
Proof.
  intros [o Ho]. unfold attr. rewrite (set_attr_objs _ _ _ _ _ Ho).
  rewrite lookup_insert_eq. simpl. apply lookup_insert_eq.
Qed.

Lemma attr_set_attr_ne l key v w l' k :
  l' <> l \/ k <> key -> attr (set_attr l key v w) l' k = attr w l' k.
Proof.
  intros Hne. unfold attr, set_attr.
  destruct (objs w !! l) as [o|] eqn:Ho; [|reflexivity]. simpl.
  destruct (decide (l' = l)) as [->|Hl].
  - rewrite lookup_insert_eq, Ho. simpl.
    destruct Hne as [?|Hk]; [congruence|]. now rewrite lookup_insert_ne.
  - now rewrite lookup_insert_ne.
Qed.

Lemma class_set_attr l key v w l' :
  obj_class <$> objs (set_attr l key v w) !! l' = obj_class <$> objs w !! l'.
Proof.
  unfold set_attr. destruct (objs w !! l) as [o|] eqn:Ho; [|reflexivity]. simpl.
  destruct (decide (l' = l)) as [->|Hl].
  - now rewrite lookup_insert_eq, Ho.
  - now rewrite lookup_insert_ne.
Qed.

Lemma now_set_attr l key v w : now (set_attr l key v w) = now w.
Proof. unfold set_attr. now destruct (objs w !! l). Qed.

Lemma attr_at_time t w l k : attr (at_time t w) l k = attr w l k.
Proof. reflexivity. Qed.

(** ** Attribute writes *)

Section SetattrFacts.

Variable spec_of : string -> class_spec.

Abbreviation __setattr__ := (Node.__setattr__ spec_of).

Lemma class_of_Some l w o : objs w !! l = Some o -> class_of l w = (Ok (obj_class o), w).
Proof. unfold class_of. now intros ->. Qed.

Lemma setattr_unfold n self key v :
  __setattr__ (S n) self key v =
  (Node.self_check_value spec_of self key v ;;
   names <- Node.self_CHANGES_IN_THESE_REQUIRE_RESET spec_of self ;;
   (if bool_decide (key ∈ names)
    then __setattr__ n self "_should_reset" (VInt 1) ;;
         __setattr__ n self "there_has_been_a_change" (VBool true)
    else ret tt) ;;
   object_setattr self key v).
Proof. reflexivity. Qed.

Lemma self_check_value_run self key v w o :
  objs w !! self = Some o ->
  Node.self_check_value spec_of self key v w =
  match _check_value (spec_of (obj_class o)) self key v w with
  | Some e => (Err e, w)
  | None => (Ok tt, w)
  end.
Proof.
  intros Ho. unfold Node.self_check_value.
  now rewrite (bind_Ok_run _ _ _ _ _ (class_of_Some _ _ _ Ho)).
Qed.

Lemma self_CHANGES_run self w o :
  objs w !! self = Some o ->
  Node.self_CHANGES_IN_THESE_REQUIRE_RESET spec_of self w =
  Node.read_tuple (CHANGES_IN_THESE_REQUIRE_RESET (spec_of (obj_class o)))
    "Each subclass of Node must have a CHANGES_IN_THESE_REQUIRE_RESET constant defined" w.
Proof.
  intros Ho. unfold Node.self_CHANGES_IN_THESE_REQUIRE_RESET.
  now rewrite (bind_Ok_run _ _ _ _ _ (class_of_Some _ _ _ Ho)).
Qed.

Lemma self_CHANGES_Some self w o names :
  objs w !! self = Some o ->
  CHANGES_IN_THESE_REQUIRE_RESET (spec_of (obj_class o)) = Some names ->
  Node.self_CHANGES_IN_THESE_REQUIRE_RESET spec_of self w = (Ok names, w).
Proof. intros Ho Hn. now rewrite (self_CHANGES_run _ _ _ Ho), Hn. Qed.

Lemma self_check_value_Ok_inv self key v w w' :
  Node.self_check_value spec_of self key v w = (Ok tt, w') -> w' = w.
Proof.
  unfold Node.self_check_value, bind, class_of.
  destruct (objs w !! self); [|discriminate].
  destruct (_check_value _ _ _ _ _); [discriminate|].
  intros H. now inversion H.
Qed.

Lemma self_UPSTREAM_run self w o :
  objs w !! self = Some o ->
  Node.self_UPSTREAM_CHANGES_IN_THESE_REQUIRE_REINITIALIZATION spec_of self w =
  Node.read_tuple (UPSTREAM_CHANGES_IN_THESE_REQUIRE_REINITIALIZATION (spec_of (obj_class o)))
    "Each subclass of Node must have a CHANGES_IN_THESE_REQUIRE_REINITIALIZATION constant defined" w.
Proof.
  intros Ho. unfold Node.self_UPSTREAM_CHANGES_IN_THESE_REQUIRE_REINITIALIZATION.
  now rewrite (bind_Ok_run _ _ _ _ _ (class_of_Some _ _ _ Ho)).
Qed.

Lemma read_only_self_check_value self key v :
  read_only (Node.self_check_value spec_of self key v).
Proof.
  intros w. unfold Node.self_check_value, bind, class_of.
  destruct (objs w !! self); [|reflexivity].
  now destruct (_check_value _ _ _ _ _).
Qed.

Lemma read_only_read_tuple t msg : read_only (Node.read_tuple t msg).
Proof. destruct t; intros w; reflexivity. Qed.

Lemma read_only_self_CHANGES self :
  read_only (Node.self_CHANGES_IN_THESE_REQUIRE_RESET spec_of self).
Proof.
  apply read_only_bind; [apply read_only_class_of|].
  intros c. apply read_only_read_tuple.
Qed.

Lemma read_only_self_UPSTREAM self :
  read_only (Node.self_UPSTREAM_CHANGES_IN_THESE_REQUIRE_REINITIALIZATION spec_of self).
Proof.
  apply read_only_bind; [apply read_only_class_of|].
  intros c. apply read_only_read_tuple.
Qed.

Lemma preserves_object_setattr (P : world -> Prop) self key v :
  (forall w, P w -> P (set_attr self key v w)) ->
  preserves P (object_setattr self key v).
Proof.
  intros H w HP. unfold object_setattr.
  destruct (objs w !! self); simpl; auto.
Qed.

(** A write of [key] changes the store only by binding [key], and, when
    [key] is a reset trigger, [_should_reset] to [1] and
    [there_has_been_a_change] to [True], all on [self]. *)
Lemma setattr_preserves (P : world -> Prop) fuel self key v :
  (forall w, P w -> P (set_attr self key v w)) ->
  (forall w, P w -> P (set_attr self "_should_reset" (VInt 1) w)) ->
  (forall w, P w -> P (set_attr self "there_has_been_a_change" (VBool true) w)) ->
  preserves P (__setattr__ fuel self key v).
Proof.
  intros Hkey Hr Hc. revert key v Hkey.
  induction fuel as [|n IH]; intros key v Hkey.
  - apply preserves_raise.
  - rewrite setattr_unfold.
    apply preserves_bind;
      [apply read_only_preserves, read_only_self_check_value|intros _].
    apply preserves_bind;
      [apply read_only_preserves, read_only_self_CHANGES|intros names].
    apply preserves_bind.
    + apply preserves_if; [|apply preserves_ret].
      apply preserves_bind; [now apply IH|intros _; now apply IH].
    + intros _. now apply preserves_object_setattr.
Qed.

(** Attributes other than the one written and the two flags are kept. *)
Lemma setattr_other_attr fuel self key v w l k :
  l <> self \/ (k <> key /\ k <> "_should_reset" /\ k <> "there_has_been_a_change") ->
  attr (snd (__setattr__ fuel self key v w)) l k = attr w l k.
Proof.
  intros Hne.
  apply (setattr_preserves (fun w' => attr w' l k = attr w l k));
    try reflexivity;
    intros w' <-; apply attr_set_attr_ne; tauto.
Qed.

Lemma setattr_class fuel self key v w l :
  obj_class <$> objs (snd (__setattr__ fuel self key v w)) !! l = obj_class <$> objs w !! l.
Proof.
  apply (setattr_preserves (fun w' => obj_class <$> objs w' !! l = obj_class <$> objs w !! l));
    try reflexivity;
    intros w' <-; apply class_set_attr.
Qed.

Lemma setattr_now fuel self key v w :
  now (snd (__setattr__ fuel self key v w)) = now w.
Proof.
  apply (setattr_preserves (fun w' => now w' = now w));
    try reflexivity;
    intros w' <-; apply now_set_attr.
Qed.

Lemma object_setattr_Ok_inv self key v w w' :
  object_setattr self key v w = (Ok tt, w') ->
  w' = set_attr self key v w /\ is_Some (objs w !! self).
Proof.
  unfold object_setattr. destruct (objs w !! self) eqn:E; [|discriminate].
  intros H. inversion H. eauto.
Qed.

(** A write that returns has bound [key] to [v]. *)
Lemma setattr_Ok_attr fuel self key v w w' :
  __setattr__ fuel self key v w = (Ok tt, w') -> attr w' self key = Some v.
Proof.
  destruct fuel as [|n]; [discriminate|].
  rewrite setattr_unfold. intros H.
  apply bind_Ok_inv in H as (_ & w1 & _ & H).
  apply bind_Ok_inv in H as (names & w2 & _ & H).
  apply bind_Ok_inv in H as (_ & w3 & _ & H).
  apply object_setattr_Ok_inv in H as [-> Hs].
  now apply attr_set_attr_eq.
Qed.

(** A class that validates [key] and does not reset on it writes it as
    [object.__setattr__] does. *)
Lemma setattr_plain n self key v w o names :
  objs w !! self = Some o ->
  CHANGES_IN_THESE_REQUIRE_RESET (spec_of (obj_class o)) = Some names ->
  key ∉ names ->
  _check_value (spec_of (obj_class o)) self key v w = None ->
  __setattr__ (S n) self key v w = (Ok tt, set_attr self key v w).
Proof.
  intros Ho Hn Hk Hc. rewrite setattr_unfold.
  erewrite bind_Ok_run by (rewrite (self_check_value_run _ _ _ _ _ Ho), Hc; reflexivity).
  erewrite bind_Ok_run by (rewrite (self_CHANGES_run _ _ _ Ho), Hn; reflexivity).
  rewrite bool_decide_eq_false_2 by assumption.
  erewrite bind_Ok_run by reflexivity.
  unfold object_setattr. now rewrite Ho.
Qed.

(** C6: when the validation of the class rejects a mutation, [__setattr__]
    raises the validation's exception to its caller at once and the store
    is exactly as before: the attribute keeps its value, and neither
    [_should_reset] nor [there_has_been_a_change] is touched. *)
Theorem C6_rejected_mutation_is_not_committed n self key v w o e :
  objs w !! self = Some o ->
  _check_value (spec_of (obj_class o)) self key v w = Some e ->
  __setattr__ (S n) self key v w = (Err e, w).
Proof.
  intros Ho He. rewrite setattr_unfold.
  apply bind_Err_run. now rewrite (self_check_value_run _ _ _ _ _ Ho), He.
Qed.

End SetattrFacts.

(** ** Ancestor traversal *)


Lemma try_AttributeError_run {S A} (m h : ST S A) s msg s1 :
  m s = (Err (AttributeError msg), s1) -> try_except_AttributeError m h s = h s1.
Proof. intros H. unfold try_except_AttributeError. now rewrite H. Qed.

Section TraversalFacts.

Import Node.

Lemma traverse_unfold n self item :
  traverse_back_and_find (S n) self item =
  try_except_AttributeError
    (p <- getattr (VRef self) "input_node" ;; getattr p item)
    (try_except_AttributeError
       (p <- getattr (VRef self) "input_node" ;;
        match p with
        | VRef l => traverse_back_and_find n l item
        | _ => fun w => (Err (no_attribute (type_name w p) "traverse_back_and_find"), w)
        end)
       (c <- Node.class_name_of self ;; raise (Node.missing_upstream c item))).
Proof. reflexivity. Qed.

Lemma read_only_traverse fuel self item : read_only (traverse_back_and_find fuel self item).
Proof.
  revert self. induction fuel as [|n IH]; intros self.
  - apply read_only_raise.
  - rewrite traverse_unfold.
    apply read_only_try; [|apply read_only_try].
    + apply read_only_bind; auto with read_only.
    + apply read_only_bind; auto with read_only.
      intros [] ; try apply IH; intros w; reflexivity.
    + apply read_only_bind; [apply read_only_class_of|auto with read_only].
Qed.

(** The requester has no predecessor to ask. *)
Lemma traverse_at_head n self item w o :
  objs w !! self = Some o ->
  (forall p, attr w self "input_node" <> Some (VRef p)) ->
  traverse_back_and_find (S n) self item w =
  (Err (Node.missing_upstream (obj_class o) item), w).
Proof.
  intros Ho Hhead. rewrite traverse_unfold.
  assert (Hfail : Node.class_name_of self w = (Ok (obj_class o), w))
    by (unfold Node.class_name_of; now rewrite (class_of_Some _ _ _ Ho)).
  destruct (attr w self "input_node") as [p|] eqn:Hp.
  - assert (Hnr : forall l, p <> VRef l) by (intros l ->; now apply (Hhead l)).
    erewrite try_AttributeError_run; cycle 1.
    { rewrite (bind_Ok_run _ _ _ _ _ (getattr_Some _ _ _ _ Hp)).
      destruct p; try reflexivity. now destruct (Hnr l). }
    erewrite try_AttributeError_run; cycle 1.
    { rewrite (bind_Ok_run _ _ _ _ _ (getattr_Some _ _ _ _ Hp)).
      destruct p; try reflexivity. now destruct (Hnr l). }
    now rewrite (bind_Ok_run _ _ _ _ _ Hfail).
  - erewrite try_AttributeError_run; cycle 1.
    { apply bind_Err_run. apply (getattr_None _ _ _ _ Ho Hp). }
    erewrite try_AttributeError_run; cycle 1.
    { apply bind_Err_run. apply (getattr_None _ _ _ _ Ho Hp). }
    now rewrite (bind_Ok_run _ _ _ _ _ Hfail).
Qed.


End TraversalFacts.

(** ** Resolving the pending flags *)

Lemma lift_inv {A} (m : W A) s r s' :
  lift m s = (r, s') ->
  exists w', m (st_world s) = (r, w') /\ s' = State w' (st_calls s).
Proof.
  unfold lift. destruct (m (st_world s)) as [r0 w'].
  intros H. inversion H. eauto.
Qed.

Lemma lift_run {A} (m : W A) s r w' :
  m (st_world s) = (r, w') -> lift m s = (r, State w' (st_calls s)).
Proof. intros H. unfold lift. now rewrite H. Qed.

Lemma lift_calls {A} (m : W A) s : st_calls (snd (lift m s)) = st_calls s.
Proof. unfold lift. now destruct (m (st_world s)). Qed.

Lemma lift_world {A} (m : W A) s : st_world (snd (lift m s)) = snd (m (st_world s)).
Proof. unfold lift. now destruct (m (st_world s)). Qed.

Section ResolveFacts.

Variable spec_of : string -> class_spec.
Variable methods_of : string -> class_methods.

Abbreviation call_method := (Node.call_method methods_of).
Abbreviation initialize := (Node.initialize spec_of methods_of).
Abbreviation _reset_or_reinitialize_if_needed :=
  (Node._reset_or_reinitialize_if_needed spec_of methods_of).

Lemma call_method_calls self name pick s :
  st_calls (snd (call_method self name pick s)) = st_calls s ++ [Called self name].
Proof.
  unfold Node.call_method.
  erewrite bind_Ok_run by reflexivity.
  now rewrite lift_calls.
Qed.

(** [initialize] is logged once, and [_initialize] after it when the
    snapshot could be taken. *)
Lemma initialize_calls fuel self s :
  st_calls (snd (initialize fuel self s)) = st_calls s ++ [Called self "initialize"] \/
  st_calls (snd (initialize fuel self s)) =
    st_calls s ++ [Called self "initialize"; Called self "_initialize"].
Proof.
  unfold Node.initialize.
  erewrite bind_Ok_run by reflexivity.
  step_bind E; apply (f_equal snd) in E; apply (f_equal st_calls) in E;
    rewrite lift_calls in E; simpl in E.
  - right. rewrite call_method_calls, <- E. now rewrite <- app_assoc.
  - left. simpl. now rewrite <- E.
Qed.

(** The two writes that end [_reset_or_reinitialize_if_needed]. *)
Lemma clear_flags_Ok fuel self s s' :
  (lift (Node.__setattr__ spec_of fuel self "_should_initialize" (VBool false)) ;;
   lift (Node.__setattr__ spec_of fuel self "_should_reset" (VBool false))) s = (Ok tt, s') ->
  attr (st_world s') self "_should_initialize" = Some (VBool false) /\
  attr (st_world s') self "_should_reset" = Some (VBool false) /\
  st_calls s' = st_calls s.
Proof.
  intros H. apply bind_Ok_inv in H as ([] & s1 & H1 & H2).
  apply lift_inv in H1 as (w1 & H1 & ->).
  apply lift_inv in H2 as (w2 & H2 & ->). simpl in *.
  split; [|split; [|reflexivity]].
  - pose proof (setattr_other_attr spec_of fuel self "_should_reset" (VBool false) w1
                  self "_should_initialize") as Hk.
    rewrite H2 in Hk. simpl in Hk. rewrite Hk.
    + now apply setattr_Ok_attr in H1.
    + right. repeat split; discriminate.
  - now apply setattr_Ok_attr in H2.
Qed.

Lemma clear_flags_calls fuel self s :
  st_calls (snd ((lift (Node.__setattr__ spec_of fuel self "_should_initialize" (VBool false)) ;;
                  lift (Node.__setattr__ spec_of fuel self "_should_reset" (VBool false))) s))
  = st_calls s.
Proof.
  step_bind E; apply (f_equal snd) in E; apply (f_equal st_calls) in E;
    rewrite lift_calls in E; simpl in E.
  - now rewrite lift_calls.
  - simpl. now rewrite <- E.
Qed.

End ResolveFacts.

(** ** Writes that return *)

Section SetattrReturns.

Variable spec_of : string -> class_spec.

Abbreviation __setattr__ := (Node.__setattr__ spec_of).

Lemma same_class_object w w' l o :
  obj_class <$> objs w' !! l = obj_class <$> objs w !! l ->
  objs w !! l = Some o ->
  exists o', objs w' !! l = Some o' /\ obj_class o' = obj_class o.
Proof.
  intros H Ho. rewrite Ho in H. simpl in H.
  destruct (objs w' !! l) as [o'|]; [|discriminate].
  simpl in H. inversion H. eauto.
Qed.

Lemma setattr_object fuel self key v w o :
  objs w !! self = Some o ->
  exists o', objs (snd (__setattr__ fuel self key v w)) !! self = Some o' /\
             obj_class o' = obj_class o.
Proof. apply same_class_object, setattr_class. Qed.

(** A class that resets on one of the two flags cannot write any of its
    reset triggers: the write of the flag re-enters [__setattr__] until the
    stack is exhausted. *)
Lemma setattr_never_returns fuel self key v w o names :
  objs w !! self = Some o ->
  CHANGES_IN_THESE_REQUIRE_RESET (spec_of (obj_class o)) = Some names ->
  "_should_reset" ∈ names \/ "there_has_been_a_change" ∈ names ->
  key ∈ names ->
  fst (__setattr__ fuel self key v w) <> Ok tt.
Proof.
  intros Ho Hn Hflag. revert key v w o Ho Hn.
  induction fuel as [|n IH]; intros key v w o Ho Hn Hkey.
  - discriminate.
  - rewrite setattr_unfold.
    step_bind E1; [|discriminate].
    pose proof (read_only_self_check_value spec_of self key v w) as R1.
    rewrite E1 in R1. simpl in R1. subst w0.
    rewrite (bind_Ok_run _ _ _ _ _ (self_CHANGES_Some _ _ _ _ _ Ho Hn)).
    rewrite bool_decide_eq_true_2 by assumption.
    step_bind E2; [|discriminate].
    exfalso. revert E2.
    step_bind E3.
    + intros E4. destruct Hflag as [Hr|Hc].
      * apply (IH "_should_reset" (VInt 1) w o Ho Hn Hr). rewrite E3. simpl.
        now match goal with |- Ok ?x = _ => destruct x end.
      * pose proof (setattr_object n self "_should_reset" (VInt 1) w o Ho) as (o1 & Ho1 & Hc1).
        rewrite E3 in Ho1. simpl in Ho1.
        apply (IH "there_has_been_a_change" (VBool true) w1 o1 Ho1);
          [now rewrite Hc1|exact Hc|].
        rewrite E4. simpl.
        now match goal with |- Ok ?x = _ => destruct x end.
    + discriminate.
Qed.

(** What a write that returns has done to the store. *)
Lemma setattr_Ok_inv fuel self key v w w' :
  __setattr__ fuel self key v w = (Ok tt, w') ->
  exists o names,
    objs w !! self = Some o /\
    CHANGES_IN_THESE_REQUIRE_RESET (spec_of (obj_class o)) = Some names /\
    (((key ∉ names) /\ w' = set_attr self key v w) \/
     (key ∈ names /\ ("_should_reset" ∉ names) /\ ("there_has_been_a_change" ∉ names) /\
      w' = set_attr self key v
             (set_attr self "there_has_been_a_change" (VBool true)
                (set_attr self "_should_reset" (VInt 1) w)))).
Proof.
  destruct fuel as [|n]; [discriminate|].
  intros H.
  destruct (objs w !! self) as [o|] eqn:Ho; cycle 1.
  { rewrite setattr_unfold in H. apply bind_Ok_inv in H as (? & ? & H & _).
    unfold Node.self_check_value in H. apply bind_Ok_inv in H as (? & ? & H & _).
    unfold class_of in H. rewrite Ho in H. discriminate. }
  destruct (CHANGES_IN_THESE_REQUIRE_RESET (spec_of (obj_class o))) as [names|] eqn:Hn;
    cycle 1.
  { rewrite setattr_unfold in H. apply bind_Ok_inv in H as (? & w1 & H1 & H).
    pose proof (read_only_self_check_value spec_of self key v w) as R1.
    rewrite H1 in R1. simpl in R1. subst w1.
    apply bind_Ok_inv in H as (? & ? & H & _).
    rewrite (self_CHANGES_run _ _ _ _ Ho), Hn in H. discriminate. }
  exists o, names. split; [reflexivity|]. split; [exact Hn|].
  pose proof H as Hfull.
  rewrite setattr_unfold in H. apply bind_Ok_inv in H as (? & w1 & H1 & H).
  pose proof (read_only_self_check_value spec_of self key v w) as R1.
  rewrite H1 in R1. simpl in R1. subst w1.
  rewrite (bind_Ok_run _ _ _ _ _ (self_CHANGES_Some _ _ _ _ _ Ho Hn)) in H.
  destruct (decide (key ∈ names)) as [Hk|Hk].
  - right.
    assert (Hr : "_should_reset" ∉ names).
    { intros Hr. apply (setattr_never_returns (S n) self key v w o names); auto.
      now rewrite Hfull. }
    assert (Hc : "there_has_been_a_change" ∉ names).
    { intros Hc. apply (setattr_never_returns (S n) self key v w o names); auto.
      now rewrite Hfull. }
    repeat (split; [assumption|]).
    rewrite bool_decide_eq_true_2 in H by assumption.
    apply bind_Ok_inv in H as ([] & w3 & H & H3).
    apply bind_Ok_inv in H as ([] & w2 & H & H2).
    apply object_setattr_Ok_inv in H3 as [-> _].
    destruct n as [|n]; [discriminate|].
    assert (E1 : objs (set_attr self "_should_reset" (VInt 1) w) !! self =
                 Some (Obj (obj_class o) (<["_should_reset" := VInt 1]> (obj_attrs o)))).
    { rewrite (set_attr_objs _ _ _ _ _ Ho). apply lookup_insert_eq. }
    pose proof (setattr_Ok_attr _ _ _ _ _ _ _ H) as Ha.
    assert (Hw2 : w2 = set_attr self "_should_reset" (VInt 1) w).
    { rewrite setattr_unfold in H. apply bind_Ok_inv in H as (? & w1 & H1' & H).
      pose proof (read_only_self_check_value spec_of self "_should_reset" (VInt 1) w) as R.
      rewrite H1' in R. simpl in R. subst w1.
      rewrite (bind_Ok_run _ _ _ _ _ (self_CHANGES_Some _ _ _ _ _ Ho Hn)) in H.
      rewrite bool_decide_eq_false_2 in H by assumption.
      rewrite ret_bind in H.
      now apply object_setattr_Ok_inv in H as [-> _]. }
    subst w2.
    rewrite setattr_unfold in H2. apply bind_Ok_inv in H2 as (? & w1 & H1' & H2).
    match type of H1' with ?m ?w0 = _ =>
      pose proof (read_only_self_check_value spec_of self "there_has_been_a_change"
                    (VBool true) w0) as R end.
    rewrite H1' in R. simpl in R. subst w1.
    rewrite (bind_Ok_run _ _ _ _ _ (self_CHANGES_Some _ _ _ _ _ E1 Hn)) in H2.
    rewrite bool_decide_eq_false_2 in H2 by assumption.
    rewrite ret_bind in H2.
    now apply object_setattr_Ok_inv in H2 as [-> _].
  - left. split; [assumption|].
    rewrite bool_decide_eq_false_2 in H by assumption.
    rewrite ret_bind in H.
    now apply object_setattr_Ok_inv in H as [-> _].
Qed.

(** A write that returns leaves every other attribute of every object as
    it was, except the two flags of [self]. *)
Lemma setattr_Ok_frame fuel self key v w w' l k :
  __setattr__ fuel self key v w = (Ok tt, w') ->
  l <> self \/ (k <> key /\ k <> "_should_reset" /\ k <> "there_has_been_a_change") ->
  attr w' l k = attr w l k.
Proof.
  intros H Hne.
  pose proof (setattr_other_attr spec_of fuel self key v w l k Hne) as E.
  now rewrite H in E.
Qed.

(** A write of a flag that returns leaves the other flag as it was. *)
Lemma setattr_flag_Ok_frame fuel self key v w w' l k :
  __setattr__ fuel self key v w = (Ok tt, w') ->
  key = "_should_reset" \/ key = "there_has_been_a_change" ->
  l <> self \/ k <> key ->
  attr w' l k = attr w l k.
Proof.
  intros H Hkey Hne.
  apply setattr_Ok_inv in H as (o & names & Ho & Hn & [[Hk ->]|(Hk & Hr & Hc & ->)]).
  - now apply attr_set_attr_ne.
  - exfalso. destruct Hkey; subst; contradiction.
Qed.

End SetattrReturns.

(** ** Reacting to a change upstream *)

Lemma dict_get_elem_of k v (d : list (string * value)) :
  NoDup (map fst d) -> (k, v) ∈ d <-> dict_get k d = Some v.
Proof.
  induction d as [|[k' v'] d IH]; intros Hnd; simpl.
  - split; [intros H; inversion H|discriminate].
  - apply NoDup_cons in Hnd as [Hnotin Hnd]. specialize (IH Hnd).
    destruct (String.eqb_spec k k') as [->|Hne].
    + split.
      * intros H. apply elem_of_cons in H as [H|H]; [now inversion H|].
        exfalso. apply Hnotin. apply list_elem_of_In.
        apply list_elem_of_In in H. now apply (in_map fst) in H.
      * intros H. inversion H. apply elem_of_cons. now left.
    + rewrite <- IH. split.
      * intros H. apply elem_of_cons in H as [H|H]; [inversion H; congruence|exact H].
      * intros H. apply elem_of_cons. now right.
Qed.

Section ReactFacts.

Variable spec_of : string -> class_spec.

Import Node.

Abbreviation __setattr__ := (Node.__setattr__ spec_of).
Abbreviation _react_to_the_change_upstream := (Node._react_to_the_change_upstream spec_of).

Lemma read_only_any_item_changed fuel self items :
  read_only (any_item_changed fuel self items).
Proof.
  induction items as [|[item saved] rest IH]; simpl.
  - apply read_only_ret.
  - apply read_only_bind; [apply read_only_traverse|].
    intros cur. destruct (py_ne saved cur); [apply read_only_ret|exact IH].
Qed.

Lemma read_only_dict_items d : read_only (dict_items d).
Proof. destruct d; intros w; reflexivity. Qed.

Lemma read_only_requires_reinitialization fuel self :
  read_only (_the_change_requires_reinitialization fuel self).
Proof.
  apply read_only_bind; [apply read_only_getattr|intros d].
  apply read_only_bind; [apply read_only_dict_items|intros items].
  apply read_only_any_item_changed.
Qed.

Lemma read_only_there_was_a_change_upstream self :
  read_only (_there_was_a_change_upstream self).
Proof.
  apply read_only_bind; [apply read_only_getattr|intros p].
  destruct (is_None p); [apply read_only_ret|].
  apply read_only_bind; [apply read_only_getattr|intros p'].
  apply read_only_bind; [apply read_only_getattr|intros f].
  apply read_only_ret.
Qed.

(** The loop over the snapshot, when every saved name is found upstream. *)
Lemma any_item_changed_run fuel self items w (cur : string -> value) :
  (forall k, k ∈ map fst items -> traverse_back_and_find fuel self k w = (Ok (cur k), w)) ->
  any_item_changed fuel self items w =
  (Ok (existsb (fun kv => py_ne (snd kv) (cur (fst kv))) items), w).
Proof.
  induction items as [|[item saved] rest IH]; intros Hcur; simpl.
  - reflexivity.
  - rewrite (bind_Ok_run _ _ _ _ _ (Hcur item ltac:(simpl; apply elem_of_cons; now left))).
    destruct (py_ne saved (cur item)); [reflexivity|].
    simpl. apply IH. intros k Hk. apply Hcur. simpl. apply elem_of_cons. now right.
Qed.

Lemma existsb_changed (names : list string) (d : list (string * value))
    (cur : string -> value) :
  NoDup (map fst d) ->
  (forall name, name ∈ names <-> name ∈ map fst d) ->
  existsb (fun kv => py_ne (snd kv) (cur (fst kv))) d = true <->
  exists name saved,
    name ∈ names /\ dict_get name d = Some saved /\ py_ne saved (cur name) = true.
Proof.
  intros Hnd Hkeys. rewrite existsb_exists. split.
  - intros ([k v] & Hin & Hne). simpl in Hne.
    exists k, v. apply list_elem_of_In in Hin. split; [|split].
    + apply Hkeys. apply list_elem_of_In. apply list_elem_of_In in Hin.
      now apply (in_map fst) in Hin.
    + now apply dict_get_elem_of.
    + exact Hne.
  - intros (k & v & _ & Hget & Hne).
    exists (k, v). split; [|exact Hne].
    apply list_elem_of_In. now apply dict_get_elem_of.
Qed.

Lemma setattr_value_Ok_inv fuel p key v w w' :
  setattr spec_of fuel p key v w = (Ok tt, w') ->
  exists l, p = VRef l /\ __setattr__ fuel l key v w = (Ok tt, w').
Proof. destruct p; try discriminate. eauto. Qed.

(** C2: in an update that found the predecessor's
    [there_has_been_a_change] set, for a node whose snapshot holds the names
    of [UPSTREAM_CHANGES_IN_THESE_REQUIRE_REINITIALIZATION], each of which
    is found upstream: [_should_initialize] is set to [True] when some name
    has a current value that differs ([!=]) from the saved one; otherwise
    [_should_reset] is set to [True] and [_should_initialize] is left as it
    was. *)
Theorem C2_reinitialize_iff_a_saved_value_changed
    fuel self w w' o (names : list string) (d : list (string * value))
    (cur : string -> value) :
  objs w !! self = Some o ->
  UPSTREAM_CHANGES_IN_THESE_REQUIRE_REINITIALIZATION (spec_of (obj_class o)) = Some names ->
  attr w self "_saved_from_upstream" = Some (VDict d) ->
  NoDup (map fst d) ->
  (forall name, name ∈ names <-> name ∈ map fst d) ->
  (forall name, name ∈ names ->
     traverse_back_and_find fuel self name w = (Ok (cur name), w)) ->
  _there_was_a_change_upstream self w = (Ok true, w) ->
  _react_to_the_change_upstream fuel self w = (Ok tt, w') ->
  let changed :=
    exists name saved,
      name ∈ names /\ dict_get name d = Some saved /\ py_ne saved (cur name) = true in
  (changed -> attr w' self "_should_initialize" = Some (VBool true)) /\
  (~ changed ->
   attr w' self "_should_reset" = Some (VBool true) /\
   attr w' self "_should_initialize" = attr w self "_should_initialize").
Proof.
  intros Ho Hup Hd Hnd Hkeys Hcur _ Hreact changed.
  unfold Node._react_to_the_change_upstream in Hreact.
  assert (Hb : _the_change_requires_reinitialization fuel self w =
               (Ok (existsb (fun kv => py_ne (snd kv) (cur (fst kv))) d), w)).
  { unfold _the_change_requires_reinitialization.
    rewrite (bind_Ok_run _ _ _ _ _ (getattr_Some _ _ _ _ Hd)).
    cbn [dict_items]. rewrite ret_bind. apply any_item_changed_run.
    intros k Hk. apply Hcur. now apply Hkeys. }
  rewrite (bind_Ok_run _ _ _ _ _ Hb) in Hreact.
  apply bind_Ok_inv in Hreact as ([] & w1 & H1 & Hreact).
  apply bind_Ok_inv in Hreact as (p & w1' & Hp & Hreact).
  apply getattr_Ok_inv in Hp as [-> _].
  apply bind_Ok_inv in Hreact as ([] & w2 & H2 & H3).
  apply setattr_value_Ok_inv in H2 as (l & -> & H2).
  pose proof (existsb_changed names d cur Hnd Hkeys) as Hiff.
  destruct (existsb _ d) eqn:Hex.
  - split; [intros _|intros Hn; exfalso; apply Hn, Hiff; reflexivity].
    rewrite (setattr_Ok_frame _ _ _ _ _ _ _ self "_should_initialize" H3)
      by (right; repeat split; discriminate).
    rewrite (setattr_Ok_frame _ _ _ _ _ _ _ self "_should_initialize" H2)
      by (right; repeat split; discriminate).
    now apply setattr_Ok_attr in H1.
  - split; [intros Hc; apply Hiff in Hc; discriminate|intros _].
    split.
    + rewrite (setattr_flag_Ok_frame _ _ _ _ _ _ _ self "_should_reset" H3)
        by (auto || (right; discriminate)).
      rewrite (setattr_flag_Ok_frame _ _ _ _ _ _ _ self "_should_reset" H2)
        by (auto || (right; discriminate)).
      now apply setattr_Ok_attr in H1.
    + rewrite (setattr_Ok_frame _ _ _ _ _ _ _ self "_should_initialize" H3)
        by (right; repeat split; discriminate).
      rewrite (setattr_Ok_frame _ _ _ _ _ _ _ self "_should_initialize" H2)
        by (right; repeat split; discriminate).
      apply (setattr_flag_Ok_frame _ _ _ _ _ _ _ self "_should_initialize" H1);
        [now left|right; discriminate].
Qed.

End ReactFacts.

(** ** What a pull leaves untouched *)

(** Membership in a list given by its elements. *)
Ltac in_list := solve [repeat constructor].

Lemma preserves_lift {A} (P : world -> Prop) (m : W A) :
  preserves P m -> preserves (fun s => P (st_world s)) (lift m).
Proof. intros H s HP. rewrite lift_world. now apply H. Qed.

Lemma called_run l name s :
  called l name s = (Ok tt, State (st_world s) (st_calls s ++ [Called l name])).
Proof. reflexivity. Qed.

Lemma preserves_called (P : world -> Prop) l name :
  preserves (fun s => P (st_world s)) (called l name).
Proof. intros s HP. exact HP. Qed.

Section PullFacts.

Variable spec_of : string -> class_spec.
Variable methods_of : string -> class_methods.

Import Node.

Abbreviation __setattr__ := (Node.__setattr__ spec_of).

Lemma bookkeeping_write_preserves P fuel l k v :
  ignores_bookkeeping P ->
  k ∈ ["_should_initialize"; "_should_reset"; "there_has_been_a_change";
       "_saved_from_upstream"] ->
  preserves P (__setattr__ fuel l k v).
Proof.
  intros HP Hk. apply setattr_preserves; intros w Hw; apply HP; auto;
    in_list.
Qed.

Lemma react_preserves P fuel self :
  ignores_bookkeeping P ->
  preserves P (_react_to_the_change_upstream spec_of fuel self).
Proof.
  intros HP. unfold _react_to_the_change_upstream.
  apply preserves_bind;
    [apply read_only_preserves, read_only_requires_reinitialization|intros b].
  apply preserves_bind.
  { destruct b; apply bookkeeping_write_preserves; auto;
      in_list. }
  intros _. apply preserves_bind; [apply read_only_preserves, read_only_getattr|intros p].
  apply preserves_bind.
  { destruct p; try (intros w Hw; exact Hw).
    apply bookkeeping_write_preserves; auto;
      in_list. }
  intros _. apply bookkeeping_write_preserves; auto;
    in_list.
Qed.

Lemma read_only_snapshot fuel self names d : read_only (snapshot fuel self names d).
Proof.
  revert d. induction names as [|item rest IH]; intros d; simpl.
  - apply read_only_ret.
  - apply read_only_bind; [apply read_only_traverse|intros v; apply IH].
Qed.

Lemma call_method_preserves P self name pick :
  method_preserves methods_of P self pick ->
  preserves (fun s => P (st_world s)) (call_method methods_of self name pick).
Proof.
  intros Hpick. unfold call_method.
  apply preserves_bind; [apply preserves_called|intros _].
  apply preserves_lift. intros w Hw. unfold bind, class_of.
  destruct (objs w !! self) as [o|] eqn:Ho; [|exact Hw].
  now apply Hpick.
Qed.

Lemma initialize_preserves P fuel self :
  ignores_bookkeeping P ->
  method_preserves methods_of P self _initialize ->
  preserves (fun s => P (st_world s)) (initialize spec_of methods_of fuel self).
Proof.
  intros HP Hinit. unfold initialize.
  apply preserves_bind; [apply preserves_called|intros _].
  apply preserves_bind; [|intros _; now apply call_method_preserves].
  apply preserves_lift.
  apply preserves_bind;
    [apply read_only_preserves, read_only_self_UPSTREAM|intros names].
  apply preserves_bind;
    [apply read_only_preserves, read_only_snapshot|intros d].
  apply bookkeeping_write_preserves; auto;
    in_list.
Qed.

Lemma resolve_preserves P fuel self :
  ignores_bookkeeping P ->
  method_preserves methods_of P self _initialize ->
  method_preserves methods_of P self reset ->
  preserves (fun s => P (st_world s))
    (_reset_or_reinitialize_if_needed spec_of methods_of fuel self).
Proof.
  intros HP Hinit Hreset. unfold _reset_or_reinitialize_if_needed.
  apply preserves_bind;
    [apply preserves_lift, read_only_preserves, read_only_getattr|intros i].
  apply preserves_bind.
  { destruct (is_True i); [now apply initialize_preserves|].
    apply preserves_bind;
      [apply preserves_lift, read_only_preserves, read_only_getattr|intros r].
    destruct (is_True r); [now apply call_method_preserves|apply preserves_ret]. }
  intros _. apply preserves_bind; [|intros _];
    apply preserves_lift, bookkeeping_write_preserves; auto;
    in_list.
Qed.

Lemma react_and_resolve_preserves P fuel self :
  ignores_bookkeeping P ->
  method_preserves methods_of P self _initialize ->
  method_preserves methods_of P self reset ->
  preserves (fun s => P (st_world s)) (react_and_resolve spec_of methods_of fuel self).
Proof.
  intros HP Hinit Hreset. unfold react_and_resolve.
  apply preserves_bind;
    [apply preserves_lift, read_only_preserves, read_only_there_was_a_change_upstream
    |intros b].
  apply preserves_bind; [|intros _; now apply resolve_preserves].
  destruct b; [apply preserves_lift; now apply react_preserves|apply preserves_ret].
Qed.

Lemma bind_assoc {S A B C} (m : ST S A) (k : A -> ST S B) (h : B -> ST S C) s :
  bind (bind m k) h s = bind m (fun a => bind (k a) h) s.
Proof. unfold bind. now destruct (m s) as [[a|e] s1]. Qed.

Lemma update_split fuel self s :
  update spec_of methods_of fuel self s =
  (lift (__setattr__ fuel self "output" VNone) ;;
   react_and_resolve spec_of methods_of fuel self ;;
   call_method methods_of self "_update" _update) s.
Proof.
  unfold update, react_and_resolve, bind.
  destruct (lift (__setattr__ fuel self "output" VNone) s) as [[[]|e] s1]; [|reflexivity].
  destruct (lift (_there_was_a_change_upstream self) s1) as [[b|e] s2]; [|reflexivity].
  destruct b.
  - destruct (lift (_react_to_the_change_upstream spec_of fuel self) s2)
      as [[[]|e] s3]; [|reflexivity].
    now destruct (_reset_or_reinitialize_if_needed spec_of methods_of fuel self s3)
      as [[[]|e] s4].
  - unfold ret.
    now destruct (_reset_or_reinitialize_if_needed spec_of methods_of fuel self s2)
      as [[[]|e] s4].
Qed.

End PullFacts.

(** ** The output of a pull *)

Section OutputFacts.

Variable spec_of : string -> class_spec.
Variable methods_of : string -> class_methods.

Import Node.

Lemma output_ignores_bookkeeping self x :
  ignores_bookkeeping (fun w => attr w self "output" = x).
Proof.
  intros l k v w Hk Hw. rewrite attr_set_attr_ne; [exact Hw|].
  right. intros E. subst k.
  repeat (apply elem_of_cons in Hk as [Hk|Hk]; [discriminate|]).
  inversion Hk.
Qed.

(** A pull whose first write is accepted either raises before [_update] is
    called, or calls the [_update] of the class once, on a store reached
    from the one with [output] cleared by steps that keep [Q]. *)
Lemma update_reaches_compute (Q : world -> Prop) fuel self s o (names : list string) :
  objs (st_world s) !! self = Some o ->
  CHANGES_IN_THESE_REQUIRE_RESET (spec_of (obj_class o)) = Some names ->
  "output" ∉ names ->
  _check_value (spec_of (obj_class o)) self "output" VNone (st_world s) = None ->
  ignores_bookkeeping Q ->
  method_preserves methods_of Q self _initialize ->
  method_preserves methods_of Q self reset ->
  Q (set_attr self "output" VNone (st_world s)) ->
  let out := update spec_of methods_of (S fuel) self s in
  (exists e, fst out = Err e /\ Q (st_world (snd out))) \/
  (exists s3 o3,
     Q (st_world s3) /\ objs (st_world s3) !! self = Some o3 /\
     fst out = fst (_update (methods_of (obj_class o3)) self (st_world s3)) /\
     st_world (snd out) = snd (_update (methods_of (obj_class o3)) self (st_world s3))).
Proof.
  intros Ho Hn Hout Hacc HQ Hinit Hreset Q1 out. subst out.
  rewrite update_split.
  rewrite (bind_Ok_run _ _ _ _ _
             (lift_run _ _ _ _ (setattr_plain spec_of fuel self "output" VNone _ o names
                                  Ho Hn Hout Hacc))).
  set (s1 := State (set_attr self "output" VNone (st_world s)) (st_calls s)).
  pose proof (react_and_resolve_preserves spec_of methods_of Q (S fuel) self
                HQ Hinit Hreset s1 Q1) as Hpre.
  step_bind E; simpl in Hpre; cycle 1.
  { left. eauto. }
  unfold call_method. rewrite (bind_Ok_run _ _ _ _ _ (called_run _ _ _)).
  unfold lift. cbn [st_world st_calls].
  destruct (objs (st_world s0) !! self) as [o3|] eqn:Ho3.
  - right. exists s0, o3. rewrite (bind_Ok_run _ _ _ _ _ (class_of_Some _ _ _ Ho3)).
    destruct (_update (methods_of (obj_class o3)) self (st_world s0)) as [r w4]. auto.
  - left. unfold bind, class_of. rewrite Ho3. simpl. eauto.
Qed.

(** C5: a pull first binds [output] to [None] (the class validates that
    write and does not reset on [output]).  When the methods of the class
    other than [_update] leave [output] alone, and [_update] leaves it
    alone when it raises: after a pull that raised anywhere, [output] is
    [None], never an older value; after a pull that returned, the store is
    what this pull's [_update] made of a store in which [output] was
    [None]. *)
Theorem C5_output_is_cleared_first fuel self s o (names : list string) :
  objs (st_world s) !! self = Some o ->
  CHANGES_IN_THESE_REQUIRE_RESET (spec_of (obj_class o)) = Some names ->
  "output" ∉ names ->
  _check_value (spec_of (obj_class o)) self "output" VNone (st_world s) = None ->
  (forall c w, attr (snd (_initialize (methods_of c) self w)) self "output"
               = attr w self "output") ->
  (forall c w, attr (snd (reset (methods_of c) self w)) self "output"
               = attr w self "output") ->
  (forall c w e w', _update (methods_of c) self w = (Err e, w') ->
                    attr w' self "output" = attr w self "output") ->
  let out := update spec_of methods_of (S fuel) self s in
  (fst out <> Ok tt -> attr (st_world (snd out)) self "output" = Some VNone) /\
  (fst out = Ok tt ->
   exists c w1,
     attr w1 self "output" = Some VNone /\
     obj_class <$> objs w1 !! self = Some c /\
     _update (methods_of c) self w1 = (Ok tt, st_world (snd out))).
Proof.
  intros Ho Hn Hout Hacc Hinit Hreset Hupd out.
  destruct (update_reaches_compute (fun w => attr w self "output" = Some VNone)
              fuel self s o names Ho Hn Hout Hacc
              (output_ignores_bookkeeping self _)
              ltac:(intros c w Hw _; now rewrite Hinit)
              ltac:(intros c w Hw _; now rewrite Hreset)
              ltac:(apply attr_set_attr_eq; now rewrite Ho))
    as [(e & He & HQ)|(s3 & o3 & HQ & Ho3 & Hr & Hw)]; fold out in He || fold out in Hr, Hw.
  - split; [intros _; exact HQ|]. rewrite He. discriminate.
  - destruct (_update (methods_of (obj_class o3)) self (st_world s3)) as [[[]|e] w4] eqn:E4;
      simpl in Hr, Hw; rewrite Hr, Hw.
    + split; [congruence|intros _].
      exists (obj_class o3), (st_world s3). rewrite Ho3. auto.
    + split; [intros _|discriminate].
      now rewrite (Hupd _ _ _ _ E4).
Qed.

End OutputFacts.

(** ** Pulls that miss what was scheduled *)

Section MissedFacts.

Variable spec_of : string -> class_spec.
Variable methods_of : string -> class_methods.

Import Node.

Lemma no_change_upstream_run w self :
  no_change_upstream w self -> _there_was_a_change_upstream self w = (Ok false, w).
Proof.
  intros [Hnone|(p & f & Hne & Hp & Hf & Hfalse)]; unfold _there_was_a_change_upstream.
  - now rewrite (bind_Ok_run _ _ _ _ _ (getattr_Some _ _ _ _ Hnone)).
  - rewrite (bind_Ok_run _ _ _ _ _ (getattr_Some _ _ _ _ Hp)). cbn [is_None].
    rewrite (bind_Ok_run _ _ _ _ _ (getattr_Some _ _ _ _ Hp)).
    rewrite (bind_Ok_run _ _ _ _ _ (getattr_Some _ _ _ _ Hf)).
    unfold ret. now rewrite Hfalse.
Qed.

Lemma no_change_upstream_set_attr w self k v :
  k <> "input_node" -> no_change_upstream w self ->
  no_change_upstream (set_attr self k v w) self.
Proof.
  intros Hk [Hnone|(p & f & Hne & Hp & Hf & Hfalse)].
  - left. rewrite attr_set_attr_ne; auto.
  - right. exists p, f. repeat split; auto; rewrite attr_set_attr_ne; auto.
Qed.

(** Neither flag asks for anything: the step calls no method. *)
Lemma resolve_without_True_flags fuel self s i r :
  attr (st_world s) self "_should_initialize" = Some i -> is_True i = false ->
  attr (st_world s) self "_should_reset" = Some r -> is_True r = false ->
  st_calls (snd (_reset_or_reinitialize_if_needed spec_of methods_of fuel self s))
  = st_calls s.
Proof.
  intros Hi Hfi Hr Hfr. destruct s as [w calls]. cbn [st_world st_calls] in *.
  unfold _reset_or_reinitialize_if_needed.
  rewrite (bind_Ok_run _ _ _ _ _
             (lift_run _ (State w calls) _ _ (getattr_Some _ _ _ _ Hi))).
  rewrite Hfi. cbv iota. rewrite bind_assoc. cbn [st_world st_calls].
  rewrite (bind_Ok_run _ _ _ _ _
             (lift_run _ (State w calls) _ _ (getattr_Some _ _ _ _ Hr))).
  rewrite Hfr. cbv iota. rewrite ret_bind.
  now rewrite clear_flags_calls.
Qed.

(** C1: a mutation of a reset trigger that returns leaves [_should_reset]
    bound to the integer [1].  A pull that then finds no change upstream and
    [_should_initialize] [False] tests [_should_reset is True], which [1]
    fails: among the calls of the pull there is at most [_update], and no
    [reset]. *)
Theorem C1_reset_scheduled_by_a_mutation_is_not_run
    fuel self key v w w1 o (names : list string) calls :
  objs w !! self = Some o ->
  CHANGES_IN_THESE_REQUIRE_RESET (spec_of (obj_class o)) = Some names ->
  key ∈ names ->
  key <> "_should_reset" ->
  Node.__setattr__ spec_of fuel self key v w = (Ok tt, w1) ->
  attr w1 self "_should_initialize" = Some (VBool false) ->
  no_change_upstream w1 self ->
  let out := update spec_of methods_of fuel self (State w1 calls) in
  attr w1 self "_should_reset" = Some (VInt 1) /\
  (st_calls (snd out) = calls \/ st_calls (snd out) = calls ++ [Called self "_update"]).
Proof.
  intros Ho Hn Hkey Hne Hset Hinit Hup out.
  assert (Hone : attr w1 self "_should_reset" = Some (VInt 1)).
  { apply setattr_Ok_inv in Hset as (o' & names' & Ho' & Hn' & Hcase).
    rewrite Ho in Ho'. inversion Ho'; subst o'. rewrite Hn in Hn'. inversion Hn'; subst names'.
    destruct Hcase as [[Hk _]|(_ & _ & _ & ->)]; [contradiction|].
    rewrite attr_set_attr_ne by (right; congruence).
    rewrite attr_set_attr_ne by (right; discriminate).
    apply attr_set_attr_eq. now rewrite Ho. }
  split; [exact Hone|]. subst out.
  rewrite update_split.
  set (P := fun w' => attr w' self "_should_reset" = Some (VInt 1) /\
                      attr w' self "_should_initialize" = Some (VBool false) /\
                      no_change_upstream w' self).
  assert (HP : P (snd (Node.__setattr__ spec_of fuel self "output" VNone w1))).
  { apply (setattr_preserves spec_of P); [| | |repeat split; assumption].
    - intros w' (H1 & H2 & H3). split; [|split].
      + rewrite attr_set_attr_ne by (right; discriminate). exact H1.
      + rewrite attr_set_attr_ne by (right; discriminate). exact H2.
      + apply no_change_upstream_set_attr; [discriminate|assumption].
    - intros w' (H1 & H2 & H3). split; [|split].
      + apply attr_set_attr_eq. unfold attr in H1.
        destruct (objs w' !! self); [eauto|discriminate].
      + rewrite attr_set_attr_ne by (right; discriminate). exact H2.
      + apply no_change_upstream_set_attr; [discriminate|assumption].
    - intros w' (H1 & H2 & H3). split; [|split].
      + rewrite attr_set_attr_ne by (right; discriminate). exact H1.
      + rewrite attr_set_attr_ne by (right; discriminate). exact H2.
      + apply no_change_upstream_set_attr; [discriminate|assumption]. }
  step_bind E1; apply lift_inv in E1 as (w2 & E1 & ->);
    cbn [st_world st_calls] in E1; rewrite E1 in HP; simpl in HP;
    [|now left].
  destruct HP as (H1 & H2 & H3).
  unfold react_and_resolve. rewrite !bind_assoc. cbn [st_world st_calls].
  rewrite (bind_Ok_run _ _ _ _ _
             (lift_run _ (State w2 calls) _ _ (no_change_upstream_run _ _ H3))).
  rewrite bind_assoc, ret_bind. cbn [st_world st_calls].
  pose proof (resolve_without_True_flags fuel self (State w2 calls)
                (VBool false) (VInt 1) H2 eq_refl H1 eq_refl) as Hcalls.
  step_bind E2; simpl in Hcalls.
  - right. rewrite call_method_calls. now rewrite Hcalls.
  - left. exact Hcalls.
Qed.

(** C4: a node still holds [None] in [_saved_from_upstream] until its
    first [initialize].  A pull of such a node that finds the flag of its
    predecessor set raises [AttributeError] on [None.items()], before the
    flag is consumed: the predecessor's flag stays [True] and the node's own
    flag is not raised. *)
Theorem C4_pull_before_first_initialize_does_not_propagate
    fuel A B s o (names : list string) :
  objs (st_world s) !! B = Some o ->
  CHANGES_IN_THESE_REQUIRE_RESET (spec_of (obj_class o)) = Some names ->
  "output" ∉ names ->
  _check_value (spec_of (obj_class o)) B "output" VNone (st_world s) = None ->
  A <> B ->
  attr (st_world s) B "input_node" = Some (VRef A) ->
  attr (st_world s) A "there_has_been_a_change" = Some (VBool true) ->
  attr (st_world s) B "_saved_from_upstream" = Some VNone ->
  let out := update spec_of methods_of (S fuel) B s in
  fst out = Err (no_attribute "NoneType" "items") /\
  attr (st_world (snd out)) A "there_has_been_a_change" = Some (VBool true) /\
  attr (st_world (snd out)) B "there_has_been_a_change"
    = attr (st_world s) B "there_has_been_a_change".
Proof.
  intros Ho Hn Hout Hacc Hne Hin Hflag Hsaved out. subst out.
  unfold update.
  rewrite (bind_Ok_run _ _ _ _ _
             (lift_run _ _ _ _ (setattr_plain spec_of fuel B "output" VNone _ o names
                                  Ho Hn Hout Hacc))).
  set (w1 := set_attr B "output" VNone (st_world s)).
  assert (Hin1 : attr w1 B "input_node" = Some (VRef A))
    by (unfold w1; rewrite attr_set_attr_ne; auto; right; discriminate).
  assert (Hflag1 : attr w1 A "there_has_been_a_change" = Some (VBool true))
    by (unfold w1; rewrite attr_set_attr_ne; auto).
  assert (Hsaved1 : attr w1 B "_saved_from_upstream" = Some VNone)
    by (unfold w1; rewrite attr_set_attr_ne; auto; right; discriminate).
  assert (Hthere : _there_was_a_change_upstream B w1 = (Ok true, w1)).
  { unfold _there_was_a_change_upstream.
    rewrite (bind_Ok_run _ _ _ _ _ (getattr_Some _ _ _ _ Hin1)). cbn [is_None].
    rewrite (bind_Ok_run _ _ _ _ _ (getattr_Some _ _ _ _ Hin1)).
    now rewrite (bind_Ok_run _ _ _ _ _ (getattr_Some _ _ _ _ Hflag1)). }
  rewrite (bind_Ok_run _ _ _ _ _ (lift_run _ (State w1 (st_calls s)) _ _ Hthere)).
  cbn [st_world st_calls].
  assert (Hreact : _react_to_the_change_upstream spec_of (S fuel) B w1
                   = (Err (no_attribute "NoneType" "items"), w1)).
  { unfold _react_to_the_change_upstream. apply bind_Err_run.
    unfold _the_change_requires_reinitialization.
    rewrite (bind_Ok_run _ _ _ _ _ (getattr_Some _ _ _ _ Hsaved1)).
    now apply bind_Err_run. }
  rewrite (bind_Err_run _ _ _ _ _ (lift_run _ (State w1 (st_calls s)) _ _ Hreact)).
  cbn [fst snd st_world]. split; [reflexivity|]. split; [exact Hflag1|].
  unfold w1. apply attr_set_attr_ne. right. discriminate.
Qed.

End MissedFacts.

(** ** Source nodes *)

Lemma setattr_Ok_class spec_of fuel self key v w w' l :
  Node.__setattr__ spec_of fuel self key v w = (Ok tt, w') ->
  obj_class <$> objs w' !! l = obj_class <$> objs w !! l.
Proof.
  intros H. pose proof (setattr_class spec_of fuel self key v w l) as E.
  now rewrite H in E.
Qed.

Lemma setattr_Ok_now spec_of fuel self key v w w' :
  Node.__setattr__ spec_of fuel self key v w = (Ok tt, w') -> now w' = now w.
Proof.
  intros H. pose proof (setattr_now spec_of fuel self key v w) as E.
  now rewrite H in E.
Qed.

(** Read an attribute of the store a chain of returning writes ends in. *)
Ltac attr_back :=
  repeat match goal with
    | H : Node.__setattr__ ?sp _ ?self ?key ?v ?w = (Ok tt, ?w')
      |- context [attr ?w' ?self ?key] =>
        rewrite (setattr_Ok_attr sp _ _ _ _ _ _ H)
    | H : Node.__setattr__ ?sp _ ?self ?key ?v ?w = (Ok tt, ?w')
      |- context [attr ?w' ?l ?k] =>
        rewrite (setattr_Ok_frame sp _ _ _ _ _ _ l k H)
          by (right; repeat split; discriminate)
    | H : Node.__setattr__ ?sp _ ?self ?key ?v ?w = (Ok tt, ?w')
      |- context [objs ?w' !! ?l] =>
        rewrite (setattr_Ok_class sp _ _ _ _ _ _ l H)
    | H : Node.__setattr__ ?sp _ ?self ?key ?v ?w = (Ok tt, ?w')
      |- context [now ?w'] =>
        rewrite (setattr_Ok_now sp _ _ _ _ _ _ H)
    end.

(** Split a sequence that returned into its steps. *)
Ltac invert_Ok H :=
  repeat (let H1 := fresh "Hw" in apply bind_Ok_inv in H as (? & ? & H1 & H));
  repeat match goal with a : unit |- _ => destruct a end.

Section SourceFacts.

Variable spec_of : string -> class_spec.

Abbreviation __setattr__ := (Node.__setattr__ spec_of).

Lemma attr_fresh_object w self cls k :
  objs w !! self = Some (Obj cls ∅) -> attr w self k = None.
Proof. unfold attr. now intros ->. Qed.

(** What [SourceNode.__init__] leaves on a fresh object when it returns. *)
Lemma source_init_facts fuel self cls ttl w w1 :
  objs w !! self = Some (Obj cls ∅) ->
  SourceNode.__init__ spec_of fuel self ttl w = (Ok tt, w1) ->
  obj_class <$> objs w1 !! self = Some cls /\
  now w1 = now w /\
  attr w1 self "_should_self_destruct" = Some (VBool (negb (is_None ttl))) /\
  attr w1 self "_should_initialize" = Some (VBool true) /\
  (is_None ttl = true -> attr w1 self "_is_alive" = None) /\
  (is_None ttl = false ->
   attr w1 self "_birthtime" = Some VNone /\
   attr w1 self "_seconds_to_live" = Some ttl /\
   attr w1 self "_is_alive" = Some (VBool true)).
Proof.
  intros Ho H. unfold SourceNode.__init__ in H.
  apply bind_Ok_inv in H as ([] & wa & Hnode & H).
  unfold Node.__init__ in Hnode. invert_Ok Hnode.
  do 6 (let H1 := fresh "Hs" in apply bind_Ok_inv in H as ([] & ? & H1 & H)).
  apply bind_Ok_inv in H as (d & ? & Hd & H).
  apply getattr_Ok_inv in Hd as [-> (l & Hl & Hd)]. inversion Hl; subst l.
  assert (Hsd : d = VBool (negb (is_None ttl))).
  { revert Hd. attr_back. congruence. }
  subst d. cbn [truthy] in H.
  destruct (is_None ttl) eqn:Httl; cbn [negb] in H.
  - inversion H; subst w1.
    repeat split; try discriminate; attr_back; try reflexivity.
    + now rewrite Ho.
    + intros _. now apply attr_fresh_object with (cls := cls).
  - invert_Ok H.
    repeat split; try discriminate; try intros _; attr_back; try reflexivity.
    now rewrite Ho.
Qed.

Lemma new_object_inv cls w self w0 :
  new_object cls w = (Ok self, w0) ->
  objs w0 !! self = Some (Obj cls ∅) /\ now w0 = now w /\ objs w !! self = None.
Proof.
  unfold new_object. intros H. inversion H; subst. simpl.
  split; [apply lookup_insert_eq|]. split; [reflexivity|].
  apply not_elem_of_dom. apply is_fresh.
Qed.

(** What the constructor leaves when it returns. *)
Lemma construct_source_facts fuel cls ttl w self w1 :
  construct_source spec_of fuel cls ttl w = (Ok self, w1) ->
  obj_class <$> objs w1 !! self = Some cls /\
  now w1 = now w /\
  attr w1 self "_should_self_destruct" = Some (VBool (negb (is_None ttl))) /\
  attr w1 self "_should_initialize" = Some (VBool true) /\
  (is_None ttl = true -> attr w1 self "_is_alive" = None) /\
  (is_None ttl = false ->
   attr w1 self "_birthtime" = Some VNone /\
   attr w1 self "_seconds_to_live" = Some ttl /\
   attr w1 self "_is_alive" = Some (VBool true)).
Proof.
  unfold construct_source. intros H.
  apply bind_Ok_inv in H as (l & w0 & Hnew & H).
  apply bind_Ok_inv in H as ([] & w1' & Hinit & H).
  inversion H; subst l w1'.
  apply new_object_inv in Hnew as (Ho & Hnow & _).
  rewrite <- Hnow. now apply source_init_facts with (fuel := fuel).
Qed.

End SourceFacts.

Section LifetimeFacts.

Variable spec_of : string -> class_spec.

Abbreviation is_alive := (SourceNode.is_alive spec_of).
Abbreviation __setattr__ := (Node.__setattr__ spec_of).

Lemma read_only_Ok_inv {A} (m : W A) w a w' :
  read_only m -> m w = (Ok a, w') -> w' = w.
Proof. intros R H. specialize (R w). now rewrite H in R. Qed.

(** No lifetime: the read goes straight to [_is_alive]. *)
Lemma is_alive_without_lifetime fuel self w o d :
  objs w !! self = Some o ->
  attr w self "_should_self_destruct" = Some d -> truthy d = false ->
  attr w self "_is_alive" = None ->
  is_alive fuel self w = (Err (no_attribute (obj_class o) "_is_alive"), w).
Proof.
  intros Ho Hd Ht Ha. unfold SourceNode.is_alive.
  rewrite (bind_Ok_run _ _ _ _ _ (getattr_Some _ _ _ _ Hd)).
  rewrite Ht. rewrite ret_bind. now apply getattr_None.
Qed.

(** A lifetime but no birth time yet: [None + seconds] raises. *)
Lemma is_alive_before_initialize fuel self w d ttl :
  attr w self "_should_self_destruct" = Some d -> truthy d = true ->
  attr w self "_birthtime" = Some VNone ->
  attr w self "_seconds_to_live" = Some ttl ->
  is_alive fuel self w =
  (Err (TypeError ("unsupported operand type(s) for +: 'NoneType' and '"
                     +:+ type_name w ttl +:+ "'")), w).
Proof.
  intros Hd Ht Hb Hs. unfold SourceNode.is_alive.
  rewrite (bind_Ok_run _ _ _ _ _ (getattr_Some _ _ _ _ Hd)).
  rewrite Ht. apply bind_Err_run.
  rewrite (bind_Ok_run _ _ _ _ _ (eq_refl : time_time w = (Ok (now w), w))).
  rewrite (bind_Ok_run _ _ _ _ _ (getattr_Some _ _ _ _ Hb)).
  rewrite (bind_Ok_run _ _ _ _ _ (getattr_Some _ _ _ _ Hs)).
  apply bind_Err_run. unfold py_add. cbn [as_number].
  now destruct ttl.
Qed.

(** Born at [t0] with [n] seconds to live: the read compares the clock with
    [t0 + n], and latches [_is_alive] to [False] past it. *)
Lemma is_alive_run fuel self w d t0 n :
  attr w self "_should_self_destruct" = Some d -> truthy d = true ->
  attr w self "_birthtime" = Some (VInt t0) ->
  attr w self "_seconds_to_live" = Some (VInt n) ->
  is_alive fuel self w =
  if t0 + n <? now w
  then (__setattr__ fuel self "_is_alive" (VBool false) ;;
        getattr (VRef self) "_is_alive") w
  else getattr (VRef self) "_is_alive" w.
Proof.
  intros Hd Ht Hb Hs. unfold SourceNode.is_alive.
  rewrite (bind_Ok_run _ _ _ _ _ (getattr_Some _ _ _ _ Hd)).
  rewrite Ht. rewrite bind_assoc.
  rewrite (bind_Ok_run _ _ _ _ _ (eq_refl : time_time w = (Ok (now w), w))).
  rewrite bind_assoc.
  rewrite (bind_Ok_run _ _ _ _ _ (getattr_Some _ _ _ _ Hb)).
  rewrite bind_assoc.
  rewrite (bind_Ok_run _ _ _ _ _ (getattr_Some _ _ _ _ Hs)).
  rewrite bind_assoc.
  rewrite (bind_Ok_run _ _ _ _ _
             (eq_refl : py_add (VInt t0) (VInt n) w = (Ok (VInt (t0 + n)), w))).
  rewrite bind_assoc.
  rewrite (bind_Ok_run _ _ _ _ _
             (eq_refl : py_gt (VInt (now w)) (VInt (t0 + n)) w = (Ok (t0 + n <? now w), w))).
  destruct (t0 + n <? now w); [reflexivity|].
  now rewrite ret_bind.
Qed.

(** [SourceNode._initialize] on a node with a lifetime records the clock. *)
Lemma source_initialize_Ok_inv fuel self w w2 d :
  attr w self "_should_self_destruct" = Some d -> truthy d = true ->
  SourceNode._initialize spec_of fuel self w = (Ok tt, w2) ->
  __setattr__ fuel self "_birthtime" (VInt (now w)) w = (Ok tt, w2).
Proof.
  intros Hd Ht. unfold SourceNode._initialize.
  rewrite (bind_Ok_run _ _ _ _ _ (getattr_Some _ _ _ _ Hd)).
  rewrite Ht. now rewrite (bind_Ok_run _ _ _ _ _ (eq_refl : time_time w = (Ok (now w), w))).
Qed.

Lemma source_initialize_without_lifetime fuel self w d :
  attr w self "_should_self_destruct" = Some d -> truthy d = false ->
  SourceNode._initialize spec_of fuel self w = (Ok tt, w).
Proof.
  intros Hd Ht. unfold SourceNode._initialize.
  rewrite (bind_Ok_run _ _ _ _ _ (getattr_Some _ _ _ _ Hd)).
  now rewrite Ht.
Qed.

(** C10: on a source constructed without a lifetime, the read of
    [is_alive] raises [AttributeError]: [_is_alive] does not exist, and
    [_initialize] does not create it.  On a source constructed with a
    lifetime the read made before [_initialize] raises [TypeError], on
    [None + seconds]; made after [_initialize], with a lifetime of [n >= 0]
    seconds, it returns. *)
Theorem C10_is_alive_needs_a_lifetime_and_initialize
    fuel f cls ttl w self w1 t :
  construct_source spec_of fuel cls ttl w = (Ok self, w1) ->
  (ttl = VNone ->
   is_alive f self (at_time t w1) = (Err (no_attribute cls "_is_alive"), at_time t w1) /\
   SourceNode._initialize spec_of f self (at_time t w1) = (Ok tt, at_time t w1)) /\
  (ttl <> VNone ->
   exists msg, is_alive f self (at_time t w1) = (Err (TypeError msg), at_time t w1)) /\
  (forall n w2,
     ttl = VInt n -> 0 <= n ->
     SourceNode._initialize spec_of f self (at_time t w1) = (Ok tt, w2) ->
     is_alive f self w2 = (Ok (VBool true), w2)).
Proof.
  intros Hc.
  apply construct_source_facts in Hc as (Hcls & Hnow & Hsd & _ & Hnone & Hsome).
  destruct (objs w1 !! self) as [o|] eqn:Ho; [|discriminate].
  simpl in Hcls. inversion Hcls as [Hcls'].
  split; [|split].
  - intros ->. cbn [is_None negb] in *. split.
    + apply is_alive_without_lifetime with (d := VBool false); auto.
    + now apply source_initialize_without_lifetime with (d := VBool false).
  - intros Hne. assert (Hf : is_None ttl = false) by now destruct ttl.
    rewrite Hf in Hsd. destruct (Hsome Hf) as (Hb & Hs & _).
    eexists. now apply is_alive_before_initialize with (d := VBool true) (ttl := ttl).
  - intros n w2 -> Hn Hinit. cbn [is_None negb] in *.
    destruct (Hsome eq_refl) as (Hb & Hs & Ha).
    apply source_initialize_Ok_inv with (d := VBool true) in Hinit; auto.
    rewrite (is_alive_run f self w2 (VBool true) t n).
    + rewrite (setattr_Ok_now _ _ _ _ _ _ _ Hinit). cbn [now at_time].
      replace (t + n <? t) with false by (symmetry; apply Z.ltb_ge; lia).
      apply getattr_Some.
      rewrite (setattr_Ok_frame _ _ _ _ _ _ _ self "_is_alive" Hinit)
        by (right; repeat split; discriminate).
      exact Ha.
    + rewrite (setattr_Ok_frame _ _ _ _ _ _ _ self "_should_self_destruct" Hinit)
        by (right; repeat split; discriminate).
      exact Hsd.
    + reflexivity.
    + apply (setattr_Ok_attr _ _ _ _ _ _ _ Hinit).
    + rewrite (setattr_Ok_frame _ _ _ _ _ _ _ self "_seconds_to_live" Hinit)
        by (right; repeat split; discriminate).
      exact Hs.
Qed.

End LifetimeFacts.

Section SourcePullFacts.

Variable spec_of : string -> class_spec.
Variable methods_of : string -> class_methods.

Abbreviation is_alive := (SourceNode.is_alive spec_of).
Abbreviation __setattr__ := (Node.__setattr__ spec_of).

(** What [initialize] has done when it returns, on a node of class [cls]. *)
Lemma initialize_Ok_inv fuel self w calls s2 cls :
  obj_class <$> objs w !! self = Some cls ->
  Node.initialize spec_of methods_of fuel self (State w calls) = (Ok tt, s2) ->
  exists d wA,
    __setattr__ fuel self "_saved_from_upstream" (VDict d) w = (Ok tt, wA) /\
    _initialize (methods_of cls) self wA = (Ok tt, st_world s2).
Proof.
  intros Hcls H. unfold Node.initialize in H.
  rewrite (bind_Ok_run _ _ _ _ _ (called_run _ _ _)) in H.
  apply bind_Ok_inv in H as ([] & sA & HA & H).
  apply lift_inv in HA as (wA & HA & ->). cbn [st_world st_calls] in *.
  apply bind_Ok_inv in HA as (names & w' & Hn & HA).
  apply (read_only_Ok_inv _ _ _ _ (read_only_self_UPSTREAM spec_of self)) in Hn as ->.
  apply bind_Ok_inv in HA as (d & w' & Hd & HA).
  apply (read_only_Ok_inv _ _ _ _ (read_only_snapshot _ _ _ _)) in Hd as ->.
  exists d, wA. split; [exact HA|].
  unfold Node.call_method in H.
  rewrite (bind_Ok_run _ _ _ _ _ (called_run _ _ _)) in H.
  apply lift_inv in H as (w2 & H & ->). cbn [st_world st_calls] in *.
  apply bind_Ok_inv in H as (c & w' & Hc & H).
  rewrite <- (setattr_Ok_class _ _ _ _ _ _ _ self HA) in Hcls.
  unfold class_of in Hc. destruct (objs wA !! self) as [oA|]; [|discriminate].
  simpl in Hcls. inversion Hcls; subst cls. inversion Hc; subst c w'.
  exact H.
Qed.

(** C9 as the code has it: on a source with [n > 0] seconds to live,
    [initialize()] at clock [t0] records [t0] in [_birthtime], but [is_alive]
    read at once returns what [_is_alive] held before: [True] on a source
    that no read has found expired, [False] on one that was found expired
    earlier.  Read later, with nothing changed but the clock, [is_alive]
    returns that same value until the clock is past [t0 + n]; past it the
    read returns [False] and stores [False] in [_is_alive].  The numbers are
    ones a float holds exactly; the class validates the write of [_is_alive]
    and does not reset on it. *)
Theorem C9_source_is_alive_until_found_expired
    fuel f f' cls n w self t0 calls s2 (names : list string) (alive : bool) :
  0 < n ->
  float_exact t0 -> float_exact n -> float_exact (t0 + n) ->
  obj_class <$> objs w !! self = Some cls ->
  attr w self "_should_self_destruct" = Some (VBool true) ->
  attr w self "_seconds_to_live" = Some (VInt n) ->
  attr w self "_is_alive" = Some (VBool alive) ->
  _initialize (methods_of cls) = SourceNode._initialize spec_of f' ->
  Node.initialize spec_of methods_of fuel self (State (at_time t0 w) calls) = (Ok tt, s2) ->
  CHANGES_IN_THESE_REQUIRE_RESET (spec_of cls) = Some names ->
  "_is_alive" ∉ names ->
  (forall w', _check_value (spec_of cls) self "_is_alive" (VBool false) w' = None) ->
  attr (st_world s2) self "_birthtime" = Some (VInt t0) /\
  is_alive (S f) self (st_world s2) = (Ok (VBool alive), st_world s2) /\
  forall t, float_exact t ->
    is_alive (S f) self (at_time t (st_world s2)) =
    if t0 + n <? t
    then (Ok (VBool false),
          set_attr self "_is_alive" (VBool false) (at_time t (st_world s2)))
    else (Ok (VBool alive), at_time t (st_world s2)).
Proof.
  intros Hpos _ _ _ Hcls Hsd Hs Ha Hm Hinit Hn Hnot Hacc.
  apply initialize_Ok_inv with (cls := cls) in Hinit as (d & wA & HA & Hinit);
    [|exact Hcls].
  rewrite Hm in Hinit.
  set (w2 := st_world s2) in *.
  assert (HsdA : attr wA self "_should_self_destruct" = Some (VBool true)).
  { attr_back. exact Hsd. }
  apply source_initialize_Ok_inv with (d := VBool true) in Hinit; auto.
  assert (HnowA : now wA = t0) by (attr_back; reflexivity).
  rewrite HnowA in Hinit.
  assert (Hb2 : attr w2 self "_birthtime" = Some (VInt t0)) by (attr_back; reflexivity).
  assert (Hsd2 : attr w2 self "_should_self_destruct" = Some (VBool true))
    by (attr_back; exact Hsd).
  assert (Hs2 : attr w2 self "_seconds_to_live" = Some (VInt n))
    by (attr_back; exact Hs).
  assert (Ha2 : attr w2 self "_is_alive" = Some (VBool alive))
    by (attr_back; exact Ha).
  assert (Hnow2 : now w2 = t0) by (attr_back; reflexivity).
  assert (Hcls2 : obj_class <$> objs w2 !! self = Some cls)
    by (attr_back; exact Hcls).
  split; [exact Hb2|]. split.
  - rewrite (is_alive_run spec_of (S f) self w2 (VBool true) t0 n); auto.
    rewrite Hnow2.
    replace (t0 + n <? t0) with false by (symmetry; apply Z.ltb_ge; lia).
    now apply getattr_Some.
  - intros t _.
    rewrite (is_alive_run spec_of (S f) self (at_time t w2) (VBool true) t0 n); auto.
    cbn [now at_time].
    destruct (t0 + n <? t).
    + destruct (objs w2 !! self) as [o2|] eqn:Ho2; [|discriminate].
      simpl in Hcls2. inversion Hcls2 as [Hc2].
      assert (Hset : __setattr__ (S f) self "_is_alive" (VBool false) (at_time t w2)
                     = (Ok tt, set_attr self "_is_alive" (VBool false) (at_time t w2))).
      { apply setattr_plain with (o := o2) (names := names); auto.
        - now rewrite Hc2.
        - rewrite Hc2. apply Hacc. }
      rewrite (bind_Ok_run _ _ _ _ _ Hset).
      apply getattr_Some. apply attr_set_attr_eq. simpl. rewrite Ho2. eauto.
    + now apply getattr_Some.
Qed.

(** The object at [l] after one of its attributes was set. *)
Lemma set_attr_lookup l key v w o :
  objs w !! l = Some o ->
  objs (set_attr l key v w) !! l
  = Some (Obj (obj_class o) (<[key := v]> (obj_attrs o))).
Proof. intros Ho. rewrite (set_attr_objs _ _ _ _ _ Ho). apply lookup_insert_eq. Qed.

(** C8 as the code has it: a pull never consults [is_alive].  On a node
    at the head of a chain with nothing pending, whatever [_is_alive] holds
    ([False] on a source that has expired), [update] clears [output] and both
    flags and then runs the compute step [_update] of the class: the outcome
    of the pull is the outcome of [_update], and [_update] is the one call
    made.  So an expired source whose class computes keeps producing, and one
    that keeps the [_update] of [SourceNode] raises, as it does while alive.
    The class validates the three writes and resets on none of the names. *)
Theorem C8_expired_source_still_runs_its_compute_step
    fuel self s o (names : list string) i r a :
  objs (st_world s) !! self = Some o ->
  CHANGES_IN_THESE_REQUIRE_RESET (spec_of (obj_class o)) = Some names ->
  "output" ∉ names ->
  "_should_initialize" ∉ names ->
  "_should_reset" ∉ names ->
  (forall w', _check_value (spec_of (obj_class o)) self "output" VNone w' = None) ->
  (forall w', _check_value (spec_of (obj_class o)) self "_should_initialize" (VBool false) w'
              = None) ->
  (forall w', _check_value (spec_of (obj_class o)) self "_should_reset" (VBool false) w'
              = None) ->
  attr (st_world s) self "input_node" = Some VNone ->
  attr (st_world s) self "_should_initialize" = Some i -> is_True i = false ->
  attr (st_world s) self "_should_reset" = Some r -> is_True r = false ->
  attr (st_world s) self "_is_alive" = Some a ->
  let w' := set_attr self "_should_reset" (VBool false)
              (set_attr self "_should_initialize" (VBool false)
                 (set_attr self "output" VNone (st_world s))) in
  let computed := _update (methods_of (obj_class o)) self w' in
  attr w' self "_is_alive" = Some a /\
  attr w' self "output" = Some VNone /\
  Node.update spec_of methods_of (S fuel) self s =
    (fst computed, State (snd computed) (st_calls s ++ [Called self "_update"])).
Proof.
  intros Ho Hn Hout Hni Hnr Hc1 Hc2 Hc3 Hhead Hi Hfi Hr Hfr Ha.
  set (w1 := set_attr self "output" VNone (st_world s)).
  set (w2 := set_attr self "_should_initialize" (VBool false) w1).
  intros w' computed.
  pose proof (set_attr_lookup self "output" VNone _ o Ho) as Ho1. fold w1 in Ho1.
  pose proof (set_attr_lookup self "_should_initialize" (VBool false) _ _ Ho1) as Ho2.
  fold w2 in Ho2. cbn [obj_class] in Ho2.
  pose proof (set_attr_lookup self "_should_reset" (VBool false) _ _ Ho2) as Ho3.
  fold w' in Ho3. cbn [obj_class] in Ho3.
  split; [|split].
  - unfold w', w2, w1. rewrite !attr_set_attr_ne by (right; discriminate). exact Ha.
  - unfold w', w2. rewrite !attr_set_attr_ne by (right; discriminate).
    apply attr_set_attr_eq. eauto.
  - unfold Node.update.
    rewrite (bind_Ok_run _ _ _ _ _
               (lift_run _ _ _ _ (setattr_plain spec_of fuel self "output" VNone _ o names
                                    Ho Hn Hout (Hc1 _)))).
    fold w1.
    assert (Hthere : Node._there_was_a_change_upstream self w1 = (Ok false, w1)).
    { apply no_change_upstream_run. left. unfold w1.
      rewrite attr_set_attr_ne by (right; discriminate). exact Hhead. }
    rewrite (bind_Ok_run _ _ _ _ _ (lift_run _ (State w1 (st_calls s)) _ _ Hthere)).
    rewrite ret_bind.
    assert (Hi1 : attr w1 self "_should_initialize" = Some i)
      by (unfold w1; rewrite attr_set_attr_ne by (right; discriminate); exact Hi).
    assert (Hr1 : attr w1 self "_should_reset" = Some r)
      by (unfold w1; rewrite attr_set_attr_ne by (right; discriminate); exact Hr).
    unfold Node._reset_or_reinitialize_if_needed. rewrite !bind_assoc.
    rewrite (bind_Ok_run _ _ _ _ _
               (lift_run _ (State w1 (st_calls s)) _ _ (getattr_Some _ _ _ _ Hi1))).
    rewrite Hfi. cbv iota. cbn [st_world st_calls]. rewrite !bind_assoc.
    rewrite (bind_Ok_run _ _ _ _ _
               (lift_run _ (State w1 (st_calls s)) _ _ (getattr_Some _ _ _ _ Hr1))).
    rewrite Hfr. cbv iota. cbn [st_world st_calls]. rewrite ret_bind.
    rewrite !bind_assoc.
    rewrite (bind_Ok_run _ _ _ _ _
               (lift_run _ (State w1 (st_calls s)) _ _
                  (setattr_plain spec_of fuel self "_should_initialize" (VBool false) w1 _
                     names Ho1 Hn Hni (Hc2 _)))).
    fold w2. cbn [st_world st_calls].
    rewrite (bind_Ok_run _ _ _ _ _
               (lift_run _ (State w2 (st_calls s)) _ _
                  (setattr_plain spec_of fuel self "_should_reset" (VBool false) w2 _
                     names Ho2 Hn Hnr (Hc3 _)))).
    fold w'. cbn [st_world st_calls].
    unfold Node.call_method.
    rewrite (bind_Ok_run _ _ _ _ _ (called_run _ _ _)).
    unfold lift. cbn [st_world st_calls].
    rewrite (bind_Ok_run _ _ _ _ _ (class_of_Some _ _ _ Ho3)). cbn [obj_class].
    fold computed. now destruct computed.
Qed.

End SourcePullFacts.

(** ** Methods that leave an attribute alone *)

Section MethodFacts.

Variable spec_of : string -> class_spec.

Abbreviation __setattr__ := (Node.__setattr__ spec_of).

(** A write that raises has not bound its key. *)
Lemma setattr_Err_attr fuel self key v w e w' l :
  __setattr__ fuel self key v w = (Err e, w') ->
  key <> "_should_reset" -> key <> "there_has_been_a_change" ->
  attr w' l key = attr w l key.
Proof.
  intros H Hr Hc. destruct fuel as [|n].
  { inversion H. reflexivity. }
  rewrite setattr_unfold in H.
  apply bind_Err_inv in H as [H|([] & w1 & H1 & H)].
  { pose proof (read_only_self_check_value spec_of self key v w) as R.
    rewrite H in R. simpl in R. now subst w'. }
  apply self_check_value_Ok_inv in H1 as ->.
  apply bind_Err_inv in H as [H|(names & w1 & H1 & H)].
  { pose proof (read_only_self_CHANGES spec_of self w) as R.
    rewrite H in R. simpl in R. now subst w'. }
  apply (read_only_Ok_inv _ _ _ _ (read_only_self_CHANGES spec_of self)) in H1 as ->.
  assert (Hnested : preserves (fun w0 => attr w0 l key = attr w l key)
            (if bool_decide (key ∈ names)
             then __setattr__ n self "_should_reset" (VInt 1) ;;
                  __setattr__ n self "there_has_been_a_change" (VBool true)
             else ret tt)).
  { apply preserves_if; [|apply preserves_ret].
    apply preserves_bind; [|intros _];
      apply setattr_preserves; intros w0 <-; apply attr_set_attr_ne; right; congruence. }
  specialize (Hnested w eq_refl).
  apply bind_Err_inv in H as [H|([] & w3 & H3 & H)].
  - rewrite H in Hnested. exact Hnested.
  - rewrite H3 in Hnested. simpl in Hnested.
    unfold object_setattr in H. destruct (objs w3 !! self); [discriminate|].
    inversion H; subst. exact Hnested.
Qed.

(** [SourceNode._initialize] writes [_birthtime] only. *)
Lemma source_initialize_other_attr fuel self w l k :
  k <> "_birthtime" -> k <> "_should_reset" -> k <> "there_has_been_a_change" ->
  attr (snd (SourceNode._initialize spec_of fuel self w)) l k = attr w l k.
Proof.
  intros H1 H2 H3. unfold SourceNode._initialize.
  apply (preserves_bind (fun w' => attr w' l k = attr w l k));
    [apply read_only_preserves, read_only_getattr|intros d|reflexivity].
  destruct (truthy d); [|apply preserves_ret].
  apply preserves_bind; [apply read_only_preserves, read_only_time_time|intros t].
  intros w' <-. apply setattr_other_attr. right. auto.
Qed.

End MethodFacts.

(** ** The snapshot and the hop, where the protocol works *)

Lemma dict_set_keys k v (d : list (string * value)) :
  NoDup (map fst d) ->
  NoDup (map fst (dict_set k v d)) /\
  forall k', k' ∈ map fst (dict_set k v d) <-> k' = k \/ k' ∈ map fst d.
Proof.
  induction d as [|[k0 v0] d IH]; intros Hnd; simpl.
  - split.
    + apply NoDup_cons. split; [intros H; inversion H|apply NoDup_nil; exact I].
    + intros k'. rewrite list_elem_of_singleton. split; [tauto|].
      intros [H|H]; [exact H|inversion H].
  - simpl in Hnd. apply NoDup_cons in Hnd as [Hnotin Hnd].
    destruct (IH Hnd) as [IH1 IH2].
    destruct (String.eqb_spec k k0) as [->|Hne]; simpl.
    + split.
      * apply NoDup_cons. now split.
      * intros k'. rewrite elem_of_cons. tauto.
    + split.
      * apply NoDup_cons. split; [|exact IH1].
        intros H. apply IH2 in H as [H|H]; [congruence|contradiction].
      * intros k'. rewrite !elem_of_cons, IH2. tauto.
Qed.

Section HopFacts.

Variable spec_of : string -> class_spec.

Import Node.

(** The dict comprehension of [initialize] yields one entry per name. *)
Lemma snapshot_keys fuel self (names : list string) d0 w d w' :
snapshot fuel self names d0 w = (Ok d, w') ->
NoDup (map fst d0) ->
NoDup (map fst d) /\
forall k, k ∈ map fst d <-> k ∈ map fst d0 \/ k ∈ names.
Proof.
revert d0 w. induction names as [|item rest IH]; intros d0 w H Hnd; simpl in H.
- inversion H; subst. split; [exact Hnd|].
  intros k. split; [tauto|]. intros [Hk|Hk]; [exact Hk|inversion Hk].
- apply bind_Ok_inv in H as (v & w1 & _ & H).
  destruct (dict_set_keys item v d0 Hnd) as [Hnd1 Hk1].
  destruct (IH _ _ H Hnd1) as [Hnd2 Hk2].
  split; [exact Hnd2|].
  intros k. rewrite Hk2, Hk1, elem_of_cons. tauto.
Qed.

(** When [_react_to_the_change_upstream] returns, the flag of the
  predecessor is consumed and the node's own flag is raised. *)
Lemma react_moves_the_flag_one_hop fuel A B w w' :
A <> B ->
attr w B "input_node" = Some (VRef A) ->
_react_to_the_change_upstream spec_of fuel B w = (Ok tt, w') ->
attr w' A "there_has_been_a_change" = Some (VBool false) /\
attr w' B "there_has_been_a_change" = Some (VBool true).
Proof.
intros Hne Hin H. unfold _react_to_the_change_upstream in H.
apply bind_Ok_inv in H as (b & w0 & Hb & H).
apply (read_only_Ok_inv _ _ _ _ (read_only_requires_reinitialization _ _)) in Hb as ->.
apply bind_Ok_inv in H as ([] & w1 & H1 & H).
apply bind_Ok_inv in H as (p & w1' & Hp & H).
apply getattr_Ok_inv in Hp as [-> (l & Hl & Hp)]. inversion Hl; subst l.
assert (Hin1 : attr w1 B "input_node" = Some (VRef A)).
{ rewrite <- Hin. destruct b;
    apply (setattr_Ok_frame spec_of _ _ _ _ _ _ B "input_node" H1);
    right; repeat split; discriminate. }
assert (p = VRef A) by congruence. subst p.
apply bind_Ok_inv in H as ([] & w2 & H2 & H3).
apply setattr_value_Ok_inv in H2 as (l & Hl' & H2). inversion Hl'; subst l.
split.
- rewrite (setattr_Ok_frame spec_of _ _ _ _ _ _ A "there_has_been_a_change" H3)
    by (left; exact Hne).
  now apply setattr_Ok_attr in H2.
- now apply setattr_Ok_attr in H3.
Qed.

End HopFacts.

(** * More of what the code does *)

(** ** Writes of a name no class resets on *)

Section UntriggeredFacts.

Variable spec_of : string -> class_spec.

Abbreviation __setattr__ := (Node.__setattr__ spec_of).

(** A write of a name that no class resets on touches nothing but the
    name, whether it returns or raises. *)
Lemma setattr_untriggered fuel self key v w l k :
  (forall cls names,
     CHANGES_IN_THESE_REQUIRE_RESET (spec_of cls) = Some names -> key ∉ names) ->
  l <> self \/ k <> key ->
  attr (snd (__setattr__ fuel self key v w)) l k = attr w l k.
Proof.
  intros Hnone Hne. destruct fuel as [|n]; [reflexivity|].
  rewrite setattr_unfold.
  destruct (objs w !! self) as [o|] eqn:Ho; cycle 1.
  { unfold Node.self_check_value, bind, class_of. now rewrite Ho. }
  unfold bind at 1. rewrite (self_check_value_run spec_of self key v w o Ho).
  destruct (_check_value (spec_of (obj_class o)) self key v w); [reflexivity|].
  unfold bind at 1. rewrite (self_CHANGES_run spec_of self w o Ho).
  destruct (CHANGES_IN_THESE_REQUIRE_RESET (spec_of (obj_class o))) as [names|] eqn:Hn;
    [|reflexivity].
  cbn [Node.read_tuple ret].
  rewrite bool_decide_eq_false_2 by (now apply (Hnone (obj_class o))).
  rewrite ret_bind. unfold object_setattr. rewrite Ho. cbn [snd].
  now apply attr_set_attr_ne.
Qed.

End UntriggeredFacts.

(** ** Construction and mutation *)

Section MutationFacts.

Variable spec_of : string -> class_spec.

Abbreviation __setattr__ := (Node.__setattr__ spec_of).

(** A write that returns and is not of a flag leaves a flag it found
    scheduled as it is. *)
Lemma setattr_Ok_keeps_scheduled fuel self key v w w' :
  __setattr__ fuel self key v w = (Ok tt, w') ->
  key <> "_should_reset" -> key <> "there_has_been_a_change" ->
  attr w self "_should_reset" = Some (VInt 1) ->
  attr w self "there_has_been_a_change" = Some (VBool true) ->
  attr w' self "_should_reset" = Some (VInt 1) /\
  attr w' self "there_has_been_a_change" = Some (VBool true).
Proof.
  intros H Hr Hc H1 H2.
  pose proof (setattr_preserves spec_of
                (fun w0 => attr w0 self "_should_reset" = Some (VInt 1) /\
                           attr w0 self "there_has_been_a_change" = Some (VBool true))
                fuel self key v) as Hp.
  unfold preserves in Hp. specialize (Hp
    ltac:(intros w0 [A B]; split; rewrite attr_set_attr_ne by (right; congruence); assumption)).
  assert (Hobj : forall w0, attr w0 self "_should_reset" = Some (VInt 1) ->
                            is_Some (objs w0 !! self)).
  { intros w0 A. unfold attr in A. destruct (objs w0 !! self); [eauto|discriminate]. }
  specialize (Hp
    ltac:(intros w0 [A B]; split;
          [apply attr_set_attr_eq; auto
          |rewrite attr_set_attr_ne by (right; discriminate); assumption])).
  specialize (Hp
    ltac:(intros w0 [A B]; split;
          [rewrite attr_set_attr_ne by (right; discriminate); assumption
          |apply attr_set_attr_eq; auto])).
  specialize (Hp w (conj H1 H2)). now rewrite H in Hp.
Qed.

(** X1: when [Node.__init__] returns, the node has no predecessor, no
    output and no snapshot, and is pending initialization; it is not pending
    a reset unless the class resets on [_saved_from_upstream], and its change
    flag is down unless the class resets on [_should_initialize] or
    [_saved_from_upstream]. *)
Theorem X1_constructed_node_is_pending_initialize fuel self w w1 o (names : list string) :
  objs w !! self = Some o ->
  CHANGES_IN_THESE_REQUIRE_RESET (spec_of (obj_class o)) = Some names ->
  Node.__init__ spec_of fuel self w = (Ok tt, w1) ->
  attr w1 self "input_node" = Some VNone /\
  attr w1 self "output" = Some VNone /\
  attr w1 self "_should_initialize" = Some (VBool true) /\
  attr w1 self "_saved_from_upstream" = Some VNone /\
  (("_saved_from_upstream" ∉ names) -> attr w1 self "_should_reset" = Some (VBool false)) /\
  (("_should_initialize" ∉ names) -> ("_saved_from_upstream" ∉ names) ->
   attr w1 self "there_has_been_a_change" = Some (VBool false)).
Proof.
  intros Ho Hn H. unfold Node.__init__ in H.
  apply bind_Ok_inv in H as ([] & wa & Ha & H).
  apply bind_Ok_inv in H as ([] & wb & Hb & H).
  apply bind_Ok_inv in H as ([] & wc & Hc & H).
  apply bind_Ok_inv in H as ([] & wd & Hd & H).
  apply bind_Ok_inv in H as ([] & we & He & H).
  assert (Hnames : forall wi oi namesi,
             obj_class <$> objs wi !! self = obj_class <$> objs w !! self ->
             objs wi !! self = Some oi ->
             CHANGES_IN_THESE_REQUIRE_RESET (spec_of (obj_class oi)) = Some namesi ->
             namesi = names).
  { intros wi oi namesi E Hoi Hni. rewrite Hoi, Ho in E. simpl in E.
    inversion E as [E']. rewrite E' in Hni. congruence. }
  repeat split; try (attr_back; reflexivity).
  - intros Hs.
    apply setattr_Ok_inv in H as (o5 & names5 & Ho5 & Hn5 & Hcase).
    assert (names5 = names)
      by (apply (Hnames we o5); auto; attr_back; reflexivity).
    subst names5. destruct Hcase as [[_ ->]|[Hin _]]; [|contradiction].
    rewrite attr_set_attr_ne by (right; discriminate).
    now apply setattr_Ok_attr in He.
  - intros Hi Hs.
    apply setattr_Ok_inv in H as (o5 & names5 & Ho5 & Hn5 & Hcase).
    assert (names5 = names)
      by (apply (Hnames we o5); auto; attr_back; reflexivity).
    subst names5. destruct Hcase as [[_ ->]|[Hin _]]; [|contradiction].
    rewrite attr_set_attr_ne by (right; discriminate).
    rewrite (setattr_flag_Ok_frame spec_of _ _ _ _ _ _ self "there_has_been_a_change" He)
      by (auto || (right; discriminate)).
    apply setattr_Ok_inv in Hd as (o3 & names3 & Ho3 & Hn3 & Hcase).
    assert (names3 = names)
      by (apply (Hnames wc o3); auto; attr_back; reflexivity).
    subst names3. destruct Hcase as [[_ ->]|[Hin _]]; [|contradiction].
    rewrite attr_set_attr_ne by (right; discriminate).
    now apply setattr_Ok_attr in Hc.
Qed.

(** X2: what a mutation that returns has done.  The attribute holds the
    new value.  When it is a reset trigger, [_should_reset] holds the integer
    [1] and [there_has_been_a_change] is [True], without any pull; when it is
    not, nothing else in the store has changed.  In both cases no attribute
    but these three, and no other object, is touched. *)
Theorem X2_mutation_schedules_a_reset_at_once
    fuel self key v w w' o (names : list string) :
  objs w !! self = Some o ->
  CHANGES_IN_THESE_REQUIRE_RESET (spec_of (obj_class o)) = Some names ->
  __setattr__ fuel self key v w = (Ok tt, w') ->
  attr w' self key = Some v /\
  (key ∈ names ->
   attr w' self "_should_reset" = Some (VInt 1) /\
   attr w' self "there_has_been_a_change" = Some (VBool true)) /\
  ((key ∉ names) -> forall l k, l <> self \/ k <> key -> attr w' l k = attr w l k) /\
  (forall l k,
     l <> self \/ (k <> key /\ k <> "_should_reset" /\ k <> "there_has_been_a_change") ->
     attr w' l k = attr w l k).
Proof.
  intros Ho Hn H. split; [now apply setattr_Ok_attr in H|].
  split; [|split].
  - intros Hin.
    apply setattr_Ok_inv in H as (o' & names' & Ho' & Hn' & Hcase).
    rewrite Ho in Ho'. inversion Ho'; subst o'. rewrite Hn in Hn'. inversion Hn'; subst names'.
    destruct Hcase as [[Hk _]|(_ & Hr & Hc & ->)]; [contradiction|].
    assert (key <> "_should_reset") by (intros ->; contradiction).
    assert (key <> "there_has_been_a_change") by (intros ->; contradiction).
    split.
    + rewrite attr_set_attr_ne by (right; congruence).
      rewrite attr_set_attr_ne by (right; discriminate).
      apply attr_set_attr_eq. now rewrite Ho.
    + rewrite attr_set_attr_ne by (right; congruence).
      apply attr_set_attr_eq.
      rewrite (set_attr_objs _ _ _ _ _ Ho), lookup_insert_eq. eauto.
  - intros Hnot l k Hne.
    apply setattr_Ok_inv in H as (o' & names' & Ho' & Hn' & Hcase).
    rewrite Ho in Ho'. inversion Ho'; subst o'. rewrite Hn in Hn'. inversion Hn'; subst names'.
    destruct Hcase as [[_ ->]|[Hk _]]; [|contradiction].
    now apply attr_set_attr_ne.
  - intros l k Hne. now apply (setattr_Ok_frame spec_of _ _ _ _ _ _ l k H).
Qed.

(** X3: a class that lists [_should_reset] or [there_has_been_a_change]
    among its reset triggers cannot mutate any of its reset triggers: the
    flag writes of [__setattr__] re-enter it, and whatever stack is left the
    write ends in [RecursionError] (the validation accepts every write). *)
Theorem X3_flags_as_triggers_exhaust_the_stack
    fuel self key v w o (names : list string) :
  objs w !! self = Some o ->
  CHANGES_IN_THESE_REQUIRE_RESET (spec_of (obj_class o)) = Some names ->
  (forall k v' w', _check_value (spec_of (obj_class o)) self k v' w' = None) ->
  "_should_reset" ∈ names \/ "there_has_been_a_change" ∈ names ->
  key ∈ names ->
  fst (__setattr__ fuel self key v w) = Err RecursionError.
Proof.
  intros Ho Hn Hacc Hflag. revert key v w o Ho Hn Hacc.
  induction fuel as [|n IH]; intros key v w o Ho Hn Hacc Hkey; [reflexivity|].
  rewrite setattr_unfold.
  erewrite bind_Ok_run
    by (rewrite (self_check_value_run _ _ _ _ _ _ Ho), Hacc; reflexivity).
  rewrite (bind_Ok_run _ _ _ _ _ (self_CHANGES_Some _ _ _ _ _ Ho Hn)).
  rewrite bool_decide_eq_true_2 by assumption.
  destruct (decide ("_should_reset" ∈ names)) as [Hr|Hr].
  - specialize (IH "_should_reset" (VInt 1) w o Ho Hn Hacc Hr).
    destruct (__setattr__ n self "_should_reset" (VInt 1) w) as [[[]|e] w1] eqn:E1;
      simpl in IH; [discriminate|].
    inversion IH; subst e.
    erewrite bind_Err_run; [reflexivity|].
    erewrite bind_Err_run; [reflexivity|]. exact E1.
  - destruct Hflag as [?|Hc]; [contradiction|].
    destruct n as [|n'].
    + reflexivity.
    + assert (E1 : __setattr__ (S n') self "_should_reset" (VInt 1) w
                   = (Ok tt, set_attr self "_should_reset" (VInt 1) w))
        by (apply setattr_plain with (o := o) (names := names); auto).
      pose proof (setattr_object spec_of (S n') self "_should_reset" (VInt 1) w o Ho)
        as (o1 & Ho1 & Hc1).
      rewrite E1 in Ho1. simpl in Ho1.
      assert (IH2 := IH "there_has_been_a_change" (VBool true) _ o1 Ho1).
      rewrite Hc1 in IH2. specialize (IH2 Hn Hacc Hc).
      destruct (__setattr__ (S n') self "there_has_been_a_change" (VBool true)
                  (set_attr self "_should_reset" (VInt 1) w)) as [[[]|e] w2] eqn:E2;
        simpl in IH2; [discriminate|].
      inversion IH2; subst e.
      erewrite bind_Err_run; [reflexivity|].
      rewrite (bind_Ok_run _ _ _ _ _ E1). exact E2.
Qed.

End MutationFacts.

(** ** The snapshot *)

Lemma dict_get_set k k' v (d : list (string * value)) :
  dict_get k (dict_set k' v d) = if String.eqb k k' then Some v else dict_get k d.
Proof.
  induction d as [|[k0 v0] d IH]; simpl.
  - now destruct (String.eqb k k').
  - destruct (String.eqb_spec k' k0) as [->|Hne]; simpl.
    + now destruct (String.eqb k k0).
    + destruct (String.eqb_spec k k0) as [->|Hne0].
      * destruct (String.eqb_spec k0 k') as [E|_]; [congruence|reflexivity].
      * exact IH.
Qed.

Section SnapshotFacts.

Variable spec_of : string -> class_spec.
Variable methods_of : string -> class_methods.

Import Node.

(** Every entry of the dict comprehension is what the traversal returns. *)
Lemma snapshot_values fuel self (names : list string) d0 w d w' :
  snapshot fuel self names d0 w = (Ok d, w') ->
  (forall k v, dict_get k d0 = Some v -> traverse_back_and_find fuel self k w = (Ok v, w)) ->
  forall k v, dict_get k d = Some v -> traverse_back_and_find fuel self k w = (Ok v, w).
Proof.
  revert d0. induction names as [|item rest IH]; intros d0 H Hd0; simpl in H.
  - inversion H; subst. exact Hd0.
  - apply bind_Ok_inv in H as (v0 & w1 & Ht & H).
    pose proof (read_only_Ok_inv _ _ _ _ (read_only_traverse _ _ _) Ht). subst w1.
    apply (IH _ H). intros k v. rewrite dict_get_set.
    destruct (String.eqb_spec k item) as [->|_]; [|apply Hd0].
    intros E. inversion E; subst. exact Ht.
Qed.

(** What [initialize] has done when it returns. *)
Lemma initialize_Ok_snapshot fuel self w calls s2 o (names : list string) :
  objs w !! self = Some o ->
  UPSTREAM_CHANGES_IN_THESE_REQUIRE_REINITIALIZATION (spec_of (obj_class o)) = Some names ->
  initialize spec_of methods_of fuel self (State w calls) = (Ok tt, s2) ->
  exists d wA,
    snapshot fuel self names [] w = (Ok d, w) /\
    Node.__setattr__ spec_of fuel self "_saved_from_upstream" (VDict d) w = (Ok tt, wA) /\
    _initialize (methods_of (obj_class o)) self wA = (Ok tt, st_world s2) /\
    st_calls s2 = calls ++ [Called self "initialize"; Called self "_initialize"].
Proof.
  intros Ho Hup H. unfold initialize in H.
  rewrite (bind_Ok_run _ _ _ _ _ (called_run _ _ _)) in H.
  apply bind_Ok_inv in H as ([] & sA & HA & H).
  apply lift_inv in HA as (wA & HA & ->). cbn [st_world st_calls] in *.
  rewrite (bind_Ok_run _ _ _ _ _
             (eq_trans (self_UPSTREAM_run spec_of _ _ _ Ho)
                (f_equal (fun t => read_tuple t _ w) Hup))) in HA.
  apply bind_Ok_inv in HA as (d & w' & Hd & HA).
  pose proof (read_only_Ok_inv _ _ _ _ (read_only_snapshot _ _ _ _) Hd). subst w'.
  exists d, wA. split; [exact Hd|]. split; [exact HA|].
  unfold call_method in H.
  rewrite (bind_Ok_run _ _ _ _ _ (called_run _ _ _)) in H.
  apply lift_inv in H as (w2 & H & ->). cbn [st_world st_calls] in *.
  apply bind_Ok_inv in H as (c & w' & Hc & H).
  pose proof (setattr_Ok_class _ _ _ _ _ _ _ self HA) as Hcls.
  rewrite Ho in Hcls. unfold class_of in Hc.
  destruct (objs wA !! self) as [oA|]; [|discriminate].
  simpl in Hcls. injection Hcls as E. injection Hc as Ec Ew. subst c w'.
  rewrite E in H.
  split; [exact H|]. now rewrite <- app_assoc.
Qed.

(** X4: when [initialize] returns (and [_initialize] leaves the snapshot
    alone), [_saved_from_upstream] is a dict with one entry for each name of
    [UPSTREAM_CHANGES_IN_THESE_REQUIRE_REINITIALIZATION] and no other; every
    entry holds what the ancestor traversal returned for its name; and
    [_initialize] was called after the snapshot was taken. *)
Theorem X4_initialize_takes_a_snapshot fuel self w calls s2 o (names : list string) :
  objs w !! self = Some o ->
  UPSTREAM_CHANGES_IN_THESE_REQUIRE_REINITIALIZATION (spec_of (obj_class o)) = Some names ->
  (forall w0, attr (snd (_initialize (methods_of (obj_class o)) self w0)) self
                "_saved_from_upstream" = attr w0 self "_saved_from_upstream") ->
  initialize spec_of methods_of fuel self (State w calls) = (Ok tt, s2) ->
  exists d,
    attr (st_world s2) self "_saved_from_upstream" = Some (VDict d) /\
    NoDup (map fst d) /\
    (forall k, k ∈ map fst d <-> k ∈ names) /\
    (forall k v, dict_get k d = Some v ->
                 traverse_back_and_find fuel self k w = (Ok v, w)) /\
    st_calls s2 = calls ++ [Called self "initialize"; Called self "_initialize"].
Proof.
  intros Ho Hup Hhook H.
  apply (initialize_Ok_snapshot _ _ _ _ _ _ _ Ho Hup) in H as (d & wA & Hd & HA & Hi & Hc).
  exists d. split; [|split; [|split; [|split]]].
  - specialize (Hhook wA). rewrite Hi in Hhook. simpl in Hhook. rewrite Hhook.
    now apply setattr_Ok_attr in HA.
  - apply (snapshot_keys spec_of _ _ _ _ _ _ _ Hd). apply NoDup_nil. exact I.
  - intros k. destruct (snapshot_keys spec_of _ _ _ _ _ _ _ Hd ltac:(apply NoDup_nil; exact I))
      as [_ Hk]. rewrite Hk. simpl. split; [intros [E|E]; [inversion E|exact E]|tauto].
  - apply (snapshot_values _ _ _ _ _ _ _ Hd). intros k v E. discriminate.
  - exact Hc.
Qed.

(** The loop over a snapshot that is current finds nothing changed. *)
Lemma any_item_changed_current fuel self (d : list (string * value)) w :
  (forall k v, (k, v) ∈ d -> traverse_back_and_find fuel self k w = (Ok v, w)) ->
  Forall (fun kv => py_ne (snd kv) (snd kv) = false) d ->
  any_item_changed fuel self d w = (Ok false, w).
Proof.
  induction d as [|[k v] d IH]; intros Hcur Hwf; simpl.
  - reflexivity.
  - rewrite (bind_Ok_run _ _ _ _ _ (Hcur k v ltac:(apply elem_of_cons; now left))).
    apply Forall_cons in Hwf as [Hv Hwf]. cbn [snd] in Hv.
    rewrite Hv. cbv iota.
    apply IH; [|exact Hwf]. intros k' v' Hin. apply Hcur. apply elem_of_cons. now right.
Qed.

(** X5: a snapshot taken in the present store asks for no
    reinitialization: when [_saved_from_upstream] holds what the dict
    comprehension of [initialize] yields now, and every saved value [v] is
    one for which [v != v] is [False] (a NaN or a numpy array is not),
    [_the_change_requires_reinitialization] returns [False]. *)
Theorem X5_current_snapshot_requires_no_reinitialization
    fuel self (names : list string) w d :
  snapshot fuel self names [] w = (Ok d, w) ->
  Forall (fun kv => py_ne (snd kv) (snd kv) = false) d ->
  attr w self "_saved_from_upstream" = Some (VDict d) ->
  _the_change_requires_reinitialization fuel self w = (Ok false, w).
Proof.
  intros Hd Hwf Hattr. unfold _the_change_requires_reinitialization.
  rewrite (bind_Ok_run _ _ _ _ _ (getattr_Some _ _ _ _ Hattr)).
  cbn [dict_items]. rewrite ret_bind.
  apply any_item_changed_current; [|exact Hwf].
  destruct (snapshot_keys (fun _ => ClassSpec None None _check_value_abstract)
              _ _ _ _ _ _ _ Hd ltac:(apply NoDup_nil; exact I)) as [Hnd _].
  intros k v Hin. apply (snapshot_values _ _ _ _ _ _ _ Hd).
  - intros k' v' E. discriminate.
  - now apply dict_get_elem_of.
Qed.

End SnapshotFacts.

(** ** Chains that are not chains *)

Section BrokenChainFacts.

Variable spec_of : string -> class_spec.
Variable methods_of : string -> class_methods.

Import Node.

(** X10: on a chain of [input_node] references that closes on itself,
    looking for a name that is looked up in instance dictionaries
    ([data_attribute]) and that no node of the chain has never ends in the
    [AttributeError] of a missing attribute: whatever the stack left, the
    traversal exhausts it and raises [RecursionError]. *)
Theorem X10_traversal_of_a_loop_exhausts_the_stack
    fuel self item w (S : loc -> Prop) :
  data_attribute item = true ->
  loops_without w item S ->
  S self ->
  traverse_back_and_find fuel self item w = (Err RecursionError, w).
Proof.
  intros _ Hloop. revert self. induction fuel as [|n IH]; intros self HS; [reflexivity|].
  rewrite traverse_unfold.
  destruct (Hloop self HS) as (p & Hp & Hin & Hnone).
  assert (Hfirst : exists msg,
             (p0 <- getattr (VRef self) "input_node" ;; getattr p0 item) w
             = (Err (AttributeError msg), w)).
  { rewrite (bind_Ok_run _ _ _ _ _ (getattr_Some _ _ _ _ Hin)).
    unfold getattr, attr in *. destruct (objs w !! p) as [op|]; [|eauto].
    rewrite Hnone. unfold no_attribute. eauto. }
  destruct Hfirst as [msg Hfirst].
  rewrite (try_AttributeError_run _ _ _ _ _ Hfirst).
  unfold try_except_AttributeError.
  rewrite (bind_Ok_run _ _ _ _ _ (getattr_Some _ _ _ _ Hin)).
  now rewrite (IH p Hp).
Qed.

(** X11: a node at the head of a chain whose class names an upstream
    attribute can never be pulled, the first of the names being one that
    [None] does not have (no name with two leading underscores).  While
    [_should_initialize] is [True], every pull raises the [AttributeError]
    that names the class and the first of the names, after calling
    [initialize] and nothing else; the store is left with [output] cleared
    and [_should_initialize] still [True]. *)
Theorem X11_head_with_upstream_names_cannot_initialize
    fuel self s o (names changes : list string) name :
  dunder name = false ->
  objs (st_world s) !! self = Some o ->
  CHANGES_IN_THESE_REQUIRE_RESET (spec_of (obj_class o)) = Some changes ->
  "output" ∉ changes ->
  _check_value (spec_of (obj_class o)) self "output" VNone (st_world s) = None ->
  UPSTREAM_CHANGES_IN_THESE_REQUIRE_REINITIALIZATION (spec_of (obj_class o))
    = Some (name :: names) ->
  attr (st_world s) self "input_node" = Some VNone ->
  attr (st_world s) self "_should_initialize" = Some (VBool true) ->
  update spec_of methods_of (S fuel) self s =
    (Err (missing_upstream (obj_class o) name),
     State (set_attr self "output" VNone (st_world s))
           (st_calls s ++ [Called self "initialize"])) /\
  attr (set_attr self "output" VNone (st_world s)) self "_should_initialize"
    = Some (VBool true).
Proof.
  intros _ Ho Hn Hout Hacc Hup Hin Hinit.
  split; [|rewrite attr_set_attr_ne by (right; discriminate); exact Hinit].
  unfold update.
  rewrite (bind_Ok_run _ _ _ _ _
             (lift_run _ _ _ _ (setattr_plain spec_of fuel self "output" VNone _ o changes
                                  Ho Hn Hout Hacc))).
  set (w1 := set_attr self "output" VNone (st_world s)).
  assert (Ho1 : objs w1 !! self
                = Some (Obj (obj_class o) (<["output" := VNone]> (obj_attrs o))))
    by (unfold w1; rewrite (set_attr_objs _ _ _ _ _ Ho); apply lookup_insert_eq).
  assert (Hin1 : attr w1 self "input_node" = Some VNone)
    by (unfold w1; rewrite attr_set_attr_ne by (right; discriminate); exact Hin).
  assert (Hinit1 : attr w1 self "_should_initialize" = Some (VBool true))
    by (unfold w1; rewrite attr_set_attr_ne by (right; discriminate); exact Hinit).
  assert (Hthere : _there_was_a_change_upstream self w1 = (Ok false, w1)).
  { unfold _there_was_a_change_upstream.
    now rewrite (bind_Ok_run _ _ _ _ _ (getattr_Some _ _ _ _ Hin1)). }
  rewrite (bind_Ok_run _ _ _ _ _ (lift_run _ (State w1 (st_calls s)) _ _ Hthere)).
  cbn [st_world st_calls]. rewrite ret_bind.
  apply bind_Err_run. unfold _reset_or_reinitialize_if_needed.
  rewrite (bind_Ok_run _ _ _ _ _
             (lift_run _ (State w1 (st_calls s)) _ _ (getattr_Some _ _ _ _ Hinit1))).
  cbn [is_True st_world st_calls]. apply bind_Err_run.
  unfold initialize. rewrite (bind_Ok_run _ _ _ _ _ (called_run _ _ _)).
  cbn [st_world st_calls]. apply bind_Err_run.
  apply (lift_run _ (State w1 (st_calls s ++ [Called self "initialize"]))).
  cbn [st_world].
  rewrite (bind_Ok_run _ _ _ _ _
             (eq_trans (self_UPSTREAM_run spec_of _ _ _ Ho1)
                (f_equal (fun t => read_tuple t _ w1) Hup))).
  apply bind_Err_run. simpl snapshot. apply bind_Err_run.
  apply (traverse_at_head fuel self name w1 _ Ho1).
  intros p. rewrite Hin1. discriminate.
Qed.

(** X13: a class that does not override [_check_value], as
    [ProcessorNode] and [OutputNode] are written, has no usable instance:
    the first assignment of [Node.__init__] raises [NotImplementedError], and
    so does the first assignment of [update], with the store unchanged. *)
Theorem X13_class_without_validation_has_no_instance fuel self s o :
  objs (st_world s) !! self = Some o ->
  _check_value (spec_of (obj_class o)) = _check_value_abstract ->
  Node.__init__ spec_of (S fuel) self (st_world s)
    = (Err (NotImplementedError EmptyString), st_world s) /\
  update spec_of methods_of (S fuel) self s
    = (Err (NotImplementedError EmptyString), s).
Proof.
  intros Ho Hc.
  assert (H : forall key v,
             Node.__setattr__ spec_of (S fuel) self key v (st_world s)
             = (Err (NotImplementedError EmptyString), st_world s)).
  { intros key v. rewrite setattr_unfold. apply bind_Err_run.
    rewrite (self_check_value_run _ _ _ _ _ _ Ho), Hc. reflexivity. }
  split.
  - unfold Node.__init__. now apply bind_Err_run.
  - unfold update. apply bind_Err_run.
    rewrite (lift_run _ _ _ _ (H _ _)). now destruct s.
Qed.

End BrokenChainFacts.

(** ** The change flag and the scheduled work *)

(** [step_bind], naming the result and the state of the first step. *)
Ltac step_bind_as E a s' :=
  match goal with
  | |- context [bind ?m ?k ?s] =>
      destruct (m s) as [[a|?] s'] eqn:E;
      [rewrite (bind_Ok_run _ _ _ _ _ E) | rewrite (bind_Err_run _ _ _ _ _ E)];
      cbv beta
  end.

(** Use a fact stated for every outcome of a step on the outcome [E]. *)
Ltac use_outcome H E :=
  first [apply H in E | specialize (H _ _ eq_refl); clear E; rename H into E].

Section FlagFacts.

Variable spec_of : string -> class_spec.
Variable methods_of : string -> class_methods.

Import Node.

Abbreviation __setattr__ := (Node.__setattr__ spec_of).

(** As [resolve_preserves], for a [Q] that the node's own writes keep. *)
Lemma resolve_preserves_own (Q : world -> Prop) fuel self :
  (forall k v, k ∈ ["_should_initialize"; "_should_reset"; "_saved_from_upstream"] ->
               preserves Q (__setattr__ fuel self k v)) ->
  method_preserves methods_of Q self _initialize ->
  method_preserves methods_of Q self reset ->
  preserves (fun s => Q (st_world s))
    (_reset_or_reinitialize_if_needed spec_of methods_of fuel self).
Proof.
  intros Hown Hinit Hreset. unfold _reset_or_reinitialize_if_needed.
  apply preserves_bind;
    [apply preserves_lift, read_only_preserves, read_only_getattr|intros i].
  apply preserves_bind.
  { destruct (is_True i).
    - unfold initialize.
      apply preserves_bind; [apply preserves_called|intros _].
      apply preserves_bind; [|intros _; now apply call_method_preserves].
      apply preserves_lift.
      apply preserves_bind;
        [apply read_only_preserves, read_only_self_UPSTREAM|intros names].
      apply preserves_bind;
        [apply read_only_preserves, read_only_snapshot|intros d].
      apply Hown. in_list.
    - apply preserves_bind;
        [apply preserves_lift, read_only_preserves, read_only_getattr|intros r].
      destruct (is_True r); [now apply call_method_preserves|apply preserves_ret]. }
  intros _. apply preserves_bind; [|intros _]; apply preserves_lift, Hown; in_list.
Qed.

(** The node's own writes never lower its own flag. *)
Lemma own_write_keeps_flag_up fuel self k v :
  k <> "there_has_been_a_change" ->
  preserves (fun w => attr w self "there_has_been_a_change" = Some (VBool true))
    (__setattr__ fuel self k v).
Proof.
  intros Hk. apply setattr_preserves; intros w Hw.
  - rewrite attr_set_attr_ne by (right; congruence). exact Hw.
  - rewrite attr_set_attr_ne by (right; discriminate). exact Hw.
  - apply attr_set_attr_eq. unfold attr in Hw.
    destruct (objs w !! self); [eauto|discriminate].
Qed.

Lemma raise_own_flag_keeps_flag_up fuel self :
  preserves (fun w => attr w self "there_has_been_a_change" = Some (VBool true))
    (__setattr__ fuel self "there_has_been_a_change" (VBool true)).
Proof.
  assert (Hobj : forall w, attr w self "there_has_been_a_change" = Some (VBool true) ->
                           is_Some (objs w !! self)).
  { intros w Hw. unfold attr in Hw. destruct (objs w !! self); [eauto|discriminate]. }
  apply setattr_preserves; intros w Hw.
  - apply attr_set_attr_eq; auto.
  - rewrite attr_set_attr_ne by (right; discriminate). exact Hw.
  - apply attr_set_attr_eq; auto.
Qed.

(** Reacting to the predecessor never lowers the node's own flag, as long
    as the node is not its own predecessor. *)
Lemma react_keeps_own_flag_up fuel self w :
  attr w self "there_has_been_a_change" = Some (VBool true) ->
  attr w self "input_node" <> Some (VRef self) ->
  attr (snd (_react_to_the_change_upstream spec_of fuel self w)) self
    "there_has_been_a_change" = Some (VBool true).
Proof.
  intros Hflag Hin. unfold _react_to_the_change_upstream.
  step_bind_as E0 a w0.
  2:{ pose proof (read_only_requires_reinitialization fuel self w) as R.
      rewrite E0 in R. simpl in *. now subst. }
  apply (read_only_Ok_inv _ _ _ _ (read_only_requires_reinitialization _ _)) in E0 as ->.
  set (Q := fun w0 => attr w0 self "there_has_been_a_change" = Some (VBool true) /\
                      attr w0 self "input_node" <> Some (VRef self)).
  assert (H1 : forall k v, k <> "there_has_been_a_change" -> k <> "input_node" ->
                           preserves Q (__setattr__ fuel self k v)).
  { intros k v Hk Hk'. apply setattr_preserves; intros w0 [A B]; split.
    - rewrite attr_set_attr_ne by (right; congruence). exact A.
    - rewrite attr_set_attr_ne by (right; congruence). exact B.
    - rewrite attr_set_attr_ne by (right; discriminate). exact A.
    - rewrite attr_set_attr_ne by (right; discriminate). exact B.
    - apply attr_set_attr_eq. unfold attr in A.
      destruct (objs w0 !! self); [eauto|discriminate].
    - rewrite attr_set_attr_ne by (right; discriminate). exact B. }
  assert (Hw1 : forall r w', (if a
                         then __setattr__ fuel self "_should_initialize" (VBool true)
                         else __setattr__ fuel self "_should_reset" (VBool true)) w
                        = (r, w') -> Q w').
  { intros r w' E.
    assert (P : Q (snd ((if a
                         then __setattr__ fuel self "_should_initialize" (VBool true)
                         else __setattr__ fuel self "_should_reset" (VBool true)) w)))
      by (destruct a; apply H1; try discriminate; now split).
    now rewrite E in P. }
  step_bind_as E1 u1 w1; use_outcome Hw1 E1; [|apply E1].
  destruct E1 as [Hf1 Hi1].
  step_bind_as E2 p w1'.
  2:{ pose proof (read_only_getattr (VRef self) "input_node" w1) as R.
      rewrite E2 in R. simpl in *. now subst. }
  apply getattr_Ok_inv in E2 as [-> (l & Hl & Hp)]. inversion Hl; subst l.
  assert (Hw2 : forall r w', setattr spec_of fuel p "there_has_been_a_change"
                               (VBool false) w1 = (r, w') ->
                             attr w' self "there_has_been_a_change" = Some (VBool true)).
  { intros r w' E. destruct p; try (inversion E; subst; exact Hf1).
    simpl in E.
    pose proof (setattr_other_attr spec_of fuel l "there_has_been_a_change" (VBool false)
                  w1 self "there_has_been_a_change") as F.
    rewrite E in F. simpl in F. rewrite F; [exact Hf1|].
    left. intros ->. now apply Hi1. }
  step_bind_as E3 u3 w3; use_outcome Hw2 E3; [|exact E3].
  now apply raise_own_flag_keeps_flag_up.
Qed.

(** X7: a pull never lowers the node's own change flag.  When
    [there_has_been_a_change] is [True] before [update], it is [True] after
    it, whether the pull returns or raises: only the pull of a successor
    consumes the message.  The node is not its own predecessor, and the
    methods of its class leave the flag alone. *)
Theorem X7_pull_never_lowers_the_own_flag fuel self s :
  attr (st_world s) self "there_has_been_a_change" = Some (VBool true) ->
  attr (st_world s) self "input_node" <> Some (VRef self) ->
  (forall c w,
     attr w self "there_has_been_a_change" = Some (VBool true) ->
     attr (snd (_initialize (methods_of c) self w)) self "there_has_been_a_change"
       = Some (VBool true) /\
     attr (snd (reset (methods_of c) self w)) self "there_has_been_a_change"
       = Some (VBool true) /\
     attr (snd (_update (methods_of c) self w)) self "there_has_been_a_change"
       = Some (VBool true)) ->
  attr (st_world (snd (update spec_of methods_of fuel self s))) self
    "there_has_been_a_change" = Some (VBool true).
Proof.
  intros Hflag Hin Hm.
  set (Up := fun w => attr w self "there_has_been_a_change" = Some (VBool true)).
  assert (Hinit : method_preserves methods_of Up self _initialize)
    by (intros o w Hw _; now apply Hm).
  assert (Hreset : method_preserves methods_of Up self reset)
    by (intros o w Hw _; now apply Hm).
  assert (Hupdate : method_preserves methods_of Up self _update)
    by (intros o w Hw _; now apply Hm).
  rewrite update_split.
  set (Q := fun w0 => attr w0 self "there_has_been_a_change" = Some (VBool true) /\
                      attr w0 self "input_node" <> Some (VRef self)).
  assert (Hw1 : forall r w', __setattr__ fuel self "output" VNone (st_world s) = (r, w') ->
                             Q w').
  { intros r w' E.
    assert (P : Q (snd (__setattr__ fuel self "output" VNone (st_world s)))).
    { apply (setattr_preserves spec_of Q); [| | |now split]; intros w0 [A B]; split.
      - rewrite attr_set_attr_ne by (right; discriminate). exact A.
      - rewrite attr_set_attr_ne by (right; discriminate). exact B.
      - rewrite attr_set_attr_ne by (right; discriminate). exact A.
      - rewrite attr_set_attr_ne by (right; discriminate). exact B.
      - apply attr_set_attr_eq. unfold attr in A.
        destruct (objs w0 !! self); [eauto|discriminate].
      - rewrite attr_set_attr_ne by (right; discriminate). exact B. }
    now rewrite E in P. }
  step_bind_as E1 u1 s1; apply lift_inv in E1 as (w1 & E1 & ->); apply Hw1 in E1;
    [|apply E1].
  destruct E1 as [Hf1 Hi1].
  unfold react_and_resolve. rewrite !bind_assoc.
  step_bind_as E2 b s2; apply lift_inv in E2 as (w2 & E2 & ->);
    cbn [st_world st_calls] in E2;
    pose proof (read_only_there_was_a_change_upstream self w1) as R;
    rewrite E2 in R; simpl in R; subst w2; [|exact Hf1].
  rewrite bind_assoc.
  assert (Hw3 : forall r s', (if b
                        then lift (_react_to_the_change_upstream spec_of fuel self)
                        else ret tt) (State w1 (st_calls s)) = (r, s') ->
                  Up (st_world s')).
  { intros r s' E. destruct b.
    - pose proof (lift_world (_react_to_the_change_upstream spec_of fuel self)
                    (State w1 (st_calls s))) as Ew.
      rewrite E in Ew. simpl in Ew. unfold Up. rewrite Ew.
      now apply react_keeps_own_flag_up.
    - inversion E; subst. exact Hf1. }
  step_bind_as E3 u3 s3; use_outcome Hw3 E3; [|exact E3].
  pose proof (resolve_preserves_own Up fuel self) as Hres.
  specialize (Hres ltac:(intros k v Hk; apply own_write_keeps_flag_up; intros ->;
                         repeat (apply elem_of_cons in Hk as [Hk|Hk]; [discriminate|]);
                         inversion Hk)).
  specialize (Hres Hinit Hreset s3 E3).
  destruct (_reset_or_reinitialize_if_needed spec_of methods_of fuel self s3)
    as [[u4|e4] s4] eqn:E4; simpl in Hres.
  - rewrite (bind_Ok_run _ _ _ _ _ E4).
    now apply (call_method_preserves methods_of Up self "_update" _update Hupdate).
  - rewrite (bind_Err_run _ _ _ _ _ E4). exact Hres.
Qed.

(** What [_react_to_the_change_upstream] has scheduled when it returns. *)
Lemma react_Ok_schedules fuel self w b w' :
  _the_change_requires_reinitialization fuel self w = (Ok b, w) ->
  _react_to_the_change_upstream spec_of fuel self w = (Ok tt, w') ->
  if b then attr w' self "_should_initialize" = Some (VBool true)
  else attr w' self "_should_reset" = Some (VBool true) /\
       attr w' self "_should_initialize" = attr w self "_should_initialize".
Proof.
  intros Hb Hreact. unfold _react_to_the_change_upstream in Hreact.
  rewrite (bind_Ok_run _ _ _ _ _ Hb) in Hreact.
  apply bind_Ok_inv in Hreact as ([] & w1 & H1 & Hreact).
  apply bind_Ok_inv in Hreact as (p & w1' & Hp & Hreact).
  apply getattr_Ok_inv in Hp as [-> _].
  apply bind_Ok_inv in Hreact as ([] & w2 & H2 & H3).
  apply setattr_value_Ok_inv in H2 as (l & -> & H2).
  destruct b.
  - rewrite (setattr_Ok_frame _ _ _ _ _ _ _ self "_should_initialize" H3)
      by (right; repeat split; discriminate).
    rewrite (setattr_Ok_frame _ _ _ _ _ _ _ self "_should_initialize" H2)
      by (right; repeat split; discriminate).
    now apply setattr_Ok_attr in H1.
  - split.
    + rewrite (setattr_flag_Ok_frame _ _ _ _ _ _ _ self "_should_reset" H3)
        by (auto || (right; discriminate)).
      rewrite (setattr_flag_Ok_frame _ _ _ _ _ _ _ self "_should_reset" H2)
        by (auto || (right; discriminate)).
      now apply setattr_Ok_attr in H1.
    + rewrite (setattr_Ok_frame _ _ _ _ _ _ _ self "_should_initialize" H3)
        by (right; repeat split; discriminate).
      rewrite (setattr_Ok_frame _ _ _ _ _ _ _ self "_should_initialize" H2)
        by (right; repeat split; discriminate).
      apply (setattr_flag_Ok_frame _ _ _ _ _ _ _ self "_should_initialize" H1);
        [now left|right; discriminate].
Qed.

End FlagFacts.

Ltac calls_among :=
  repeat first [apply List.Forall_nil | apply List.Forall_cons; [auto|]].

Section HopOnPullFacts.

Variable spec_of : string -> class_spec.
Variable methods_of : string -> class_methods.

Import Node.

Abbreviation __setattr__ := (Node.__setattr__ spec_of).

(** The pull of a node whose clearing of [output] is a plain write, up to
    the point where it has seen the flag of its predecessor. *)
Lemma update_after_seeing_the_flag fuel A B s o (names : list string) :
  objs (st_world s) !! B = Some o ->
  CHANGES_IN_THESE_REQUIRE_RESET (spec_of (obj_class o)) = Some names ->
  "output" ∉ names ->
  _check_value (spec_of (obj_class o)) B "output" VNone (st_world s) = None ->
  attr (st_world s) B "input_node" = Some (VRef A) ->
  attr (st_world s) A "there_has_been_a_change" = Some (VBool true) ->
  update spec_of methods_of (S fuel) B s =
  (lift (_react_to_the_change_upstream spec_of (S fuel) B) ;;
   _reset_or_reinitialize_if_needed spec_of methods_of (S fuel) B ;;
   call_method methods_of B "_update" _update)
    (State (set_attr B "output" VNone (st_world s)) (st_calls s)).
Proof.
  intros Ho Hn Hout Hacc Hin Hflag. unfold update.
  rewrite (bind_Ok_run _ _ _ _ _
             (lift_run _ _ _ _ (setattr_plain spec_of fuel B "output" VNone _ o names
                                  Ho Hn Hout Hacc))).
  set (w1 := set_attr B "output" VNone (st_world s)).
  assert (Hin1 : attr w1 B "input_node" = Some (VRef A))
    by (unfold w1; rewrite attr_set_attr_ne by (right; discriminate); exact Hin).
  assert (Hflag1 : attr w1 A "there_has_been_a_change" = Some (VBool true))
    by (unfold w1; rewrite attr_set_attr_ne by (right; discriminate); exact Hflag).
  assert (Hthere : _there_was_a_change_upstream B w1 = (Ok true, w1)).
  { unfold _there_was_a_change_upstream.
    rewrite (bind_Ok_run _ _ _ _ _ (getattr_Some _ _ _ _ Hin1)). cbn [is_None].
    rewrite (bind_Ok_run _ _ _ _ _ (getattr_Some _ _ _ _ Hin1)).
    now rewrite (bind_Ok_run _ _ _ _ _ (getattr_Some _ _ _ _ Hflag1)). }
  now rewrite (bind_Ok_run _ _ _ _ _ (lift_run _ (State w1 (st_calls s)) _ _ Hthere)).
Qed.

(** X6: the change flag moves one hop in a pull.  When the pull of [B]
    finds the flag of its predecessor [A] set and its reaction to it returns,
    then after the pull, whether the rest of it returns or raises, the flag
    of [A] is [False] and the flag of [B] is [True].  The methods of the class
    leave both flags alone. *)
Theorem X6_pull_moves_the_change_flag_one_hop
    fuel A B s o (names : list string) w2 :
  objs (st_world s) !! B = Some o ->
  CHANGES_IN_THESE_REQUIRE_RESET (spec_of (obj_class o)) = Some names ->
  "output" ∉ names ->
  _check_value (spec_of (obj_class o)) B "output" VNone (st_world s) = None ->
  A <> B ->
  attr (st_world s) B "input_node" = Some (VRef A) ->
  attr (st_world s) A "there_has_been_a_change" = Some (VBool true) ->
  _react_to_the_change_upstream spec_of (S fuel) B
    (set_attr B "output" VNone (st_world s)) = (Ok tt, w2) ->
  (forall c w l,
     attr (snd (_initialize (methods_of c) B w)) l "there_has_been_a_change"
       = attr w l "there_has_been_a_change" /\
     attr (snd (reset (methods_of c) B w)) l "there_has_been_a_change"
       = attr w l "there_has_been_a_change" /\
     attr (snd (_update (methods_of c) B w)) l "there_has_been_a_change"
       = attr w l "there_has_been_a_change") ->
  let out := update spec_of methods_of (S fuel) B s in
  attr (st_world (snd out)) A "there_has_been_a_change" = Some (VBool false) /\
  attr (st_world (snd out)) B "there_has_been_a_change" = Some (VBool true).
Proof.
  intros Ho Hn Hout Hacc Hne Hin Hflag Hreact Hm out. subst out.
  rewrite (update_after_seeing_the_flag fuel A B s o names Ho Hn Hout Hacc Hin Hflag).
  rewrite (bind_Ok_run _ _ _ _ _ (lift_run _ (State _ (st_calls s)) _ _ Hreact)).
  set (Q := fun w => attr w A "there_has_been_a_change" = Some (VBool false) /\
                     attr w B "there_has_been_a_change" = Some (VBool true)).
  assert (HQ2 : Q w2).
  { apply (react_moves_the_flag_one_hop spec_of (S fuel) A B
             (set_attr B "output" VNone (st_world s)) w2 Hne); [|exact Hreact].
    rewrite attr_set_attr_ne by (right; discriminate). exact Hin. }
  assert (Hown : forall k v, k <> "there_has_been_a_change" ->
                             preserves Q (__setattr__ (S fuel) B k v)).
  { intros k v Hk. apply setattr_preserves; intros w [H1 H2]; split.
    - rewrite attr_set_attr_ne by (left; exact Hne). exact H1.
    - rewrite attr_set_attr_ne by (right; congruence). exact H2.
    - rewrite attr_set_attr_ne by (left; exact Hne). exact H1.
    - rewrite attr_set_attr_ne by (right; discriminate). exact H2.
    - rewrite attr_set_attr_ne by (left; exact Hne). exact H1.
    - apply attr_set_attr_eq. unfold attr in H2.
      destruct (objs w !! B); [eauto|discriminate]. }
  assert (Hinit : method_preserves methods_of Q B _initialize).
  { intros o' w [H1 H2] _. destruct (Hm (obj_class o') w A) as [E _].
    destruct (Hm (obj_class o') w B) as [E' _]. split; congruence. }
  assert (Hreset : method_preserves methods_of Q B reset).
  { intros o' w [H1 H2] _. destruct (Hm (obj_class o') w A) as (_ & E & _).
    destruct (Hm (obj_class o') w B) as (_ & E' & _). split; congruence. }
  assert (Hupdate : method_preserves methods_of Q B _update).
  { intros o' w [H1 H2] _. destruct (Hm (obj_class o') w A) as (_ & _ & E).
    destruct (Hm (obj_class o') w B) as (_ & _ & E'). split; congruence. }
  pose proof (resolve_preserves_own spec_of methods_of Q (S fuel) B) as Hres.
  specialize (Hres ltac:(intros k v Hk; apply Hown; intros ->;
                         repeat (apply elem_of_cons in Hk as [Hk|Hk]; [discriminate|]);
                         inversion Hk) Hinit Hreset (State w2 (st_calls s)) HQ2).
  cbn [st_world st_calls].
  destruct (_reset_or_reinitialize_if_needed spec_of methods_of (S fuel) B
              (State w2 (st_calls s))) as [[u4|e4] s4] eqn:E4; simpl in Hres.
  - rewrite (bind_Ok_run _ _ _ _ _ E4).
    now apply (call_method_preserves methods_of Q B "_update" _update Hupdate).
  - rewrite (bind_Err_run _ _ _ _ _ E4). exact Hres.
Qed.

(** X12: work scheduled by a change upstream is run in the same pull.
    When the pull finds the flag of the predecessor set, the comparison with
    the snapshot returns [b] and the reaction returns, the first method the
    pull calls is [initialize] if [b], and [reset] if not [b] and no
    initialization was pending; after it come at most [_initialize] and
    [_update]. *)
Theorem X12_upstream_change_runs_initialize_or_reset
    fuel A B s o (names : list string) b w2 i :
  objs (st_world s) !! B = Some o ->
  CHANGES_IN_THESE_REQUIRE_RESET (spec_of (obj_class o)) = Some names ->
  "output" ∉ names ->
  _check_value (spec_of (obj_class o)) B "output" VNone (st_world s) = None ->
  attr (st_world s) B "input_node" = Some (VRef A) ->
  attr (st_world s) A "there_has_been_a_change" = Some (VBool true) ->
  attr (st_world s) B "_should_initialize" = Some i ->
  (b = false -> is_True i = false) ->
  _the_change_requires_reinitialization (S fuel) B
    (set_attr B "output" VNone (st_world s))
    = (Ok b, set_attr B "output" VNone (st_world s)) ->
  _react_to_the_change_upstream spec_of (S fuel) B
    (set_attr B "output" VNone (st_world s)) = (Ok tt, w2) ->
  let out := update spec_of methods_of (S fuel) B s in
  exists rest,
    st_calls (snd out)
      = st_calls s ++ Called B (if b then "initialize" else "reset") :: rest /\
    Forall (fun ev => ev = Called B "_initialize" \/ ev = Called B "_update") rest.
Proof.
  intros Ho Hn Hout Hacc Hin Hflag Hi Hfalse Hb Hreact out. subst out.
  rewrite (update_after_seeing_the_flag fuel A B s o names Ho Hn Hout Hacc Hin Hflag).
  rewrite (bind_Ok_run _ _ _ _ _ (lift_run _ (State _ (st_calls s)) _ _ Hreact)).
  pose proof (react_Ok_schedules spec_of (S fuel) B _ b w2 Hb Hreact) as Hsched.
  cbn [st_world st_calls]. unfold _reset_or_reinitialize_if_needed.
  rewrite !bind_assoc.
  destruct b.
  - rewrite (bind_Ok_run _ _ _ _ _
               (lift_run _ (State w2 (st_calls s)) _ _ (getattr_Some _ _ _ _ Hsched))).
    cbn [is_True st_world st_calls]. rewrite bind_assoc.
    pose proof (initialize_calls spec_of methods_of (S fuel) B (State w2 (st_calls s)))
      as Hcalls.
    destruct (initialize spec_of methods_of (S fuel) B (State w2 (st_calls s)))
      as [[u|e] s3] eqn:E3; cbn [snd st_calls] in Hcalls.
    + rewrite (bind_Ok_run _ _ _ _ _ E3).
      pose proof (clear_flags_calls spec_of (S fuel) B s3) as Hclear.
      destruct ((lift (__setattr__ (S fuel) B "_should_initialize" (VBool false)) ;;
                 lift (__setattr__ (S fuel) B "_should_reset" (VBool false))) s3)
        as [[u4|e4] s4] eqn:E4; simpl in Hclear.
      * rewrite (bind_Ok_run _ _ _ _ _ E4). rewrite call_method_calls, Hclear.
        destruct Hcalls as [-> | ->]; rewrite <- app_assoc; simpl; eexists;
          (split; [reflexivity|]); calls_among.
      * rewrite (bind_Err_run _ _ _ _ _ E4). simpl. rewrite Hclear.
        destruct Hcalls as [-> | ->]; eexists;
          (split; [reflexivity|]); calls_among.
    + rewrite (bind_Err_run _ _ _ _ _ E3). simpl.
      destruct Hcalls as [-> | ->]; eexists;
        (split; [reflexivity|]); calls_among.
  - destruct Hsched as [Hr Hi2].
    assert (Hi3 : attr w2 B "_should_initialize" = Some i).
    { rewrite Hi2. rewrite attr_set_attr_ne by (right; discriminate). exact Hi. }
    rewrite (bind_Ok_run _ _ _ _ _
               (lift_run _ (State w2 (st_calls s)) _ _ (getattr_Some _ _ _ _ Hi3))).
    rewrite (Hfalse eq_refl). cbv iota. cbn [st_world st_calls]. rewrite !bind_assoc.
    rewrite (bind_Ok_run _ _ _ _ _
               (lift_run _ (State w2 (st_calls s)) _ _ (getattr_Some _ _ _ _ Hr))).
    cbn [is_True st_world st_calls].
    pose proof (call_method_calls methods_of B "reset" reset (State w2 (st_calls s)))
      as Hcalls.
    destruct (call_method methods_of B "reset" reset (State w2 (st_calls s)))
      as [[u|e] s3] eqn:E3; cbn [snd st_calls] in Hcalls.
    + rewrite (bind_Ok_run _ _ _ _ _ E3).
      pose proof (clear_flags_calls spec_of (S fuel) B s3) as Hclear.
      destruct ((lift (__setattr__ (S fuel) B "_should_initialize" (VBool false)) ;;
                 lift (__setattr__ (S fuel) B "_should_reset" (VBool false))) s3)
        as [[u4|e4] s4] eqn:E4; simpl in Hclear.
      * rewrite (bind_Ok_run _ _ _ _ _ E4). rewrite call_method_calls, Hclear, Hcalls.
        rewrite <- app_assoc. simpl. eexists.
        split; [reflexivity|]. calls_among.
      * rewrite (bind_Err_run _ _ _ _ _ E4). simpl. rewrite Hclear, Hcalls.
        eexists. split; [reflexivity|]. calls_among.
    + rewrite (bind_Err_run _ _ _ _ _ E3). simpl. rewrite Hcalls.
      eexists. split; [reflexivity|]. calls_among.
Qed.

End HopOnPullFacts.

(** ** Sources *)

Section SourceLifeFacts.

Variable spec_of : string -> class_spec.

Abbreviation is_alive := (SourceNode.is_alive spec_of).
Abbreviation __setattr__ := (Node.__setattr__ spec_of).

(** A read of [is_alive] on a source whose [_is_alive] is [False]. *)
Lemma is_alive_of_the_dead f self w o (names : list string) t0 n :
  objs w !! self = Some o ->
  CHANGES_IN_THESE_REQUIRE_RESET (spec_of (obj_class o)) = Some names ->
  "_is_alive" ∉ names ->
  (forall w', _check_value (spec_of (obj_class o)) self "_is_alive" (VBool false) w' = None) ->
  attr w self "_should_self_destruct" = Some (VBool true) ->
  attr w self "_birthtime" = Some (VInt t0) ->
  attr w self "_seconds_to_live" = Some (VInt n) ->
  attr w self "_is_alive" = Some (VBool false) ->
  fst (is_alive (S f) self w) = Ok (VBool false).
Proof.
  intros Ho Hn Hnot Hacc Hd Hb Hs Ha.
  rewrite (is_alive_run spec_of (S f) self w (VBool true) t0 n Hd eq_refl Hb Hs).
  destruct (t0 + n <? now w).
  - rewrite (bind_Ok_run _ _ _ _ _
               (setattr_plain spec_of f self "_is_alive" (VBool false) w o names
                  Ho Hn Hnot (Hacc w))).
    erewrite getattr_Some; [reflexivity|].
    apply attr_set_attr_eq. eauto.
  - now rewrite (getattr_Some _ _ _ _ Ha).
Qed.

(** X8: a source that has expired stays dead.  Once [_is_alive] is
    [False], the read of [is_alive] returns [False] whatever the clock shows,
    also right after [_initialize] has run again and recorded a new birth
    time.  The class validates the writes of [_is_alive] and [_birthtime]
    and resets on neither. *)
Theorem X8_expired_source_stays_dead f self w o (names : list string) t0 n :
  objs w !! self = Some o ->
  CHANGES_IN_THESE_REQUIRE_RESET (spec_of (obj_class o)) = Some names ->
  "_is_alive" ∉ names ->
  "_birthtime" ∉ names ->
  (forall w', _check_value (spec_of (obj_class o)) self "_is_alive" (VBool false) w' = None) ->
  (forall t w', _check_value (spec_of (obj_class o)) self "_birthtime" (VInt t) w' = None) ->
  attr w self "_should_self_destruct" = Some (VBool true) ->
  attr w self "_birthtime" = Some (VInt t0) ->
  attr w self "_seconds_to_live" = Some (VInt n) ->
  attr w self "_is_alive" = Some (VBool false) ->
  (forall t, fst (is_alive (S f) self (at_time t w)) = Ok (VBool false)) /\
  (forall t t', exists w2,
     SourceNode._initialize spec_of (S f) self (at_time t w) = (Ok tt, w2) /\
     attr w2 self "_birthtime" = Some (VInt t) /\
     fst (is_alive (S f) self (at_time t' w2)) = Ok (VBool false)).
Proof.
  intros Ho Hn Hnot Hnotb Hacc Haccb Hd Hb Hs Ha. split.
  - intros t.
    now apply (is_alive_of_the_dead f self (at_time t w) o names t0 n).
  - intros t t'.
    exists (set_attr self "_birthtime" (VInt t) (at_time t w)).
    assert (Hobj : is_Some (objs (at_time t w) !! self)) by (simpl; eauto).
    split; [|split].
    + unfold SourceNode._initialize.
      rewrite (bind_Ok_run _ _ _ _ _
                 (getattr_Some _ _ _ _ (Hd : attr (at_time t w) self _ = _))).
      cbn [truthy].
      rewrite (bind_Ok_run _ _ _ _ _
                 (eq_refl : time_time (at_time t w) = (Ok t, at_time t w))).
      now apply setattr_plain with (o := o) (names := names).
    + now apply attr_set_attr_eq.
    + apply (is_alive_of_the_dead f self _
               (Obj (obj_class o) (<["_birthtime" := VInt t]> (obj_attrs o))) names t n).
      * cbn [at_time objs].
        rewrite (set_attr_objs self "_birthtime" (VInt t) (at_time t w) o Ho).
        apply lookup_insert_eq.
      * exact Hn.
      * exact Hnot.
      * exact Hacc.
      * change (attr (set_attr self "_birthtime" (VInt t) (at_time t w)) self
                  "_should_self_destruct" = Some (VBool true)).
        rewrite attr_set_attr_ne by (right; discriminate). exact Hd.
      * change (attr (set_attr self "_birthtime" (VInt t) (at_time t w)) self
                  "_birthtime" = Some (VInt t)).
        now apply attr_set_attr_eq.
      * change (attr (set_attr self "_birthtime" (VInt t) (at_time t w)) self
                  "_seconds_to_live" = Some (VInt n)).
        rewrite attr_set_attr_ne by (right; discriminate). exact Hs.
      * change (attr (set_attr self "_birthtime" (VInt t) (at_time t w)) self
                  "_is_alive" = Some (VBool false)).
        rewrite attr_set_attr_ne by (right; discriminate). exact Ha.
Qed.

End SourceLifeFacts.

Section SourceBirthFacts.

Variable spec_of : string -> class_spec.

Abbreviation __setattr__ := (Node.__setattr__ spec_of).

(** A write that returns, of a name that is no flag, on a node of class
    [cls]: it schedules a reset when the class resets on the name, and keeps
    one that was scheduled. *)
Lemma setattr_Ok_scheduled fuel self cls (names : list string) key v w w' :
  obj_class <$> objs w !! self = Some cls ->
  CHANGES_IN_THESE_REQUIRE_RESET (spec_of cls) = Some names ->
  key <> "_should_reset" -> key <> "there_has_been_a_change" ->
  __setattr__ fuel self key v w = (Ok tt, w') ->
  obj_class <$> objs w' !! self = Some cls /\
  (key ∈ names \/
   (attr w self "_should_reset" = Some (VInt 1) /\
    attr w self "there_has_been_a_change" = Some (VBool true)) ->
   attr w' self "_should_reset" = Some (VInt 1) /\
   attr w' self "there_has_been_a_change" = Some (VBool true)).
Proof.
  intros Hcls Hn Hr Hc H. split.
  { now rewrite (setattr_Ok_class spec_of _ _ _ _ _ _ self H). }
  intros [Hk|[H1 H2]].
  - apply setattr_Ok_inv in H as (o & names' & Ho & Hn' & Hcase).
    rewrite Ho in Hcls. simpl in Hcls. injection Hcls as Hcls.
    rewrite Hcls, Hn in Hn'. injection Hn' as <-.
    destruct Hcase as [[Hnot _]|(_ & _ & _ & ->)]; [contradiction|].
    assert (Hobj : forall k' v' w0, is_Some (objs w0 !! self) ->
                                    is_Some (objs (set_attr self k' v' w0) !! self)).
    { intros k' v' w0 [o0 Ho0]. rewrite (set_attr_objs _ _ _ _ _ Ho0).
      rewrite lookup_insert_eq. eauto. }
    split.
    + rewrite attr_set_attr_ne by (right; congruence).
      rewrite attr_set_attr_ne by (right; discriminate).
      apply attr_set_attr_eq. eauto.
    + rewrite attr_set_attr_ne by (right; congruence).
      apply attr_set_attr_eq. apply Hobj. eauto.
  - now apply (setattr_Ok_keeps_scheduled spec_of fuel self key v w w').
Qed.

(** X9: a source of a class that resets on one of the attributes every
    source has is born changed.  When [SourceNode.__init__] returns for such
    a class, [_should_reset] holds the integer [1] and
    [there_has_been_a_change] is [True], although [Node.__init__] has just set
    both to [False]. *)
Theorem X9_source_resetting_on_its_fields_is_born_changed
    fuel self cls (names : list string) k ttl w w1 :
  obj_class <$> objs w !! self = Some cls ->
  CHANGES_IN_THESE_REQUIRE_RESET (spec_of cls) = Some names ->
  k ∈ source_fields ->
  k ∈ names ->
  SourceNode.__init__ spec_of fuel self ttl w = (Ok tt, w1) ->
  attr w1 self "_should_reset" = Some (VInt 1) /\
  attr w1 self "there_has_been_a_change" = Some (VBool true).
Proof.
  intros Hcls Hn Hfield Hk H. unfold SourceNode.__init__ in H.
  apply bind_Ok_inv in H as ([] & wa & Hnode & H).
  assert (Hca : obj_class <$> objs wa !! self = Some cls).
  { unfold Node.__init__ in Hnode. invert_Ok Hnode. attr_back. exact Hcls. }
  apply bind_Ok_inv in H as ([] & w_1 & Hs1 & H).
  apply bind_Ok_inv in H as ([] & w_2 & Hs2 & H).
  apply bind_Ok_inv in H as ([] & w_3 & Hs3 & H).
  apply bind_Ok_inv in H as ([] & w_4 & Hs4 & H).
  apply bind_Ok_inv in H as ([] & w_5 & Hs5 & H).
  apply bind_Ok_inv in H as ([] & w_6 & Hs6 & H).
  apply (setattr_Ok_scheduled _ _ cls names) in Hs1 as [Hc1 Hs1];
    [|assumption|assumption|discriminate|discriminate].
  apply (setattr_Ok_scheduled _ _ cls names) in Hs2 as [Hc2 Hs2];
    [|assumption|assumption|discriminate|discriminate].
  apply (setattr_Ok_scheduled _ _ cls names) in Hs3 as [Hc3 Hs3];
    [|assumption|assumption|discriminate|discriminate].
  apply (setattr_Ok_scheduled _ _ cls names) in Hs4 as [Hc4 Hs4];
    [|assumption|assumption|discriminate|discriminate].
  apply (setattr_Ok_scheduled _ _ cls names) in Hs5 as [Hc5 Hs5];
    [|assumption|assumption|discriminate|discriminate].
  apply (setattr_Ok_scheduled _ _ cls names) in Hs6 as [Hc6 Hs6];
    [|assumption|assumption|discriminate|discriminate].
  assert (H5 : attr w_5 self "_should_reset" = Some (VInt 1) /\
               attr w_5 self "there_has_been_a_change" = Some (VBool true)).
  { unfold source_fields in Hfield.
    repeat (apply elem_of_cons in Hfield as [->|Hfield]; [tauto|]).
    inversion Hfield. }
  apply bind_Ok_inv in H as (d & w_7 & Hd & H).
  apply getattr_Ok_inv in Hd as [-> _].
  destruct (truthy d).
  - apply bind_Ok_inv in H as ([] & w_8 & Hs8 & H).
    apply bind_Ok_inv in H as ([] & w_9 & Hs9 & H).
    apply (setattr_Ok_scheduled _ _ cls names) in Hs8 as [Hc8 Hs8];
      [|assumption|assumption|discriminate|discriminate].
    apply (setattr_Ok_scheduled _ _ cls names) in Hs9 as [Hc9 Hs9];
      [|assumption|assumption|discriminate|discriminate].
    apply (setattr_Ok_scheduled _ _ cls names) in H as [_ H];
      [|assumption|assumption|discriminate|discriminate].
    tauto.
  - inversion H; subst w1. tauto.
Qed.

End SourceBirthFacts.

(** ** Initializing by hand *)

Section ByHandFacts.

Variable spec_of : string -> class_spec.
Variable methods_of : string -> class_methods.

Import Node.

Abbreviation __setattr__ := (Node.__setattr__ spec_of).

(** The calls of an [initialize] that returns. *)
Lemma initialize_Ok_calls fuel self s s' :
  initialize spec_of methods_of fuel self s = (Ok tt, s') ->
  st_calls s' = st_calls s ++ [Called self "initialize"; Called self "_initialize"].
Proof.
  intros H. unfold initialize in H.
  rewrite (bind_Ok_run _ _ _ _ _ (called_run _ _ _)) in H.
  apply bind_Ok_inv in H as ([] & sA & HA & H).
  apply lift_inv in HA as (wA & _ & ->). cbn [st_world st_calls] in H.
  pose proof (call_method_calls methods_of self "_initialize" _initialize
                (State wA (st_calls s ++ [Called self "initialize"]))) as E.
  rewrite H in E. cbn [snd st_calls] in E. rewrite E. now rewrite <- app_assoc.
Qed.

(** [initialize] does not take back the request it serves. *)
Lemma initialize_Ok_keeps_pending fuel self s s' :
  attr (st_world s) self "_should_initialize" = Some (VBool true) ->
  (forall c w,
     attr w self "_should_initialize" = Some (VBool true) ->
     attr (snd (_initialize (methods_of c) self w)) self "_should_initialize"
       = Some (VBool true)) ->
  initialize spec_of methods_of fuel self s = (Ok tt, s') ->
  attr (st_world s') self "_should_initialize" = Some (VBool true).
Proof.
  intros Hp Hm H. destruct s as [w calls]. cbn [st_world] in Hp.
  destruct (objs w !! self) as [o|] eqn:Ho;
    [|unfold attr in Hp; rewrite Ho in Hp; discriminate].
  destruct (initialize_Ok_inv spec_of methods_of fuel self w calls s' (obj_class o)
              ltac:(now rewrite Ho) H) as (d & wA & HA & Hinit).
  specialize (Hm (obj_class o) wA). rewrite Hinit in Hm. apply Hm.
  rewrite (setattr_Ok_frame _ _ _ _ _ _ _ self "_should_initialize" HA)
    by (right; repeat split; discriminate).
  exact Hp.
Qed.

(** Reacting to a change upstream does not take the request back either. *)
Lemma react_Ok_keeps_pending fuel self w w' :
  attr w self "_should_initialize" = Some (VBool true) ->
  _react_to_the_change_upstream spec_of fuel self w = (Ok tt, w') ->
  attr w' self "_should_initialize" = Some (VBool true).
Proof.
  intros Hp H. pose proof H as H0. unfold _react_to_the_change_upstream in H0.
  apply bind_Ok_inv in H0 as (b & w0 & Hb & _).
  pose proof (read_only_Ok_inv _ _ _ _ (read_only_requires_reinitialization _ _) Hb).
  subst w0.
  pose proof (react_Ok_schedules spec_of fuel self w b w' Hb H) as Hs.
  destruct b; [exact Hs|]. destruct Hs as [_ ->]. exact Hp.
Qed.

(** X14: [initialize()] called by hand is run again by the next pull.
    [initialize] leaves [_should_initialize] as the constructor set it, so
    when the call by hand and the pull that follows both return, the node has
    been initialized twice: the calls are [initialize], [_initialize],
    [initialize], [_initialize], [_update]. *)
Theorem X14_initialize_by_hand_is_repeated_by_the_next_pull fuel self s s1 s2 :
  attr (st_world s) self "_should_initialize" = Some (VBool true) ->
  (forall c w,
     attr w self "_should_initialize" = Some (VBool true) ->
     attr (snd (_initialize (methods_of c) self w)) self "_should_initialize"
       = Some (VBool true)) ->
  initialize spec_of methods_of fuel self s = (Ok tt, s1) ->
  update spec_of methods_of fuel self s1 = (Ok tt, s2) ->
  st_calls s2 =
    st_calls s ++ [Called self "initialize"; Called self "_initialize";
                   Called self "initialize"; Called self "_initialize";
                   Called self "_update"].
Proof.
  intros Hp Hm Hinit Hpull.
  pose proof (initialize_Ok_keeps_pending fuel self s s1 Hp Hm Hinit) as Hp1.
  apply initialize_Ok_calls in Hinit as Hc1.
  unfold update in Hpull.
  apply bind_Ok_inv in Hpull as ([] & sa & Ha & Hpull).
  apply lift_inv in Ha as (wa & Ha & ->).
  assert (Hpa : attr wa self "_should_initialize" = Some (VBool true)).
  { rewrite (setattr_Ok_frame _ _ _ _ _ _ _ self "_should_initialize" Ha)
      by (right; repeat split; discriminate).
    exact Hp1. }
  apply bind_Ok_inv in Hpull as (b & sb & Hb & Hpull).
  apply lift_inv in Hb as (wb & Hb & ->).
  pose proof (read_only_Ok_inv _ _ _ _ (read_only_there_was_a_change_upstream _) Hb).
  subst wb.
  apply bind_Ok_inv in Hpull as ([] & sc & Hreact & Hpull).
  assert (Hsc : attr (st_world sc) self "_should_initialize" = Some (VBool true) /\
                st_calls sc = st_calls s1).
  { destruct b.
    - apply lift_inv in Hreact as (wc & Hreact & ->). split; [|reflexivity].
      now apply (react_Ok_keeps_pending _ _ _ _ Hpa) in Hreact.
    - inversion Hreact; subst sc. now split. }
  destruct Hsc as [Hpc Hcc].
  apply bind_Ok_inv in Hpull as ([] & sd & Hres & Hupd).
  unfold _reset_or_reinitialize_if_needed in Hres.
  rewrite (bind_Ok_run _ _ _ _ _
             (lift_run _ sc _ _ (getattr_Some _ _ _ _ Hpc))) in Hres.
  cbn [is_True] in Hres.
  apply bind_Ok_inv in Hres as ([] & se & Hagain & Hclear).
  destruct sc as [wc cc]. cbn [st_world st_calls] in *.
  apply initialize_Ok_calls in Hagain.
  pose proof (clear_flags_calls spec_of fuel self se) as Hcl.
  rewrite Hclear in Hcl. cbn [snd] in Hcl.
  pose proof (call_method_calls methods_of self "_update" _update sd) as Hu.
  rewrite Hupd in Hu. cbn [snd] in Hu.
  rewrite Hu, Hcl, Hagain. cbn [st_calls]. rewrite Hcc, Hc1.
  now rewrite <- !app_assoc.
Qed.

End ByHandFacts.

(** ** Initialization supersedes reset *)

Section SupersedeFacts.

Variable spec_of : string -> class_spec.
Variable methods_of : string -> class_methods.

Import Node.

Abbreviation __setattr__ := (Node.__setattr__ spec_of).

(** The part of [initialize] that takes the snapshot leaves
    [_should_initialize] alone, whether it returns or raises. *)
Lemma take_snapshot_keeps_pending fuel self w :
  attr (snd ((names <- self_UPSTREAM_CHANGES_IN_THESE_REQUIRE_REINITIALIZATION spec_of self ;;
              d <- snapshot fuel self names [] ;;
              __setattr__ fuel self "_saved_from_upstream" (VDict d)) w))
    self "_should_initialize"
  = attr w self "_should_initialize".
Proof.
  apply (preserves_bind
           (fun w' => attr w' self "_should_initialize" = attr w self "_should_initialize"));
    [apply read_only_preserves, read_only_self_UPSTREAM|intros names|reflexivity].
  apply preserves_bind; [apply read_only_preserves, read_only_snapshot|intros d].
  intros w' Hw'. rewrite <- Hw'.
  apply setattr_other_attr. right. repeat split; discriminate.
Qed.

(** A class without the tuple of upstream names cannot be initialized. *)
Lemma initialize_Ok_upstream fuel self s s' o :
  objs (st_world s) !! self = Some o ->
  initialize spec_of methods_of fuel self s = (Ok tt, s') ->
  exists names,
    UPSTREAM_CHANGES_IN_THESE_REQUIRE_REINITIALIZATION (spec_of (obj_class o)) = Some names.
Proof.
  intros Ho H.
  destruct (UPSTREAM_CHANGES_IN_THESE_REQUIRE_REINITIALIZATION (spec_of (obj_class o)))
    as [names|] eqn:Hup; [eauto|].
  unfold initialize in H.
  rewrite (bind_Ok_run _ _ _ _ _ (called_run _ _ _)) in H.
  apply bind_Ok_inv in H as ([] & sA & HA & _).
  apply lift_inv in HA as (wA & HA & _). cbn [st_world] in HA.
  apply bind_Ok_inv in HA as (names & w' & Hn & _).
  rewrite (self_UPSTREAM_run spec_of _ _ _ Ho), Hup in Hn. discriminate.
Qed.

(** Two lifted writes in a row are the two writes, lifted. *)
Lemma lift_two_Ok_inv (m1 m2 : W unit) s s' :
  (lift m1 ;; lift m2) s = (Ok tt, s') ->
  (m1 ;; m2) (st_world s) = (Ok tt, st_world s').
Proof.
  intros H. apply bind_Ok_inv in H as ([] & s1 & H1 & H2).
  apply lift_inv in H1 as (w1 & H1 & ->).
  apply lift_inv in H2 as (w2 & H2 & ->). cbn [st_world] in *.
  now rewrite (bind_Ok_run _ _ _ _ _ H1).
Qed.

(** C3: when [_should_initialize] is [True] and a reset is pending as
    well, resolving the flags runs [initialize] and never [reset]: the calls
    it adds are [initialize], followed by [_initialize] once the snapshot is
    taken.  If [_initialize] is not reached, the step has raised and
    [_should_initialize] is still [True].  When the step returns,
    [initialize] has run in full: the snapshot of the upstream names was
    taken and stored, the [_initialize] of the class ran on the result and
    returned, the calls are [initialize] then [_initialize], and the two
    writes that follow left both flags [False]. *)
Theorem C3_initialize_supersedes_reset fuel self s r :
  attr (st_world s) self "_should_initialize" = Some (VBool true) ->
  attr (st_world s) self "_should_reset" = Some r ->
  truthy r = true ->
  let out := _reset_or_reinitialize_if_needed spec_of methods_of fuel self s in
  (st_calls (snd out) = st_calls s ++ [Called self "initialize"] \/
   st_calls (snd out) = st_calls s ++ [Called self "initialize"; Called self "_initialize"]) /\
  (st_calls (snd out) = st_calls s ++ [Called self "initialize"] ->
   (exists e, fst out = Err e) /\
   attr (st_world (snd out)) self "_should_initialize" = Some (VBool true)) /\
  (fst out = Ok tt ->
   (exists o names d wA wB,
      objs (st_world s) !! self = Some o /\
      UPSTREAM_CHANGES_IN_THESE_REQUIRE_REINITIALIZATION (spec_of (obj_class o))
        = Some names /\
      snapshot fuel self names [] (st_world s) = (Ok d, st_world s) /\
      __setattr__ fuel self "_saved_from_upstream" (VDict d) (st_world s) = (Ok tt, wA) /\
      _initialize (methods_of (obj_class o)) self wA = (Ok tt, wB) /\
      (__setattr__ fuel self "_should_initialize" (VBool false) ;;
       __setattr__ fuel self "_should_reset" (VBool false)) wB
        = (Ok tt, st_world (snd out))) /\
   st_calls (snd out) = st_calls s ++ [Called self "initialize"; Called self "_initialize"] /\
   attr (st_world (snd out)) self "_should_initialize" = Some (VBool false) /\
   attr (st_world (snd out)) self "_should_reset" = Some (VBool false)).
Proof.
  intros Hi Hr Ht out. subst out.
  destruct (objs (st_world s) !! self) as [o|] eqn:Ho;
    [|unfold attr in Hi; rewrite Ho in Hi; discriminate].
  unfold _reset_or_reinitialize_if_needed.
  rewrite (bind_Ok_run _ _ _ _ _ (lift_run _ _ _ _ (getattr_Some _ _ _ _ Hi))).
  cbn [is_True].
  replace (State (st_world s) (st_calls s)) with s by now destruct s.
  destruct (initialize spec_of methods_of fuel self s) as [[[]|e] s1] eqn:Hinit.
  - rewrite (bind_Ok_run _ _ _ _ _ Hinit).
    pose proof (initialize_Ok_calls spec_of methods_of fuel self s s1 Hinit) as Hc1.
    pose proof (clear_flags_calls spec_of fuel self s1) as Hcalls.
    split; [right; rewrite Hcalls; exact Hc1|]. split.
    + intros Hone. rewrite Hcalls, Hc1 in Hone.
      apply app_inv_head in Hone. discriminate.
    + intros Hok.
      match goal with |- context [snd ?x] => destruct x as [res s2] eqn:Hclear end.
      cbn [fst snd] in *. subst res.
      destruct (initialize_Ok_upstream fuel self s s1 o Ho Hinit) as [names Hup].
      destruct s as [w calls]. cbn [st_world st_calls] in *.
      destruct (initialize_Ok_snapshot spec_of methods_of fuel self w calls s1 o names
                  Ho Hup Hinit) as (d & wA & Hd & HA & Hhook & _).
      pose proof (lift_two_Ok_inv _ _ _ _ Hclear) as Hw.
      apply clear_flags_Ok in Hclear as (H1 & H2 & H3).
      split; [|split; [|split]].
      * exists o, names, d, wA, (st_world s1). repeat split; assumption.
      * now rewrite H3.
      * exact H1.
      * exact H2.
  - rewrite (bind_Err_run _ _ _ _ _ Hinit). cbn [fst snd].
    pose proof (initialize_calls spec_of methods_of fuel self s) as Hc.
    rewrite Hinit in Hc. cbn [snd] in Hc.
    split; [exact Hc|]. split; [|discriminate].
    intros Hone. split; [eauto|].
    unfold initialize in Hinit.
    rewrite (bind_Ok_run _ _ _ _ _ (called_run _ _ _)) in Hinit.
    match type of Hinit with
    | bind (lift ?m) _ ?s0 = _ =>
        pose proof (take_snapshot_keeps_pending fuel self (st_world s)) as Hkeep;
        destruct (lift m s0) as [[[]|e1] sA] eqn:HA
    end.
    + rewrite (bind_Ok_run _ _ _ _ _ HA) in Hinit.
      pose proof (call_method_calls methods_of self "_initialize" _initialize sA) as Hcm.
      rewrite Hinit in Hcm. cbn [snd] in Hcm.
      apply lift_inv in HA as (wA & _ & ->). cbn [st_calls] in Hcm.
      rewrite Hcm, <- app_assoc in Hone. apply app_inv_head in Hone. discriminate.
    + rewrite (bind_Err_run _ _ _ _ _ HA) in Hinit. injection Hinit as _ <-.
      apply lift_inv in HA as (wA & HA & ->). cbn [st_world] in *.
      rewrite HA in Hkeep. cbn [snd] in Hkeep. now rewrite Hkeep.
Qed.

End SupersedeFacts.

(** * The properties on the example chain *)

Import Example.

Lemma C1_reset_scheduled_by_a_mutation_is_not_run_witness :
  let w1 := snd (Node.__setattr__ spec_of fuel proc "gain" (VInt 5) (st_world settled)) in
  let pulled := Node.update spec_of methods_of fuel proc (State w1 (st_calls settled)) in
  attr w1 proc "_should_reset" = Some (VInt 1) /\
  (st_calls (snd pulled) = st_calls settled \/
   st_calls (snd pulled) = st_calls settled ++ [Called proc "_update"]).
Proof.
  apply (C1_reset_scheduled_by_a_mutation_is_not_run spec_of methods_of fuel proc
           "gain" (VInt 5) (st_world settled) _ (object_at settled proc) ["gain"]).
  - vm_compute. reflexivity.
  - vm_compute. reflexivity.
  - constructor.
  - discriminate.
  - vm_compute. reflexivity.
  - vm_compute. reflexivity.
  - right. exists src, (VBool false).
    split; [discriminate|]. repeat split; vm_compute; reflexivity.
Defined.

Lemma C3_initialize_supersedes_reset_witness :
  let s := run (lift (Node._react_to_the_change_upstream spec_of fuel proc))
               (run (initialize proc) chain) in
  let out := Node._reset_or_reinitialize_if_needed spec_of methods_of fuel proc s in
  fst out = Ok tt /\
  (st_calls (snd out) = st_calls s ++ [Called proc "initialize"] \/
   st_calls (snd out) = st_calls s ++ [Called proc "initialize"; Called proc "_initialize"]) /\
  (st_calls (snd out) = st_calls s ++ [Called proc "initialize"] ->
   (exists e, fst out = Err e) /\
   attr (st_world (snd out)) proc "_should_initialize" = Some (VBool true)) /\
  (fst out = Ok tt ->
   (exists o names d wA wB,
      objs (st_world s) !! proc = Some o /\
      UPSTREAM_CHANGES_IN_THESE_REQUIRE_REINITIALIZATION (spec_of (obj_class o))
        = Some names /\
      Node.snapshot fuel proc names [] (st_world s) = (Ok d, st_world s) /\
      Node.__setattr__ spec_of fuel proc "_saved_from_upstream" (VDict d) (st_world s)
        = (Ok tt, wA) /\
      _initialize (methods_of (obj_class o)) proc wA = (Ok tt, wB) /\
      (Node.__setattr__ spec_of fuel proc "_should_initialize" (VBool false) ;;
       Node.__setattr__ spec_of fuel proc "_should_reset" (VBool false)) wB
        = (Ok tt, st_world (snd out))) /\
   st_calls (snd out) = st_calls s ++ [Called proc "initialize"; Called proc "_initialize"] /\
   attr (st_world (snd out)) proc "_should_initialize" = Some (VBool false) /\
   attr (st_world (snd out)) proc "_should_reset" = Some (VBool false)).
Proof.
  split; [vm_compute; reflexivity|].
  apply (C3_initialize_supersedes_reset spec_of methods_of fuel proc
           (run (lift (Node._react_to_the_change_upstream spec_of fuel proc))
                (run (initialize proc) chain)) (VBool true));
    vm_compute; reflexivity.
Defined.

Lemma C4_pull_before_first_initialize_does_not_propagate_witness :
  let s := run (update src) chain in
  let pulled := Node.update spec_of methods_of (S 7) proc s in
  fst pulled = Err (no_attribute "NoneType" "items") /\
  attr (st_world (snd pulled)) src "there_has_been_a_change" = Some (VBool true) /\
  attr (st_world (snd pulled)) proc "there_has_been_a_change"
    = attr (st_world s) proc "there_has_been_a_change".
Proof.
  apply (C4_pull_before_first_initialize_does_not_propagate spec_of methods_of 7 src proc
           _ (object_at (run (update src) chain) proc) ["gain"]).
  - vm_compute. reflexivity.
  - vm_compute. reflexivity.
  - intros H. apply list_elem_of_singleton in H. discriminate.
  - vm_compute. reflexivity.
  - discriminate.
  - vm_compute. reflexivity.
  - vm_compute. reflexivity.
  - vm_compute. reflexivity.
Defined.

Lemma C6_rejected_mutation_is_not_committed_witness :
  Node.__setattr__ spec_of (S 7) src "frequency" (VInt (-5)) (st_world settled)
  = (Err (OtherError "ValueError" "frequency must be positive"), st_world settled).
Proof.
  apply (C6_rejected_mutation_is_not_committed spec_of 7 src "frequency" (VInt (-5))
           (st_world settled) (object_at settled src)).
  - vm_compute. reflexivity.
  - vm_compute. reflexivity.
Defined.



Lemma C2_reinitialize_iff_a_saved_value_changed_witness :
  let w := st_world (run (mutate src "frequency" (VInt 256)) settled) in
  let w' := snd (Node._react_to_the_change_upstream spec_of fuel proc w) in
  let changed :=
    exists name saved,
      name ∈ ["frequency"] /\ dict_get name [("frequency", VNone)] = Some saved /\
      py_ne saved (VInt 256) = true in
  (changed -> attr w' proc "_should_initialize" = Some (VBool true)) /\
  (~ changed ->
   attr w' proc "_should_reset" = Some (VBool true) /\
   attr w' proc "_should_initialize" = attr w proc "_should_initialize") /\
  changed.
Proof.
  intros w w' changed.
  assert (H := C2_reinitialize_iff_a_saved_value_changed spec_of fuel proc w w'
                 (object_at (run (mutate src "frequency" (VInt 256)) settled) proc)
                 ["frequency"] [("frequency", VNone)] (fun _ => VInt 256)).
  cbv zeta in H. destruct H as [H1 H2].
  - vm_compute. reflexivity.
  - vm_compute. reflexivity.
  - vm_compute. reflexivity.
  - apply NoDup_cons. split; [intros H; inversion H|apply NoDup_nil; exact I].
  - intros name. simpl. tauto.
  - intros name H. apply list_elem_of_singleton in H. subst name.
    vm_compute. reflexivity.
  - vm_compute. reflexivity.
  - vm_compute. reflexivity.
  - split; [exact H1|]. split; [exact H2|].
    exists "frequency", VNone. split; [constructor|]. split; reflexivity.
Defined.

Lemma example_initialize_keeps_output c self w :
  attr (snd (_initialize (methods_of c) self w)) self "output" = attr w self "output".
Proof.
  unfold methods_of.
  repeat match goal with |- context [String.eqb c ?x] => destruct (String.eqb c x) end;
    try reflexivity;
    cbn [_initialize SourceNode.methods];
    apply source_initialize_other_attr; discriminate.
Qed.

Lemma example_reset_keeps_output c self w :
  attr (snd (reset (methods_of c) self w)) self "output" = attr w self "output".
Proof.
  unfold methods_of.
  repeat match goal with |- context [String.eqb c ?x] => destruct (String.eqb c x) end;
    reflexivity.
Qed.

Lemma example_update_keeps_output_when_it_raises c self w e w' :
  _update (methods_of c) self w = (Err e, w') ->
  attr w' self "output" = attr w self "output".
Proof.
  unfold methods_of.
  repeat match goal with |- context [String.eqb c ?x] => destruct (String.eqb c x) end;
    cbn [_update SourceNode.methods]; intros H;
    try (apply (setattr_Err_attr spec_of _ _ _ _ _ _ _ self) in H;
         [exact H|discriminate|discriminate]);
    inversion H; reflexivity.
Qed.

Lemma C5_output_is_cleared_first_witness :
  let pulled := Node.update spec_of methods_of (S 7) proc settled in
  (fst pulled <> Ok tt -> attr (st_world (snd pulled)) proc "output" = Some VNone) /\
  (fst pulled = Ok tt ->
   exists c w1,
     attr w1 proc "output" = Some VNone /\
     obj_class <$> objs w1 !! proc = Some c /\
     _update (methods_of c) proc w1 = (Ok tt, st_world (snd pulled))) /\
  attr (st_world settled) proc "output" = Some (VInt 1).
Proof.
  split; [|split].
  - apply (C5_output_is_cleared_first spec_of methods_of 7 proc settled
             (object_at settled proc) ["gain"]).
    + vm_compute. reflexivity.
    + vm_compute. reflexivity.
    + intros H. apply list_elem_of_singleton in H. discriminate.
    + vm_compute. reflexivity.
    + intros c w. apply example_initialize_keeps_output.
    + intros c w. apply example_reset_keeps_output.
    + intros c w e w'. apply example_update_keeps_output_when_it_raises.
  - apply (C5_output_is_cleared_first spec_of methods_of 7 proc settled
             (object_at settled proc) ["gain"]).
    + vm_compute. reflexivity.
    + vm_compute. reflexivity.
    + intros H. apply list_elem_of_singleton in H. discriminate.
    + vm_compute. reflexivity.
    + intros c w. apply example_initialize_keeps_output.
    + intros c w. apply example_reset_keeps_output.
    + intros c w e w'. apply example_update_keeps_output_when_it_raises.
  - vm_compute. reflexivity.
Defined.

(** C8, as the claim has it, fails on the lone source once it has expired:
    [is_alive] is [False], yet the next pull computes and leaves 0 in
    [output]. *)
Lemma C8_expired_source_still_produces :
  ~ (fst (SourceNode.is_alive spec_of fuel src (st_world Cases.spent)) = Ok (VBool false) ->
     attr (st_world (snd (update src Cases.spent))) src "output" = Some VNone).
Proof.
  intros H. specialize (H ltac:(vm_compute; reflexivity)).
  vm_compute in H. discriminate H.
Qed.

Lemma C8_expired_source_still_runs_its_compute_step_witness :
  let w' := set_attr src "_should_reset" (VBool false)
              (set_attr src "_should_initialize" (VBool false)
                 (set_attr src "output" VNone (st_world Cases.spent))) in
  let computed := _update (methods_of (obj_class (object_at Cases.spent src))) src w' in
  attr w' src "_is_alive" = Some (VBool false) /\
  attr w' src "output" = Some VNone /\
  Node.update spec_of methods_of (S 7) src Cases.spent =
    (fst computed,
     State (snd computed) (st_calls Cases.spent ++ [Called src "_update"])).
Proof.
  apply (C8_expired_source_still_runs_its_compute_step spec_of methods_of 7 src Cases.spent
           (object_at Cases.spent src) ["frequency"] (VBool false) (VBool false)
           (VBool false)).
  - vm_compute. reflexivity.
  - vm_compute. reflexivity.
  - intros H. apply list_elem_of_singleton in H. discriminate.
  - intros H. apply list_elem_of_singleton in H. discriminate.
  - intros H. apply list_elem_of_singleton in H. discriminate.
  - intros w'. vm_compute. reflexivity.
  - intros w'. vm_compute. reflexivity.
  - intros w'. vm_compute. reflexivity.
  - vm_compute. reflexivity.
  - vm_compute. reflexivity.
  - reflexivity.
  - vm_compute. reflexivity.
  - reflexivity.
  - vm_compute. reflexivity.
Defined.

(** C9, as the claim has it, fails on the source that was found expired:
    [initialize()] at time 100 returns and records the new birth time, yet
    [is_alive] read at once is [False]. *)
Lemma C9_reinitialized_source_is_not_alive :
  ~ (fst (initialize src (tick 100 Cases.spent)) = Ok tt ->
     attr (st_world Cases.reborn) src "_birthtime" = Some (VInt 100) ->
     fst (SourceNode.is_alive spec_of fuel src (st_world Cases.reborn)) = Ok (VBool true)).
Proof.
  intros H.
  specialize (H ltac:(vm_compute; reflexivity) ltac:(vm_compute; reflexivity)).
  vm_compute in H. discriminate H.
Qed.

Lemma C9_source_is_alive_until_found_expired_witness :
  (let w2 := st_world (run (initialize src) (tick 10 Cases.lone)) in
   attr w2 src "_birthtime" = Some (VInt 10) /\
   SourceNode.is_alive spec_of (S 7) src w2 = (Ok (VBool true), w2) /\
   forall t, float_exact t ->
     SourceNode.is_alive spec_of (S 7) src (at_time t w2) =
     if 10 + 2 <? t
     then (Ok (VBool false), set_attr src "_is_alive" (VBool false) (at_time t w2))
     else (Ok (VBool true), at_time t w2)) /\
  (let w2 := st_world Cases.reborn in
   attr w2 src "_birthtime" = Some (VInt 100) /\
   SourceNode.is_alive spec_of (S 7) src w2 = (Ok (VBool false), w2) /\
   forall t, float_exact t ->
     SourceNode.is_alive spec_of (S 7) src (at_time t w2) =
     if 100 + 2 <? t
     then (Ok (VBool false), set_attr src "_is_alive" (VBool false) (at_time t w2))
     else (Ok (VBool false), at_time t w2)).
Proof.
  split.
  - apply (C9_source_is_alive_until_found_expired spec_of methods_of fuel 7 fuel
             "Source" 2 (st_world Cases.lone) src 10 (st_calls Cases.lone)
             (run (initialize src) (tick 10 Cases.lone)) ["frequency"] true).
    + lia.
    + vm_compute. discriminate.
    + vm_compute. discriminate.
    + vm_compute. discriminate.
    + vm_compute. reflexivity.
    + vm_compute. reflexivity.
    + vm_compute. reflexivity.
    + vm_compute. reflexivity.
    + reflexivity.
    + vm_compute. reflexivity.
    + reflexivity.
    + intros H. apply list_elem_of_singleton in H. discriminate.
    + intros w'. reflexivity.
  - apply (C9_source_is_alive_until_found_expired spec_of methods_of fuel 7 fuel
             "Source" 2 (st_world Cases.spent) src 100 (st_calls Cases.spent) Cases.reborn
             ["frequency"] false).
    + lia.
    + vm_compute. discriminate.
    + vm_compute. discriminate.
    + vm_compute. discriminate.
    + vm_compute. reflexivity.
    + vm_compute. reflexivity.
    + vm_compute. reflexivity.
    + vm_compute. reflexivity.
    + reflexivity.
    + vm_compute. reflexivity.
    + reflexivity.
    + intros H. apply list_elem_of_singleton in H. discriminate.
    + intros w'. reflexivity.
Defined.

Lemma C10_is_alive_needs_a_lifetime_and_initialize_witness :
  let w1 := snd (construct_source spec_of fuel "BareSource" VNone (World ∅ 0)) in
  (VNone = VNone ->
   SourceNode.is_alive spec_of fuel src (at_time 3 w1)
     = (Err (no_attribute "BareSource" "_is_alive"), at_time 3 w1) /\
   SourceNode._initialize spec_of fuel src (at_time 3 w1) = (Ok tt, at_time 3 w1)) /\
  (VNone <> VNone ->
   exists msg, SourceNode.is_alive spec_of fuel src (at_time 3 w1)
               = (Err (TypeError msg), at_time 3 w1)) /\
  (forall n w2,
     VNone = VInt n -> 0 <= n ->
     SourceNode._initialize spec_of fuel src (at_time 3 w1) = (Ok tt, w2) ->
     SourceNode.is_alive spec_of fuel src w2 = (Ok (VBool true), w2)).
Proof.
  intros w1.
  apply (C10_is_alive_needs_a_lifetime_and_initialize spec_of fuel fuel "BareSource" VNone
           (World ∅ 0) src w1 3).
  vm_compute. reflexivity.
Defined.

Lemma C10_is_alive_with_a_lifetime :
  let w1 := st_world bare in
  SourceNode.is_alive spec_of fuel src (at_time 3 w1)
    = (Err (TypeError "unsupported operand type(s) for +: 'NoneType' and 'int'"), at_time 3 w1) /\
  fst (SourceNode.is_alive spec_of fuel src
         (snd (SourceNode._initialize spec_of fuel src (at_time 3 w1)))) = Ok (VBool true).
Proof. split; vm_compute; reflexivity. Qed.

(** ** More of what the code does, on the examples *)

Lemma X1_constructed_node_is_pending_initialize_witness :
  let w1 := snd (Node.__init__ spec_of fuel src (Cases.fresh "Processor")) in
  attr w1 src "input_node" = Some VNone /\
  attr w1 src "output" = Some VNone /\
  attr w1 src "_should_initialize" = Some (VBool true) /\
  attr w1 src "_saved_from_upstream" = Some VNone /\
  (("_saved_from_upstream" ∉ ["gain"]) -> attr w1 src "_should_reset" = Some (VBool false)) /\
  (("_should_initialize" ∉ ["gain"]) -> ("_saved_from_upstream" ∉ ["gain"]) ->
   attr w1 src "there_has_been_a_change" = Some (VBool false)).
Proof.
  apply (X1_constructed_node_is_pending_initialize spec_of fuel src
           (Cases.fresh "Processor") _ (Obj "Processor" ∅) ["gain"]).
  - vm_compute. reflexivity.
  - vm_compute. reflexivity.
  - vm_compute. reflexivity.
Defined.

Lemma X2_mutation_schedules_a_reset_at_once_witness :
  let w := st_world settled in
  let w' := snd (Node.__setattr__ spec_of fuel proc "gain" (VInt 5) w) in
  attr w' proc "gain" = Some (VInt 5) /\
  ("gain" ∈ ["gain"] ->
   attr w' proc "_should_reset" = Some (VInt 1) /\
   attr w' proc "there_has_been_a_change" = Some (VBool true)) /\
  (("gain" ∉ ["gain"]) ->
   forall l k, l <> proc \/ k <> "gain" -> attr w' l k = attr w l k) /\
  (forall l k,
     l <> proc \/ (k <> "gain" /\ k <> "_should_reset" /\ k <> "there_has_been_a_change") ->
     attr w' l k = attr w l k).
Proof.
  apply (X2_mutation_schedules_a_reset_at_once spec_of fuel proc "gain" (VInt 5)
           (st_world settled) _ (object_at settled proc) ["gain"]).
  - vm_compute. reflexivity.
  - vm_compute. reflexivity.
  - vm_compute. reflexivity.
Defined.

Lemma X3_flags_as_triggers_exhaust_the_stack_witness :
  fst (Node.__setattr__ Cases.spec_of fuel src "gain" (VInt 5) (Cases.fresh "Eager"))
  = Err RecursionError.
Proof.
  apply (X3_flags_as_triggers_exhaust_the_stack Cases.spec_of fuel src "gain" (VInt 5)
           (Cases.fresh "Eager") (Obj "Eager" ∅) ["gain"; "there_has_been_a_change"]).
  - vm_compute. reflexivity.
  - vm_compute. reflexivity.
  - intros k v' w'. reflexivity.
  - right. in_list.
  - in_list.
Defined.

Lemma processor_of_the_chain : obj_class (object_at chain proc) = "Processor".
Proof. vm_compute. reflexivity. Qed.

Lemma X4_initialize_takes_a_snapshot_witness :
  exists d,
    attr (st_world (run (initialize proc) chain)) proc "_saved_from_upstream"
      = Some (VDict d) /\
    NoDup (map fst d) /\
    (forall k, k ∈ map fst d <-> k ∈ ["frequency"]) /\
    (forall k v, dict_get k d = Some v ->
                 Node.traverse_back_and_find fuel proc k (st_world chain)
                 = (Ok v, st_world chain)) /\
    st_calls (run (initialize proc) chain)
      = st_calls chain ++ [Called proc "initialize"; Called proc "_initialize"].
Proof.
  apply (X4_initialize_takes_a_snapshot spec_of methods_of fuel proc (st_world chain)
           (st_calls chain) (run (initialize proc) chain) (object_at chain proc)
           ["frequency"]).
  - vm_compute. reflexivity.
  - vm_compute. reflexivity.
  - intros w0. rewrite processor_of_the_chain. reflexivity.
  - vm_compute. reflexivity.
Defined.

Lemma X5_current_snapshot_requires_no_reinitialization_witness :
  let w := st_world (run (initialize proc) chain) in
  Node._the_change_requires_reinitialization fuel proc w = (Ok false, w).
Proof.
  apply (X5_current_snapshot_requires_no_reinitialization fuel proc ["frequency"]
           (st_world (run (initialize proc) chain)) [("frequency", VNone)]).
  - vm_compute. reflexivity.
  - repeat constructor.
  - vm_compute. reflexivity.
Defined.

(** No class of the example resets on [output] or on [_birthtime]. *)
Lemma example_resets_on key cls (names : list string) :
  CHANGES_IN_THESE_REQUIRE_RESET (spec_of cls) = Some names ->
  key ∈ names -> key = "frequency" \/ key = "gain".
Proof.
  unfold spec_of.
  repeat match goal with |- context [String.eqb cls ?c] => destruct (String.eqb cls c) end;
    cbn [CHANGES_IN_THESE_REQUIRE_RESET]; intros [= <-] Hk;
    repeat (apply elem_of_cons in Hk as [Hk|Hk]; [auto|]); inversion Hk.
Qed.

(** The methods of the example write [output] and [_birthtime] only. *)
Lemma example_methods_write c self w l k :
  k <> "output" -> k <> "_birthtime" ->
  attr (snd (_initialize (methods_of c) self w)) l k = attr w l k /\
  attr (snd (reset (methods_of c) self w)) l k = attr w l k /\
  attr (snd (_update (methods_of c) self w)) l k = attr w l k.
Proof.
  intros Ho Hb.
  assert (Hout : forall v w0, attr (snd (produce v self w0)) l k = attr w0 l k).
  { intros v w0. apply setattr_untriggered; [|now right].
    intros cls names Hn Hk. destruct (example_resets_on _ _ _ Hn Hk); discriminate. }
  assert (Hinit : forall w0,
             attr (snd (SourceNode._initialize spec_of fuel self w0)) l k = attr w0 l k).
  { intros w0. unfold SourceNode._initialize.
    pose proof (read_only_getattr (VRef self) "_should_self_destruct" w0) as R.
    unfold bind at 1.
    destruct (getattr (VRef self) "_should_self_destruct" w0) as [[d|e] w1];
      simpl in R; subst w1; [|reflexivity].
    destruct (truthy d); [|reflexivity].
    rewrite (bind_Ok_run _ _ _ _ _ (eq_refl : time_time w0 = (Ok (now w0), w0))).
    apply setattr_untriggered; [|now right].
    intros cls names Hn Hk. destruct (example_resets_on _ _ _ Hn Hk); discriminate. }
  unfold methods_of.
  repeat match goal with |- context [String.eqb c ?x] => destruct (String.eqb c x) end;
    cbn [_initialize reset _update SourceNode.methods]; repeat split;
    solve [apply Hout | apply Hinit | reflexivity].
Qed.

Lemma X6_pull_moves_the_change_flag_one_hop_witness :
  let pulled := Node.update spec_of methods_of (S 7) proc Cases.unsettled in
  attr (st_world (snd pulled)) src "there_has_been_a_change" = Some (VBool false) /\
  attr (st_world (snd pulled)) proc "there_has_been_a_change" = Some (VBool true).
Proof.
  apply (X6_pull_moves_the_change_flag_one_hop spec_of methods_of 7 src proc
           Cases.unsettled (object_at Cases.unsettled proc) ["gain"]
           (snd (Node._react_to_the_change_upstream spec_of (S 7) proc
                   (set_attr proc "output" VNone (st_world Cases.unsettled))))).
  - vm_compute. reflexivity.
  - vm_compute. reflexivity.
  - intros H. apply list_elem_of_singleton in H. discriminate.
  - vm_compute. reflexivity.
  - discriminate.
  - vm_compute. reflexivity.
  - vm_compute. reflexivity.
  - vm_compute. reflexivity.
  - intros c w l. apply example_methods_write; discriminate.
Defined.

Lemma X7_pull_never_lowers_the_own_flag_witness :
  attr (st_world (snd (Node.update spec_of methods_of fuel src chain))) src
    "there_has_been_a_change" = Some (VBool true).
Proof.
  apply (X7_pull_never_lowers_the_own_flag spec_of methods_of fuel src chain).
  - vm_compute. reflexivity.
  - vm_compute. discriminate.
  - intros c w Hup.
    destruct (example_methods_write c src w src "there_has_been_a_change")
      as (E1 & E2 & E3); [discriminate|discriminate|].
    rewrite E1, E2, E3. auto.
Defined.

Lemma X8_expired_source_stays_dead_witness :
  (forall t, fst (SourceNode.is_alive spec_of (S 7) src (at_time t (st_world expired)))
             = Ok (VBool false)) /\
  (forall t t', exists w2,
     SourceNode._initialize spec_of (S 7) src (at_time t (st_world expired)) = (Ok tt, w2) /\
     attr w2 src "_birthtime" = Some (VInt t) /\
     fst (SourceNode.is_alive spec_of (S 7) src (at_time t' w2)) = Ok (VBool false)).
Proof.
  apply (X8_expired_source_stays_dead spec_of 7 src (st_world expired)
           (object_at expired src) [] 0 2).
  - vm_compute. reflexivity.
  - vm_compute. reflexivity.
  - intros H. inversion H.
  - intros H. inversion H.
  - intros w'. vm_compute. reflexivity.
  - intros t w'. vm_compute. reflexivity.
  - vm_compute. reflexivity.
  - vm_compute. reflexivity.
  - vm_compute. reflexivity.
  - vm_compute. reflexivity.
Defined.

Lemma X9_source_resetting_on_its_fields_is_born_changed_witness :
  let w1 := snd (SourceNode.__init__ spec_of fuel src (VInt 2) (Cases.fresh "Source")) in
  attr w1 src "_should_reset" = Some (VInt 1) /\
  attr w1 src "there_has_been_a_change" = Some (VBool true).
Proof.
  apply (X9_source_resetting_on_its_fields_is_born_changed spec_of fuel src "Source"
           ["frequency"] "frequency" (VInt 2) (Cases.fresh "Source")).
  - vm_compute. reflexivity.
  - vm_compute. reflexivity.
  - in_list.
  - in_list.
  - vm_compute. reflexivity.
Defined.

Lemma X10_traversal_of_a_loop_exhausts_the_stack_witness :
  Node.traverse_back_and_find fuel src "frequency" Cases.loop
  = (Err RecursionError, Cases.loop).
Proof.
  apply (X10_traversal_of_a_loop_exhausts_the_stack fuel src "frequency" Cases.loop
           (fun l => l = src)).
  - vm_compute. reflexivity.
  - intros l ->. exists src. split; [reflexivity|].
    split; vm_compute; reflexivity.
  - reflexivity.
Defined.

Lemma X11_head_with_upstream_names_cannot_initialize_witness :
  let o := object_at Cases.headless src in
  Node.update spec_of methods_of (S 7) src Cases.headless =
    (Err (Node.missing_upstream (obj_class o) "frequency"),
     State (set_attr src "output" VNone (st_world Cases.headless))
           (st_calls Cases.headless ++ [Called src "initialize"])) /\
  attr (set_attr src "output" VNone (st_world Cases.headless)) src "_should_initialize"
    = Some (VBool true).
Proof.
  apply (X11_head_with_upstream_names_cannot_initialize spec_of methods_of 7 src
           Cases.headless (object_at Cases.headless src) [] ["gain"] "frequency").
  - reflexivity.
  - vm_compute. reflexivity.
  - vm_compute. reflexivity.
  - intros H. apply list_elem_of_singleton in H. discriminate.
  - vm_compute. reflexivity.
  - vm_compute. reflexivity.
  - vm_compute. reflexivity.
  - vm_compute. reflexivity.
Defined.

Lemma X12_upstream_change_runs_initialize_or_reset_witness :
  let pulled := Node.update spec_of methods_of (S 7) proc Cases.retuned in
  exists rest,
    st_calls (snd pulled)
      = st_calls Cases.retuned ++ Called proc "initialize" :: rest /\
    Forall (fun ev => ev = Called proc "_initialize" \/ ev = Called proc "_update") rest.
Proof.
  apply (X12_upstream_change_runs_initialize_or_reset spec_of methods_of 7 src proc
           Cases.retuned (object_at Cases.retuned proc) ["gain"] true
           (snd (Node._react_to_the_change_upstream spec_of (S 7) proc
                   (set_attr proc "output" VNone (st_world Cases.retuned))))
           (VBool false)).
  - vm_compute. reflexivity.
  - vm_compute. reflexivity.
  - intros H. apply list_elem_of_singleton in H. discriminate.
  - vm_compute. reflexivity.
  - vm_compute. reflexivity.
  - vm_compute. reflexivity.
  - vm_compute. reflexivity.
  - discriminate.
  - vm_compute. reflexivity.
  - vm_compute. reflexivity.
Defined.

Lemma X13_class_without_validation_has_no_instance_witness :
  let s := State (Cases.fresh "Node") [] in
  Node.__init__ spec_of (S 7) src (st_world s)
    = (Err (NotImplementedError EmptyString), st_world s) /\
  Node.update spec_of methods_of (S 7) src s
    = (Err (NotImplementedError EmptyString), s).
Proof.
  apply (X13_class_without_validation_has_no_instance spec_of methods_of 7 src
           (State (Cases.fresh "Node") []) (Obj "Node" ∅)).
  - vm_compute. reflexivity.
  - vm_compute. reflexivity.
Defined.

Lemma X14_initialize_by_hand_is_repeated_by_the_next_pull_witness :
  st_calls (run (update proc) (run (initialize proc) chain)) =
    st_calls chain ++ [Called proc "initialize"; Called proc "_initialize";
                       Called proc "initialize"; Called proc "_initialize";
                       Called proc "_update"].
Proof.
  apply (X14_initialize_by_hand_is_repeated_by_the_next_pull spec_of methods_of fuel proc
           chain (run (initialize proc) chain)
           (run (update proc) (run (initialize proc) chain))).
  - vm_compute. reflexivity.
  - intros c w Hup.
    destruct (example_methods_write c proc w proc "_should_initialize")
      as (E1 & _); [discriminate|discriminate|].
    now rewrite E1.
  - vm_compute. reflexivity.
  - vm_compute. reflexivity.
Defined.
